(** * balances-app: the webhook ingestion pipeline

    A shallow embedding of the structured (V2) webhook path of
    balances-app: the Zod schema of [v2-validation.ts], the Supabase-backed
    [V2DatabaseService], the repository layer, the webhook service with
    its rate limiter and the two versions of the [POST] handler of
    [api/v2/webhook/transaction/route.ts], together with the free-text
    grammar of [sms-parser].

    Conventions.
    - A JavaScript string is a [string]: a sequence of code units, here
      restricted to the code units below 256.
    - A JavaScript number is a [number]: NaN, the two infinities, or a
      finite value, kept as the rational it denotes (comparisons between
      finite doubles are exact, so nothing is rounded in what follows).
    - Rows of a table are a [list]; a UNIQUE constraint is checked by the
      insert, as the storage engine does.
    - Every call to the storage service is one atomic step; what other
      writers or an outage do in between is given by a script that the
      calls consume (see [Db]). *)

From Stdlib Require Import List String Ascii ZArith QArith Lia Bool Arith.
Import ListNotations.
Close Scope Q_scope.
Local Open Scope string_scope.
Set Warnings "-register-all".

(* ================================================================== *)
(** * JavaScript values                                                *)
(* ================================================================== *)

Module Js.

(** [String.prototype.includes]: the needle occurs at some position. *)
Fixpoint includes (needle s : string) : bool :=
  String.prefix needle s ||
  match s with
  | EmptyString => false
  | String _ rest => includes needle rest
  end.

(** [String.prototype.startsWith]. *)
Definition startsWith (p s : string) : bool := String.prefix p s.

(** [Array.prototype.join] on strings. *)
Fixpoint join (sep : string) (l : list string) : string :=
  match l with
  | [] => ""
  | [x] => x
  | x :: rest => x ++ sep ++ join sep rest
  end.

(** The part of [s] before the first occurrence of the character [c]:
    [s.split(c)[0]]. *)
Fixpoint split_head (c : ascii) (s : string) : string :=
  match s with
  | EmptyString => EmptyString
  | String a rest => if Ascii.eqb a c then EmptyString else String a (split_head c rest)
  end.

Inductive number : Type :=
| NaN
| Infinity
| NegInfinity
| Fin (q : Q).

(** [a > b] and [a <= b] on numbers; every comparison with NaN is false. *)
Definition gt (a b : number) : bool :=
  match a, b with
  | NaN, _ | _, NaN => false
  | Infinity, Infinity => false
  | Infinity, _ => true
  | _, Infinity => false
  | NegInfinity, _ => false
  | Fin _, NegInfinity => true
  | Fin x, Fin y => negb (Qle_bool x y)
  end.

Definition le (a b : number) : bool :=
  match a, b with
  | NaN, _ | _, NaN => false
  | _, Infinity => true
  | Infinity, _ => false
  | NegInfinity, _ => true
  | Fin _, NegInfinity => false
  | Fin x, Fin y => Qle_bool x y
  end.

(** [Number.isFinite]. *)
Definition isFinite (a : number) : bool :=
  match a with
  | Fin _ => true
  | _ => false
  end.

Definition ofZ (z : Z) : number := Fin (inject_Z z).

(** [String.prototype.trim]. *)
Definition is_white (c : ascii) : bool :=
  let n := nat_of_ascii c in
  ((9 <=? n) && (n <=? 13) || (n =? 32) || (n =? 160))%nat.

Fixpoint trimStart (s : string) : string :=
  match s with
  | String c rest => if is_white c then trimStart rest else s
  | EmptyString => s
  end.

Fixpoint trimEnd (s : string) : string :=
  match s with
  | String c rest =>
      match trimEnd rest with
      | EmptyString => if is_white c then EmptyString else String c EmptyString
      | rest' => String c rest'
      end
  | EmptyString => EmptyString
  end.

Definition trim (s : string) : string := trimEnd (trimStart s).

(** A decoded JSON value, or [undefined] for a missing property. *)
Inductive value : Type :=
| Undefined
| Null
| Bool (b : bool)
| Num (n : number)
| Str (s : string)
| Arr (l : list value)
| Obj (fields : list (string * value)).

(** Property read [o[k]]. *)
Fixpoint get (fields : list (string * value)) (k : string) : value :=
  match fields with
  | [] => Undefined
  | (k', v) :: rest => if String.eqb k' k then v else get rest k
  end.

(** The object [{ ...o, [k]: v }]. *)
Definition with_key (k : string) (v : value) (fields : list (string * value))
  : list (string * value) :=
  (k, v) :: filter (fun kv => negb (String.eqb (fst kv) k)) fields.

(** The object [o] after [delete o[k]]. *)
Definition without_key (k : string) (fields : list (string * value))
  : list (string * value) :=
  filter (fun kv => negb (String.eqb (fst kv) k)) fields.

(** Truthiness, as [||] and [!] test it. An object or an array is
    truthy. *)
Definition truthy (v : value) : bool :=
  match v with
  | Undefined | Null => false
  | Bool b => b
  | Num NaN => false
  | Num (Fin q) => negb (Qeq_bool q 0)
  | Num _ => true
  | Str s => negb (String.eqb s "")
  | Arr _ | Obj _ => true
  end.

(** Zod's name for the type of a value ([getParsedType]). *)
Definition parsedType (v : value) : string :=
  match v with
  | Undefined => "undefined"
  | Null => "null"
  | Bool _ => "boolean"
  | Num NaN => "nan"
  | Num _ => "number"
  | Str _ => "string"
  | Arr _ => "array"
  | Obj _ => "object"
  end.

(** [String.prototype.toLowerCase] on code units below 256: the letters
    A to Z and the capital letters of Latin-1 (all of C0 to DE but the
    multiplication sign D7) move down by 32. *)
Definition lower_char (c : ascii) : ascii :=
  let n := nat_of_ascii c in
  if ((65 <=? n) && (n <=? 90) || (192 <=? n) && (n <=? 222) && negb (n =? 215))%nat
  then ascii_of_nat (n + 32)
  else c.

Fixpoint toLowerCase (s : string) : string :=
  match s with
  | EmptyString => EmptyString
  | String c rest => String (lower_char c) (toLowerCase rest)
  end.

(** [s.replace(/\s+/g, '')]: every run of white space is removed. *)
Fixpoint removeWhitespace (s : string) : string :=
  match s with
  | EmptyString => EmptyString
  | String c rest => if is_white c then removeWhitespace rest else String c (removeWhitespace rest)
  end.

(** A header or a variable of the environment in a condition: [null],
    [undefined] and the empty string are falsy. *)
Definition present (x : option string) : bool :=
  match x with
  | Some s => negb (String.eqb s "")
  | None => false
  end.

(** [s.replace(needle, '')] with a string for needle: the first
    occurrence is removed. *)
Fixpoint removeFirst (needle s : string) : string :=
  if String.prefix needle s
  then String.substring (String.length needle) (String.length s - String.length needle) s
  else match s with
       | EmptyString => EmptyString
       | String c rest => String c (removeFirst needle rest)
       end.

(** [parseInt(s)] without a radix: white space is skipped, then a sign,
    then [0x] or [0X] selects base 16, and the longest run of digits is
    read; [None] is NaN. The result is kept exact: the rounding of a
    long run of digits to a double does not change how it compares with
    a small integer. *)
Definition digit_of (radix : Z) (c : ascii) : option Z :=
  let n := Z.of_nat (nat_of_ascii c) in
  let d := if ((48 <=? n) && (n <=? 57))%Z then Some (n - 48)%Z
           else if ((97 <=? n) && (n <=? 122))%Z then Some (n - 87)%Z
           else if ((65 <=? n) && (n <=? 90))%Z then Some (n - 55)%Z
           else None in
  match d with
  | Some v => if (v <? radix)%Z then Some v else None
  | None => None
  end.

Fixpoint read_digits (radix : Z) (acc : Z) (s : string) : Z :=
  match s with
  | EmptyString => acc
  | String c rest =>
      match digit_of radix c with
      | Some v => read_digits radix (acc * radix + v)%Z rest
      | None => acc
      end
  end.

Definition parseInt (s : string) : option Z :=
  let s := trimStart s in
  let '(sign, s) := match s with
                    | String "-" rest => ((-1)%Z, rest)
                    | String "+" rest => (1%Z, rest)
                    | _ => (1%Z, s)
                    end in
  let '(radix, s) := match s with
                     | String "0" (String "x" rest) => (16%Z, rest)
                     | String "0" (String "X" rest) => (16%Z, rest)
                     | _ => (10%Z, s)
                     end in
  match s with
  | EmptyString => None
  | String c _ =>
      match digit_of radix c with
      | Some _ => Some (sign * read_digits radix 0 s)%Z
      | None => None
      end
  end.

(** Every character of [s] passes [p]. *)
Fixpoint every (p : ascii -> bool) (s : string) : bool :=
  match s with
  | EmptyString => true
  | String c rest => p c && every p rest
  end.

End Js.

(* ================================================================== *)
(** * Regular expressions                                              *)
(* ================================================================== *)

(** The regular expressions of the sources are kept as syntax and run by
    a backtracking matcher with greedy quantifiers and numbered capture
    groups, as a JavaScript engine runs them. *)

Module Re.

Inductive regex : Type :=
| Eps
| Chr (c : ascii)
| Cls (p : ascii -> bool)
| Cat (r1 r2 : regex)
| Alt (r1 r2 : regex)
| Star (r : regex)
| Group (r : regex)
| Eol.

(** [r+], [r{n}], [r{n,m}], a literal string. *)
Definition Plus (r : regex) : regex := Cat r (Star r).

Definition Opt (r : regex) : regex := Alt r Eps.

Fixpoint Times (n : nat) (r : regex) : regex :=
  match n with
  | O => Eps
  | S n' => Cat r (Times n' r)
  end.

Fixpoint UpTo (n : nat) (r : regex) : regex :=
  match n with
  | O => Eps
  | S n' => Opt (Cat r (UpTo n' r))
  end.

Definition Between (n m : nat) (r : regex) : regex := Cat (Times n r) (UpTo (m - n) r).

Fixpoint Lit (s : string) : regex :=
  match s with
  | EmptyString => Eps
  | String c rest => Cat (Chr c) (Lit rest)
  end.

(** Character classes. *)
Definition in_range (lo hi : ascii) (c : ascii) : bool :=
  (nat_of_ascii lo <=? nat_of_ascii c)%nat && (nat_of_ascii c <=? nat_of_ascii hi)%nat.

Definition is_digit (c : ascii) : bool := in_range "0" "9" c.

Definition is_upper (c : ascii) : bool := in_range "A" "Z" c.

Definition is_lower (c : ascii) : bool := in_range "a" "z" c.

(** [\s] on code units below 256: tab, line feed, vertical tab, form
    feed, carriage return, space and the no-break space. *)
Definition is_space (c : ascii) : bool :=
  let n := nat_of_ascii c in
  ((9 <=? n) && (n <=? 13) || (n =? 32) || (n =? 160))%nat.

Definition is_char (x : ascii) (c : ascii) : bool := Ascii.eqb x c.

Definition drop_len (s rest : string) : nat := String.length s - String.length rest.

(** The matcher, in continuation-passing style: [run r s caps k] tries
    to match [r] at the start of [s] and hands the rest of the input
    and the captures so far to [k]; a failing [k] makes it backtrack.
    An iteration of [Star] that consumes nothing is not repeated. *)
Fixpoint run {A : Type} (r : regex) (s : string) (caps : list string)
         (k : string -> list string -> option A) {struct r} : option A :=
  match r with
  | Eps => k s caps
  | Chr c =>
      match s with
      | String a rest => if Ascii.eqb a c then k rest caps else None
      | EmptyString => None
      end
  | Cls p =>
      match s with
      | String a rest => if p a then k rest caps else None
      | EmptyString => None
      end
  | Cat r1 r2 => run r1 s caps (fun s1 caps1 => run r2 s1 caps1 k)
  | Alt r1 r2 =>
      match run r1 s caps k with
      | Some x => Some x
      | None => run r2 s caps k
      end
  | Star r1 =>
      (fix loop (fuel : nat) (s : string) (caps : list string) {struct fuel} : option A :=
         match fuel with
         | O => k s caps
         | S fuel' =>
             match run r1 s caps
                     (fun s1 caps1 =>
                        if (String.length s1 <? String.length s)%nat
                        then loop fuel' s1 caps1
                        else None) with
             | Some x => Some x
             | None => k s caps
             end
         end) (String.length s) s caps
  | Group r1 =>
      run r1 s caps
          (fun s1 caps1 => k s1 (caps1 ++ [String.substring 0 (drop_len s s1) s])%list)
  | Eol =>
      match s with
      | EmptyString => k s caps
      | _ => None
      end
  end.

(** [/^r/.test(s)] : a match at position 0. A pattern that must reach
    the end of the input ends in [Eol]. *)
Definition test_anchored (r : regex) (s : string) : bool :=
  match run r s [] (fun _ _ => Some tt) with
  | Some _ => true
  | None => false
  end.

(** [s.match(/r/)] without the [g] flag: the leftmost match, as the
    list of its capture groups. *)
Fixpoint exec (r : regex) (s : string) : option (list string) :=
  match run r s [] (fun _ caps => Some caps) with
  | Some caps => Some caps
  | None =>
      match s with
      | EmptyString => None
      | String _ rest => exec r rest
      end
  end.

(** The loop that [run] makes for [Star r], with the matcher of [r] as
    [step]: [run (Star r) s caps k] is [star_loop (run r) k (length s) s caps]. *)
Definition star_loop {A : Type}
           (step : string -> list string -> (string -> list string -> option A) -> option A)
           (k : string -> list string -> option A) : nat -> string -> list string -> option A :=
  fix loop (fuel : nat) (s : string) (caps : list string) {struct fuel} : option A :=
    match fuel with
    | O => k s caps
    | S fuel' =>
        match step s caps
                (fun s1 caps1 =>
                   if (String.length s1 <? String.length s)%nat
                   then loop fuel' s1 caps1
                   else None) with
        | Some x => Some x
        | None => k s caps
        end
    end.

End Re.

(* ================================================================== *)
(** * Dates                                                            *)
(* ================================================================== *)

(** The time value of a [Date] is the number of milliseconds since the
    epoch, [None] for an invalid date. The calendar functions follow the
    definitions of the language standard (Day, DayFromYear, YearFromTime,
    MonthFromTime, DateFromTime, MakeDay); the year is searched in the
    years 0000 to 9999, the years an ISO timestamp of a payload can name. *)

Module JsDate.
Local Open Scope Z_scope.

Definition msPerDay : Z := 86400000.

Definition Day (t : Z) : Z := t / msPerDay.

Definition TimeWithinDay (t : Z) : Z := t mod msPerDay.

Definition InLeapYear (y : Z) : bool :=
  (y mod 4 =? 0) && (negb (y mod 100 =? 0) || (y mod 400 =? 0)).

Definition DaysInYear (y : Z) : Z := if InLeapYear y then 366 else 365.

Definition DayFromYear (y : Z) : Z :=
  365 * (y - 1970) + (y - 1969) / 4 - (y - 1901) / 100 + (y - 1601) / 400.

(** The largest year, at most [y], whose first day is not after [day]. *)
Fixpoint year_search (fuel : nat) (y : Z) (day : Z) : Z :=
  match fuel with
  | O => y
  | S fuel' => if DayFromYear y <=? day then y else year_search fuel' (y - 1) day
  end.

Definition YearFromDay (day : Z) : Z := year_search 10000 9999 day.

(** First day of month [m] (1 to 12) within a year, [m = 13] being the
    end of the year. *)
Definition monthStart (leap : bool) (m : Z) : Z :=
  let l := if leap then 1 else 0 in
  if m <=? 1 then 0
  else if m =? 2 then 31
  else if m =? 3 then 59 + l
  else if m =? 4 then 90 + l
  else if m =? 5 then 120 + l
  else if m =? 6 then 151 + l
  else if m =? 7 then 181 + l
  else if m =? 8 then 212 + l
  else if m =? 9 then 243 + l
  else if m =? 10 then 273 + l
  else if m =? 11 then 304 + l
  else if m =? 12 then 334 + l
  else 365 + l.

Definition DaysInMonth (y m : Z) : Z :=
  monthStart (InLeapYear y) (m + 1) - monthStart (InLeapYear y) m.

(** Month (1 to 12) of the day [d] within a year. *)
Definition monthOfDay (leap : bool) (d : Z) : Z :=
  if d <? monthStart leap 2 then 1
  else if d <? monthStart leap 3 then 2
  else if d <? monthStart leap 4 then 3
  else if d <? monthStart leap 5 then 4
  else if d <? monthStart leap 6 then 5
  else if d <? monthStart leap 7 then 6
  else if d <? monthStart leap 8 then 7
  else if d <? monthStart leap 9 then 8
  else if d <? monthStart leap 10 then 9
  else if d <? monthStart leap 11 then 10
  else if d <? monthStart leap 12 then 11
  else 12.

Record civil : Type := { year : Z; month : Z; date : Z }.

Definition civilFromDay (day : Z) : civil :=
  let y := YearFromDay day in
  let d := day - DayFromYear y in
  let m := monthOfDay (InLeapYear y) d in
  {| year := y; month := m; date := d - monthStart (InLeapYear y) m + 1 |}.

Definition MakeDay (c : civil) : Z :=
  DayFromYear (year c) + monthStart (InLeapYear (year c)) (month c) + date c - 1.

Definition MakeTime (h mi s ms : Z) : Z := ((h * 60 + mi) * 60 + s) * 1000 + ms.

Definition MakeDate (day time : Z) : Z := day * msPerDay + time.

(** ** Digits *)

Definition digit (c : ascii) : option Z :=
  if Re.is_digit c then Some (Z.of_nat (nat_of_ascii c) - 48) else None.

Definition digit_char (d : Z) : ascii := ascii_of_nat (48 + Z.to_nat d).

Fixpoint take_digits (n : nat) (s : string) (acc : Z) : option (Z * string) :=
  match n with
  | O => Some (acc, s)
  | S n' =>
      match s with
      | String c rest =>
          match digit c with
          | Some d => take_digits n' rest (10 * acc + d)
          | None => None
          end
      | EmptyString => None
      end
  end.

Definition expect (c : ascii) (s : string) : option string :=
  match s with
  | String a rest => if Ascii.eqb a c then Some rest else None
  | EmptyString => None
  end.

Definition pad2 (n : Z) : string :=
  String (digit_char (n / 10)) (String (digit_char (n mod 10)) "").

Definition pad3 (n : Z) : string := String (digit_char (n / 100)) (pad2 (n mod 100)).

Definition pad4 (n : Z) : string := String (digit_char (n / 1000)) (pad3 (n mod 1000)).

(** ** The ISO format [YYYY-MM-DDTHH:mm:ss(.s+)?Z] *)

(** The fraction of a second, to the millisecond: the first three
    digits after the point; further digits are dropped. *)
Fixpoint skip_digits (s : string) : string :=
  match s with
  | String c rest => if Re.is_digit c then skip_digits rest else s
  | EmptyString => s
  end.

Fixpoint millis (n : nat) (scale : Z) (s : string) : Z * string :=
  match n with
  | O => (0, skip_digits s)
  | S n' =>
      match s with
      | String c rest =>
          match digit c with
          | Some d => let (v, r) := millis n' (scale / 10) rest in (scale * d + v, r)
          | None => (0, s)
          end
      | EmptyString => (0, s)
      end
  end.

Definition fraction (s : string) : option (Z * string) :=
  match s with
  | String c rest =>
      if Ascii.eqb c "."
      then match rest with
           | String c1 _ =>
               match digit c1 with
               | Some _ => Some (millis 3 100 rest)
               | None => None
               end
           | EmptyString => None
           end
      else Some (0, s)
  | EmptyString => Some (0, s)
  end.

Record fields : Type :=
  { f_civil : civil; f_hour : Z; f_minute : Z; f_second : Z; f_ms : Z }.

Definition valid_civil (c : civil) : bool :=
  (0 <=? year c) && (year c <=? 9999) &&
  (1 <=? month c) && (month c <=? 12) &&
  (1 <=? date c) && (date c <=? DaysInMonth (year c) (month c)).

Definition valid_fields (f : fields) : bool :=
  valid_civil (f_civil f) &&
  (f_hour f <=? 23) && (f_minute f <=? 59) && (f_second f <=? 59).

Definition bind {A B : Type} (x : option A) (k : A -> option B) : option B :=
  match x with
  | Some a => k a
  | None => None
  end.

Notation "x <- c ;; k" := (bind c (fun x => k))
  (at level 61, c at next level, right associativity).

Notation "' p <- c ;; k" := (bind c (fun x => let 'p := x in k))
  (at level 61, p pattern, c at next level, right associativity).

Definition parse_date (s : string) : option (civil * string) :=
  '(y, s) <- take_digits 4 s 0 ;;
  s <- expect "-" s ;;
  '(m, s) <- take_digits 2 s 0 ;;
  s <- expect "-" s ;;
  '(d, s) <- take_digits 2 s 0 ;;
  Some ({| year := y; month := m; date := d |}, s).

Definition parse_time (s : string) : option (Z * Z * Z * string) :=
  '(h, s) <- take_digits 2 s 0 ;;
  s <- expect ":" s ;;
  '(mi, s) <- take_digits 2 s 0 ;;
  s <- expect ":" s ;;
  '(sec, s) <- take_digits 2 s 0 ;;
  Some (h, mi, sec, s).

(** The fields of a timestamp in the UTC form, when it is one and names
    a date and a time that exist. Zod's [datetime()] check and
    [new Date(s)] are both read off this function. *)
Definition parse_iso (s : string) : option fields :=
  '(c, s) <- parse_date s ;;
  s <- expect "T" s ;;
  '(h, mi, sec, s) <- parse_time s ;;
  '(ms, s) <- fraction s ;;
  let f := {| f_civil := c; f_hour := h; f_minute := mi; f_second := sec; f_ms := ms |} in
  if String.eqb s "Z" && valid_fields f then Some f else None.

Definition timeValue (f : fields) : Z :=
  MakeDate (MakeDay (f_civil f)) (MakeTime (f_hour f) (f_minute f) (f_second f) (f_ms f)).

(** [new Date(s)] for a string [s]: the time value, [None] for an
    invalid date. Only the UTC form above is read; it is the only form
    the schema lets through. *)
Definition ofString (s : string) : option Z := option_map timeValue (parse_iso s).

Definition fmt_date (c : civil) : string :=
  pad4 (year c) ++ "-" ++ pad2 (month c) ++ "-" ++ pad2 (date c).

Definition fmt_time (t : Z) : string :=
  pad2 (t / 3600000) ++ ":" ++ pad2 (t / 60000 mod 60) ++ ":" ++ pad2 (t / 1000 mod 60).

(** The time value that a date and a time of day denote when they are
    read together as UTC. *)
Definition recombine (d tm : string) : option Z := ofString (d ++ "T" ++ tm ++ "Z").

(** [Date.prototype.toISOString] of a valid date. *)
Definition toISOString (t : Z) : string :=
  fmt_date (civilFromDay (Day t)) ++ "T" ++ fmt_time (TimeWithinDay t)
    ++ "." ++ pad3 (t mod 1000) ++ "Z".

Definition fmt_offset (off : Z) : string :=
  let m := Z.abs off / 60000 in
  (if off <? 0 then "-" else "+") ++ pad2 (m / 60) ++ pad2 (m mod 60).

(** [Date.prototype.toTimeString] of a valid date: the wall-clock time
    of the host, followed by its offset from UTC; the name of the zone
    that engines add in parentheses is left out. [localTZA t] is the
    offset of the host's time zone at the instant [t], in milliseconds. *)
Definition toTimeString (localTZA : Z -> Z) (t : Z) : string :=
  fmt_time (TimeWithinDay (t + localTZA t)) ++ " GMT" ++ fmt_offset (localTZA t).

End JsDate.

Arguments JsDate.YearFromDay : simpl never.
Arguments JsDate.toISOString : simpl never.
Arguments JsDate.toTimeString : simpl never.
Arguments JsDate.parse_iso : simpl never.

(* ================================================================== *)
(** * The schema library                                               *)
(* ================================================================== *)

(** The combinators of the Zod library (version 3) that
    [v2-validation.ts] uses. A schema reads a value at a path and either
    aborts or produces a value, in both cases with the issues it found;
    the parse succeeds when there is a value and no issue. *)

Module Zod.

Record ZodIssue : Type :=
  { code : string; path : list string; message : string }.

Inductive ParseReturn (A : Type) : Type :=
| Parsed (value : A) (issues : list ZodIssue)
| Aborted (issues : list ZodIssue).
Arguments Parsed {A} value issues.
Arguments Aborted {A} issues.

Definition Schema (A : Type) : Type := list string -> Js.value -> ParseReturn A.

Inductive SafeParseReturn (A : Type) : Type :=
| Success (data : A)
| Failure (error : list ZodIssue).
Arguments Success {A} data.
Arguments Failure {A} error.

Definition safeParse {A : Type} (schema : Schema A) (input : Js.value) : SafeParseReturn A :=
  match schema [] input with
  | Parsed a [] => Success a
  | Parsed _ issues => Failure issues
  | Aborted issues => Failure issues
  end.

Definition invalid_type (expected : string) (p : list string) (v : Js.value) : ZodIssue :=
  {| code := "invalid_type";
     path := p;
     message := match v with
                | Js.Undefined => "Required"
                | _ => "Expected " ++ expected ++ ", received " ++ Js.parsedType v
                end |}.

(** A check of a string or number schema: the test, and the code and
    message of the issue it raises. *)
Record Check (A : Type) : Type :=
  { holds : A -> bool; check_code : A -> string; check_message : string }.
Arguments holds {A} c a.
Arguments check_code {A} c.
Arguments check_message {A} c.

Definition run_checks {A : Type} (checks : list (Check A)) (p : list string) (a : A)
  : list ZodIssue :=
  flat_map (fun c => if holds c a then []
                     else [{| code := check_code c a; path := p; message := check_message c |}])
           checks.

(** [z.string()] with its checks. *)
Definition string_ (checks : list (Check string)) : Schema string :=
  fun p v =>
    match v with
    | Js.Str s => Parsed s (run_checks checks p s)
    | _ => Aborted [invalid_type "string" p v]
    end.

(** [z.number()] with its checks; NaN is not a number for Zod. *)
Definition number_ (checks : list (Check Js.number)) : Schema Js.number :=
  fun p v =>
    match v with
    | Js.Num Js.NaN => Aborted [invalid_type "number" p v]
    | Js.Num n => Parsed n (run_checks checks p n)
    | _ => Aborted [invalid_type "number" p v]
    end.

(** [.refine(test, message)]: runs on the value of a schema that did
    not abort, also when earlier checks raised issues. *)
Definition refine {A : Type} (inner : Schema A) (test : A -> bool) (msg : string) : Schema A :=
  fun p v =>
    match inner p v with
    | Parsed a issues =>
        Parsed a (issues ++ (if test a then []
                             else [{| code := "custom"; path := p; message := msg |}]))%list
    | Aborted issues => Aborted issues
    end.

(** [z.enum([...])]. *)
Definition enum (options : list string) : Schema string :=
  fun p v =>
    match v with
    | Js.Str s =>
        if existsb (String.eqb s) options then Parsed s []
        else Aborted [{| code := "invalid_enum_value"; path := p;
                         message := "Invalid enum value. Expected "
                                      ++ Js.join " | " (map (fun o => "'" ++ o ++ "'") options)
                                      ++ ", received '" ++ s ++ "'" |}]
    | _ => Aborted [invalid_type (Js.join " | " (map (fun o => "'" ++ o ++ "'") options)) p v]
    end.

(** [.default(d)]: an [undefined] input is replaced by [d] before the
    inner schema runs. *)
Definition default {A : Type} (inner : Schema A) (d : Js.value) : Schema A :=
  fun p v =>
    match v with
    | Js.Undefined => inner p d
    | _ => inner p v
    end.

(** [.optional()]: an [undefined] input is accepted as it is, and the
    inner schema does not run on it. *)
Definition optional {A : Type} (inner : Schema A) : Schema (option A) :=
  fun p v =>
    match v with
    | Js.Undefined => Parsed None []
    | _ =>
        match inner p v with
        | Parsed a issues => Parsed (Some a) issues
        | Aborted issues => Aborted issues
        end
    end.

(** [z.any()]. *)
Definition any : Schema Js.value := fun _ v => Parsed v [].

(** Building the value of an object schema from the results of its
    keys: all issues are kept, and one aborted key aborts the object. *)
Definition pure {A : Type} (a : A) : ParseReturn A := Parsed a [].

Definition ap {A B : Type} (f : ParseReturn (A -> B)) (x : ParseReturn A) : ParseReturn B :=
  match f, x with
  | Parsed g i, Parsed a j => Parsed (g a) (i ++ j)
  | Parsed _ i, Aborted j => Aborted (i ++ j)
  | Aborted i, Parsed _ j => Aborted (i ++ j)
  | Aborted i, Aborted j => Aborted (i ++ j)
  end.

(** The key [k] of an object at path [p]. *)
Definition key {A : Type} (schema : Schema A) (p : list string)
           (o : list (string * Js.value)) (k : string) : ParseReturn A :=
  schema (p ++ [k])%list (Js.get o k).

(** Checks of strings and numbers. *)
Definition min (n : nat) (msg : string) : Check string :=
  {| holds := fun s => (n <=? String.length s)%nat; check_code := fun _ => "too_small";
     check_message := msg |}.

Definition max (n : nat) (msg : string) : Check string :=
  {| holds := fun s => (String.length s <=? n)%nat; check_code := fun _ => "too_big";
     check_message := msg |}.

Definition length (n : nat) (msg : string) : Check string :=
  {| holds := fun s => (String.length s =? n)%nat;
     check_code := fun s => if (String.length s <? n)%nat then "too_small" else "too_big";
     check_message := msg |}.

Definition regex (r : Re.regex) (msg : string) : Check string :=
  {| holds := Re.test_anchored r; check_code := fun _ => "invalid_string";
     check_message := msg |}.

(** [.datetime()]: an ISO 8601 timestamp in UTC (no offset), with any
    number of fractional digits, naming a date and time that exist. *)
Definition datetime (msg : string) : Check string :=
  {| holds := fun s => match JsDate.parse_iso s with Some _ => true | None => false end;
     check_code := fun _ => "invalid_string"; check_message := msg |}.

Definition positive (msg : string) : Check Js.number :=
  {| holds := fun n => Js.gt n (Js.ofZ 0); check_code := fun _ => "too_small";
     check_message := msg |}.

Definition max_number (bound : Z) (msg : string) : Check Js.number :=
  {| holds := fun n => Js.le n (Js.ofZ bound); check_code := fun _ => "too_big";
     check_message := msg |}.

End Zod.

(* ================================================================== *)
(** * v2-validation.ts                                                 *)
(* ================================================================== *)

Module V2Validation.
Import Re.

(** [types.ts]: the payload of the structured webhook. *)
Record Metadata : Type :=
  { accountNumber : option string;
    senderName : option string;
    reference : option string;
    others : list (string * Js.value) }.

Record V2WebhookRequest : Type :=
  { source : string;
    timestamp : string;
    sourceFrom : string;
    sourceTo : string;
    event : string;
    message : string;
    amount : Js.number;
    currency : option string;
    webhookId : string;
    metadata : option Metadata }.

Definition transactionEventSchema : Zod.Schema string :=
  Zod.enum ["deposit"; "withdrawal"; "transfer"].

Definition sourceTypeSchema : Zod.Schema string :=
  Zod.enum ["email"; "phone"; "webhook"].

(** [[^\s@]] *)
Definition not_space_at (c : ascii) : bool := negb (is_space c || is_char "@" c).

(** [/^[^\s@]+@[^\s@]+\.[^\s@]+$/] *)
Definition email_re : regex :=
  Cat (Plus (Cls not_space_at))
      (Cat (Chr "@")
           (Cat (Plus (Cls not_space_at))
                (Cat (Chr ".") (Cat (Plus (Cls not_space_at)) Eol)))).

(** [/^\+\d{10,15}$/] *)
Definition phone_re : regex :=
  Cat (Chr "+") (Cat (Between 10 15 (Cls is_digit)) Eol).

Definition isValidEmail (email : string) : bool := test_anchored email_re email.

Definition isValidPhone (phone : string) : bool := test_anchored phone_re phone.

Definition sourceValueSchema : Zod.Schema string :=
  Zod.refine
    (Zod.string_ [Zod.min 1 "Source value cannot be empty";
                  Zod.max 255 "Source value too long"])
    (fun val =>
       if Js.includes "@" val then test_anchored email_re val
       else if Js.startsWith "+" val then test_anchored phone_re val
       else (0 <? String.length val)%nat)
    "Invalid source value format".

Definition metadata_key (k : string) : bool :=
  String.eqb k "accountNumber" || String.eqb k "senderName" || String.eqb k "reference".

(** The three declared keys are optional strings; [.catchall(z.any())]
    lets every other key through untouched. *)
Definition v2WebhookMetadataSchema : Zod.Schema Metadata :=
  fun p v =>
    match v with
    | Js.Obj o =>
        Zod.ap (Zod.ap (Zod.ap (Zod.ap (Zod.pure Build_Metadata)
          (Zod.key (Zod.optional (Zod.string_ [])) p o "accountNumber"))
          (Zod.key (Zod.optional (Zod.string_ [])) p o "senderName"))
          (Zod.key (Zod.optional (Zod.string_ [])) p o "reference"))
          (Zod.pure (filter (fun kv => negb (metadata_key (fst kv))) o))
    | _ => Zod.Aborted [Zod.invalid_type "object" p v]
    end.

(** [/^[a-z0-9_-]+$/] *)
Definition source_char (c : ascii) : bool :=
  is_lower c || is_digit c || is_char "_" c || is_char "-" c.

(** [/^[A-Z]{3}$/] *)
Definition currency_re : regex := Cat (Times 3 (Cls is_upper)) Eol.

(** [/^[a-zA-Z0-9_-]+$/] *)
Definition webhookId_char (c : ascii) : bool :=
  is_lower c || is_upper c || is_digit c || is_char "_" c || is_char "-" c.

Definition MAX_AMOUNT : Z := 999999999999.

Definition amountSchema : Zod.Schema Js.number :=
  Zod.refine
    (Zod.number_ [Zod.positive "Amount must be positive";
                  Zod.max_number MAX_AMOUNT "Amount too large"])
    Js.isFinite
    "Amount must be a valid number".

(** [z.string().length(3, ..).regex(..).default('COP').optional()] *)
Definition currencySchema : Zod.Schema (option string) :=
  Zod.optional
    (Zod.default
       (Zod.string_ [Zod.length 3 "Currency must be 3 characters";
                     Zod.regex currency_re "Currency must be uppercase ISO code"])
       (Js.Str "COP")).

Definition v2WebhookRequestSchema : Zod.Schema V2WebhookRequest :=
  fun p v =>
    match v with
    | Js.Obj o =>
        Zod.ap (Zod.ap (Zod.ap (Zod.ap (Zod.ap (Zod.ap (Zod.ap (Zod.ap (Zod.ap (Zod.ap
          (Zod.pure Build_V2WebhookRequest)
          (Zod.key
             (Zod.string_
                [Zod.min 1 "Source is required";
                 Zod.max 50 "Source name too long";
                 Zod.regex (Cat (Plus (Cls source_char)) Eol)
                   "Source must be lowercase alphanumeric with dashes/underscores"])
             p o "source"))
          (Zod.key (Zod.string_ [Zod.datetime "Invalid ISO 8601 timestamp format"])
             p o "timestamp"))
          (Zod.key sourceValueSchema p o "sourceFrom"))
          (Zod.key sourceValueSchema p o "sourceTo"))
          (Zod.key transactionEventSchema p o "event"))
          (Zod.key
             (Zod.string_ [Zod.min 1 "Message cannot be empty";
                           Zod.max 2000 "Message too long"])
             p o "message"))
          (Zod.key amountSchema p o "amount"))
          (Zod.key currencySchema p o "currency"))
          (Zod.key
             (Zod.string_
                [Zod.min 1 "Webhook ID is required";
                 Zod.max 255 "Webhook ID too long";
                 Zod.regex (Cat (Plus (Cls webhookId_char)) Eol)
                   "Webhook ID contains invalid characters"])
             p o "webhookId"))
          (Zod.key (Zod.optional v2WebhookMetadataSchema) p o "metadata")
    | _ => Zod.Aborted [Zod.invalid_type "object" p v]
    end.

Definition parseV2WebhookPayload (payload : Js.value) : Zod.SafeParseReturn V2WebhookRequest :=
  Zod.safeParse v2WebhookRequestSchema payload.

Definition validateV2WebhookPayload (payload : Js.value) : bool :=
  match parseV2WebhookPayload payload with
  | Zod.Success _ => true
  | Zod.Failure _ => false
  end.

Record FormattedError : Type :=
  { fe_field : string; fe_message : string; fe_code : string }.

Definition formatValidationErrors (errors : list Zod.ZodIssue) : list FormattedError :=
  map (fun err => {| fe_field := Js.join "." (Zod.path err);
                     fe_message := Zod.message err;
                     fe_code := Zod.code err |})
      errors.

(** Source management: [sourceSchema] and [validateSourcePayload]. *)
Record SourcePayload : Type := { sp_sourceType : string; sp_sourceValue : string }.

Definition sourceSchema : Zod.Schema SourcePayload :=
  fun p v =>
    match v with
    | Js.Obj o =>
        Zod.ap (Zod.ap (Zod.pure Build_SourcePayload)
          (Zod.key sourceTypeSchema p o "sourceType"))
          (Zod.key sourceValueSchema p o "sourceValue")
    | _ => Zod.Aborted [Zod.invalid_type "object" p v]
    end.

Definition validateSourcePayload (payload : Js.value) : Zod.SafeParseReturn SourcePayload :=
  Zod.safeParse sourceSchema payload.

(** [normalizeSourceValue(value, type)]; the type is one of the three
    source types. *)
Inductive SourceKind : Type := kind_email | kind_phone | kind_webhook.

Definition normalizeSourceValue (value : string) (type : SourceKind) : string :=
  match type with
  | kind_email => Js.trim (Js.toLowerCase value)
  | kind_phone =>
      let cleaned := Js.removeWhitespace value in
      if Js.startsWith "+" cleaned then cleaned else "+" ++ cleaned
  | kind_webhook => Js.trim value
  end.

End V2Validation.

(* ================================================================== *)
(** * The storage service                                              *)
(* ================================================================== *)

(** The tables of [004_v2_schema_sources.sql] and the PostgREST calls the
    services make on them. Identifiers are drawn from a counter kept with
    the tables. Columns that are filled by a default and read by no
    operation below ([created_at], [parsed_at]) are left out, and the
    amount is kept as the number that was sent, not as its decimal text.

    A call is one atomic step. Before it is served, the next event of the
    script of the world is consumed: the call is served as it is, or it is
    answered by an error of the service (an outage, a row the engine
    refuses), or statements of other writers are served first. An empty
    script serves every call as it is. *)

Module Db.

Definition uuid : Type := nat.

Inductive SourceType : Type := email | phone | webhook.

Definition SourceType_eqb (a b : SourceType) : bool :=
  match a, b with
  | email, email | phone, phone | webhook, webhook => true
  | _, _ => false
  end.

Record DatabaseSource : Type :=
  { id : uuid; source_type : SourceType; source_value : string }.

Record DatabaseUserSource : Type :=
  { us_id : uuid; user_id : uuid; us_source_id : uuid; is_active : bool }.

(** The columns the service writes; [id] is given by the engine. *)
Record TransactionData : Type :=
  { source_id : uuid;
    amount : Js.number;
    currency : string;
    sender_name : option string;
    account_number : option string;
    transaction_date : string;
    transaction_time : string;
    raw_message : string;
    webhook_id : string;
    event : string;
    status : string }.

Record DatabaseV2Transaction : Type :=
  { tx_id : uuid; columns : TransactionData }.

Record Store : Type :=
  { sources : list DatabaseSource;
    user_sources : list DatabaseUserSource;
    v2_transactions : list DatabaseV2Transaction;
    next_id : uuid }.

Record PostgrestError : Type := { pg_code : string; pg_message : string }.

(** The answer of a call: [{ data, error }]. *)
Record Response (A : Type) : Type := { data : option A; error : option PostgrestError }.
Arguments data {A} r.
Arguments error {A} r.

Definition answer {A : Type} (a : A) : Response A := {| data := Some a; error := None |}.

Definition refuse {A : Type} (c m : string) : Response A :=
  {| data := None; error := Some {| pg_code := c; pg_message := m |} |}.

(** [.single()]: exactly one row, or the error PGRST116. *)
Definition single {A : Type} (rows : list A) : Response A :=
  match rows with
  | [row] => answer row
  | _ => refuse "PGRST116" "JSON object requested, multiple (or no) rows returned"
  end.

Definition unique_violation {A : Type} (constraint : string) : Response A :=
  refuse "23505" ("duplicate key value violates unique constraint " ++ constraint).

(** ** Statements *)

Definition source_is (t : SourceType) (v : string) (r : DatabaseSource) : bool :=
  SourceType_eqb (source_type r) t && String.eqb (source_value r) v.

(** [from('sources').select('*').eq('source_type', t).eq('source_value', v).single()] *)
Definition select_source (t : SourceType) (v : string) (st : Store)
  : Response DatabaseSource * Store :=
  (single (filter (source_is t v) (sources st)), st).

(** [from('sources').insert({source_type, source_value}).select('*').single()],
    under [UNIQUE(source_type, source_value)]. *)
Definition insert_source (t : SourceType) (v : string) (st : Store)
  : Response DatabaseSource * Store :=
  if existsb (source_is t v) (sources st)
  then (unique_violation "sources_source_type_source_value_key", st)
  else
    let row := {| id := next_id st; source_type := t; source_value := v |} in
    (answer row,
     {| sources := sources st ++ [row];
        user_sources := user_sources st;
        v2_transactions := v2_transactions st;
        next_id := S (next_id st) |}).

Definition subscribes (sid : uuid) (r : DatabaseUserSource) : bool :=
  Nat.eqb (us_source_id r) sid && is_active r.

(** [from('user_sources').select('user_id').eq('source_id', sid).eq('is_active', true)] *)
Definition select_users (sid : uuid) (st : Store) : Response (list uuid) * Store :=
  (answer (map user_id (filter (subscribes sid) (user_sources st))), st).

Definition pair_is (uid sid : uuid) (r : DatabaseUserSource) : bool :=
  Nat.eqb (user_id r) uid && Nat.eqb (us_source_id r) sid.

(** [from('user_sources').insert({user_id, source_id, is_active: true})],
    under [UNIQUE(user_id, source_id)]. *)
Definition insert_user_source (uid sid : uuid) (st : Store)
  : Response DatabaseUserSource * Store :=
  if existsb (pair_is uid sid) (user_sources st)
  then (unique_violation "user_sources_user_id_source_id_key", st)
  else
    let row := {| us_id := next_id st; user_id := uid; us_source_id := sid; is_active := true |} in
    (answer row,
     {| sources := sources st;
        user_sources := user_sources st ++ [row];
        v2_transactions := v2_transactions st;
        next_id := S (next_id st) |}).

(** [from('user_sources').update({is_active: false}).eq(..).eq(..)] *)
Definition deactivate_user_source (uid sid : uuid) (st : Store) : Response unit * Store :=
  (answer tt,
   {| sources := sources st;
      user_sources :=
        map (fun r => if pair_is uid sid r
                      then {| us_id := us_id r; user_id := user_id r;
                              us_source_id := us_source_id r; is_active := false |}
                      else r)
            (user_sources st);
      v2_transactions := v2_transactions st;
      next_id := next_id st |}).

Definition webhook_is (w : string) (r : DatabaseV2Transaction) : bool :=
  String.eqb (webhook_id (columns r)) w.

(** [from('v2_transactions').select(..).eq('webhook_id', w).single()] *)
Definition select_transaction (w : string) (st : Store)
  : Response DatabaseV2Transaction * Store :=
  (single (filter (webhook_is w) (v2_transactions st)), st).

(** [from('v2_transactions').insert(data).select('*').single()], under
    [webhook_id ... UNIQUE]. *)
Definition insert_transaction (d : TransactionData) (st : Store)
  : Response DatabaseV2Transaction * Store :=
  if existsb (webhook_is (webhook_id d)) (v2_transactions st)
  then (unique_violation "v2_transactions_webhook_id_key", st)
  else
    let row := {| tx_id := next_id st; columns := d |} in
    (answer row,
     {| sources := sources st;
        user_sources := user_sources st;
        v2_transactions := v2_transactions st ++ [row];
        next_id := S (next_id st) |}).

(** ** The world: the store and what happens around the calls *)

(** A statement of another writer. *)
Inductive Statement : Type :=
| InsertSource (t : SourceType) (v : string)
| InsertUserSource (uid sid : uuid)
| DeactivateUserSource (uid sid : uuid)
| InsertTransaction (d : TransactionData).

Definition execute (w : Statement) (st : Store) : Store :=
  match w with
  | InsertSource t v => snd (insert_source t v st)
  | InsertUserSource uid sid => snd (insert_user_source uid sid st)
  | DeactivateUserSource uid sid => snd (deactivate_user_source uid sid st)
  | InsertTransaction d => snd (insert_transaction d st)
  end.

Inductive Event : Type :=
| Served
| Failed (e : PostgrestError)
| Concurrent (ws : list Statement).

Record World : Type := { store : Store; script : list Event }.

Definition M (A : Type) : Type := World -> A * World.

Definition ret {A : Type} (a : A) : M A := fun w => (a, w).

Definition bind {A B : Type} (m : M A) (k : A -> M B) : M B :=
  fun w => let (a, w') := m w in k a w'.

(** No other writer acts while the calls of [w] are served. *)
Definition alone (w : World) : Prop := forall ws, ~ In (Concurrent ws) (script w).

(** Identifiers come from the counter, and a subscription refers to a
    source of the table (the foreign key of [user_sources]). *)
Definition consistent (st : Store) : Prop :=
  (forall s, In s (sources st) -> id s < next_id st) /\
  (forall r, In r (user_sources st) -> exists s, In s (sources st) /\ id s = us_source_id r).

(** One call to the service. *)
Definition call {A : Type} (stmt : Store -> Response A * Store) : M (Response A) :=
  fun w =>
    match script w with
    | [] =>
        let (r, st) := stmt (store w) in (r, {| store := st; script := [] |})
    | Served :: rest =>
        let (r, st) := stmt (store w) in (r, {| store := st; script := rest |})
    | Failed e :: rest =>
        ({| data := None; error := Some e |}, {| store := store w; script := rest |})
    | Concurrent ws :: rest =>
        let (r, st) := stmt (fold_left (fun st s => execute s st) ws (store w)) in
        (r, {| store := st; script := rest |})
    end.

(** [from('sources').select('*').eq('id', sid).single()] *)
Definition select_source_by_id (sid : uuid) (st : Store) : Response DatabaseSource * Store :=
  (single (filter (fun r => Nat.eqb (id r) sid) (sources st)), st).

(** [from('user_sources').select('sources (...)').eq('user_id', uid).eq('is_active', true)]:
    each row comes with the source its [source_id] refers to, [null]
    when there is none. *)
Definition select_sources_of_user (uid : uuid) (st : Store)
  : Response (list (option DatabaseSource)) * Store :=
  (answer (map (fun r => find (fun s => Nat.eqb (id s) (us_source_id r)) (sources st))
               (filter (fun r => Nat.eqb (user_id r) uid && is_active r) (user_sources st))),
   st).

End Db.

Arguments Db.call : simpl never.

Declare Scope db_scope.
Delimit Scope db_scope with db.
Notation "x <- c ;; k" := (Db.bind c (fun x => k))
  (at level 61, c at next level, right associativity) : db_scope.

(* ================================================================== *)
(** * v2-database.ts                                                   *)
(* ================================================================== *)

Module V2DatabaseService.
Import Db V2Validation.
Local Open Scope db_scope.

(** [types.ts]: the domain records. [createdAt], [parsedAt] and the
    [date] of a transaction, which no operation below reads, are left
    out. *)
Record Source : Type :=
  { src_id : uuid; sourceType : SourceType; sourceValue : string }.

Record V2Transaction : Type :=
  { txn_id : uuid;
    txn_sourceId : uuid;
    txn_amount : Js.number;
    txn_currency : string;
    txn_senderName : string;
    txn_accountNumber : string;
    txn_time : string;
    txn_rawMessage : string;
    txn_webhookId : string;
    txn_event : string;
    txn_status : string }.

(** What a method of the service returns: [{ data, error }], the error
    being an [Error] with its message. *)
Record Outcome (A : Type) : Type := { out_data : A; out_error : option string }.
Arguments out_data {A} o.
Arguments out_error {A} o.

Definition ok {A : Type} (a : A) : Outcome (option A) :=
  {| out_data := Some a; out_error := None |}.

Definition fail {A : Type} (msg : string) : Outcome (option A) :=
  {| out_data := None; out_error := Some msg |}.

Definition transformDatabaseSource (dbSource : DatabaseSource) : Source :=
  {| src_id := id dbSource;
     sourceType := source_type dbSource;
     sourceValue := source_value dbSource |}.

(** [x || ''] on a nullable column. *)
Definition or_empty (x : option string) : string :=
  match x with
  | Some s => s
  | None => ""
  end.

Definition transformDatabaseV2Transaction (t : DatabaseV2Transaction) : V2Transaction :=
  {| txn_id := tx_id t;
     txn_sourceId := source_id (columns t);
     txn_amount := Db.amount (columns t);
     txn_currency := Db.currency (columns t);
     txn_senderName := or_empty (sender_name (columns t));
     txn_accountNumber := or_empty (account_number (columns t));
     txn_time := transaction_time (columns t);
     txn_rawMessage := raw_message (columns t);
     txn_webhookId := webhook_id (columns t);
     txn_event := Db.event (columns t);
     txn_status := status (columns t) |}.

(** [findError && findError.code !== 'PGRST116'] *)
Definition other_than_not_found (e : option PostgrestError) : option PostgrestError :=
  match e with
  | Some err => if String.eqb (pg_code err) "PGRST116" then None else Some err
  | None => None
  end.

Definition findOrCreateSource (sourceType : SourceType) (sourceValue : string)
  : M (Outcome (option Source)) :=
  found <- call (select_source sourceType sourceValue) ;;
  match other_than_not_found (error found) with
  | Some findError => ret (fail ("Failed to find source: " ++ pg_message findError))
  | None =>
      match data found with
      | Some existingSource => ret (ok (transformDatabaseSource existingSource))
      | None =>
          created <- call (insert_source sourceType sourceValue) ;;
          match error created with
          | Some createError =>
              ret (fail ("Failed to create source: " ++ pg_message createError))
          | None =>
              match data created with
              | Some newSource => ret (ok (transformDatabaseSource newSource))
              | None => ret (fail "Cannot read properties of null (reading 'id')")
              end
          end
      end
  end.

Definition getUsersForSource (sourceId : uuid) : M (Outcome (list uuid)) :=
  r <- call (select_users sourceId) ;;
  match error r with
  | Some e =>
      ret {| out_data := []; out_error := Some ("Failed to get users for source: " ++ pg_message e) |}
  | None =>
      match data r with
      | Some rows => ret {| out_data := rows; out_error := None |}
      | None =>
          ret {| out_data := [];
                 out_error := Some "Cannot read properties of null (reading 'map')" |}
      end
  end.

Definition addUserSource (userId sourceId : uuid) : M (Outcome (option DatabaseUserSource)) :=
  r <- call (insert_user_source userId sourceId) ;;
  match error r with
  | Some e =>
      if String.eqb (pg_code e) "23505"
      then ret (fail "User is already associated with this source")
      else ret (fail ("Failed to add user source: " ++ pg_message e))
  | None =>
      match data r with
      | Some row => ret (ok row)
      | None => ret (fail "Cannot read properties of null (reading 'id')")
      end
  end.

Definition removeUserSource (userId sourceId : uuid) : M (option string) :=
  r <- call (deactivate_user_source userId sourceId) ;;
  match error r with
  | Some e => ret (Some ("Failed to remove user source: " ++ pg_message e))
  | None => ret None
  end.

(** [x || null] on an optional string of the metadata: an empty string
    counts as absent. *)
Definition or_null (x : option string) : option string :=
  match x with
  | Some "" => None
  | other => other
  end.

(** [webhookData.currency || 'COP'] *)
Definition currency_or_COP (c : option string) : string :=
  match or_null c with
  | Some s => s
  | None => "COP"
  end.

(** The row that [createV2Transaction] builds from the payload; [t] is
    the time value of [new Date(webhookData.timestamp)]. *)
Definition transactionData (localTZA : Z -> Z) (sourceId : uuid)
           (webhookData : V2WebhookRequest) (t : Z) : TransactionData :=
  let transactionDate := Js.split_head "T" (JsDate.toISOString t) in
  let transactionTime := Js.split_head " " (JsDate.toTimeString localTZA t) in
  {| source_id := sourceId;
     Db.amount := V2Validation.amount webhookData;
     Db.currency := currency_or_COP (V2Validation.currency webhookData);
     sender_name :=
       or_null (match metadata webhookData with Some m => senderName m | None => None end);
     account_number :=
       or_null (match metadata webhookData with Some m => accountNumber m | None => None end);
     transaction_date := transactionDate;
     transaction_time := transactionTime;
     raw_message := message webhookData;
     webhook_id := webhookId webhookData;
     Db.event := V2Validation.event webhookData;
     status := "processed" |}.

(** [localTZA] is the time zone of the host, which [toTimeString] uses. *)
Definition createV2Transaction (localTZA : Z -> Z) (sourceId : uuid)
           (webhookData : V2WebhookRequest) : M (Outcome (option V2Transaction)) :=
  existing <- call (select_transaction (webhookId webhookData)) ;;
  match other_than_not_found (error existing) with
  | Some duplicateError =>
      ret (fail ("Failed to check for duplicates: " ++ pg_message duplicateError))
  | None =>
      match data existing with
      | Some existingTransaction => ret (fail "Duplicate webhook ID")
      | None =>
          match JsDate.ofString (timestamp webhookData) with
          | None => ret (fail "Invalid time value")
          | Some t =>
              inserted <- call (insert_transaction
                                  (transactionData localTZA sourceId webhookData t)) ;;
              match error inserted with
              | Some insertError =>
                  ret (fail ("Failed to insert transaction: " ++ pg_message insertError))
              | None =>
                  match data inserted with
                  | Some insertedTransaction =>
                      ret (ok (transformDatabaseV2Transaction insertedTransaction))
                  | None => ret (fail "Cannot read properties of null (reading 'id')")
                  end
              end
          end
      end
  end.

Definition getSourceById (sourceId : uuid) : M (Outcome (option Source)) :=
  r <- call (select_source_by_id sourceId) ;;
  match error r with
  | Some e =>
      if String.eqb (pg_code e) "PGRST116"
      then ret (fail "Source not found")
      else ret (fail ("Failed to get source: " ++ pg_message e))
  | None =>
      match data r with
      | Some row => ret (ok (transformDatabaseSource row))
      | None => ret (fail "Cannot read properties of null (reading 'id')")
      end
  end.

Definition getSourcesForUser (userId : uuid) : M (Outcome (list Source)) :=
  r <- call (select_sources_of_user userId) ;;
  match error r with
  | Some e =>
      ret {| out_data := []; out_error := Some ("Failed to get sources for user: " ++ pg_message e) |}
  | None =>
      match data r with
      | Some rows =>
          ret {| out_data :=
                   map transformDatabaseSource
                       (flat_map (fun source => match source with
                                                | Some x => [x]
                                                | None => []
                                                end) rows);
                 out_error := None |}
      | None =>
          ret {| out_data := [];
                 out_error := Some "Cannot read properties of null (reading 'map')" |}
      end
  end.

End V2DatabaseService.

(* ================================================================== *)
(** * The repository layer                                             *)
(* ================================================================== *)

Module Repositories.
Import Db V2Validation V2DatabaseService.
Local Open Scope db_scope.

(** [TransactionRepository.createV2Transaction]: a duplicate is
    reported as [null]; any other error is thrown, caught by the
    method's own handler, and reported as [null] as well. *)
Definition createV2Transaction (localTZA : Z -> Z) (sourceId : uuid)
           (webhookData : V2WebhookRequest) : M (option V2Transaction) :=
  r <- V2DatabaseService.createV2Transaction localTZA sourceId webhookData ;;
  match out_error r with
  | Some msg =>
      if Js.includes "Duplicate webhook ID" msg then ret None else ret None
  | None => ret (out_data r)
  end.

(** [TransactionRepository.getV2TransactionByWebhookId] *)
Definition getV2TransactionByWebhookId (webhookId : string) : M (option V2Transaction) :=
  r <- call (select_transaction webhookId) ;;
  match error r with
  | Some e => ret None
  | None =>
      match data r with
      | Some row => ret (Some (transformDatabaseV2Transaction row))
      | None => ret None
      end
  end.

(** [SourceRepository] hands its calls to the database service. *)
Definition findOrCreateSource := V2DatabaseService.findOrCreateSource.

Definition getUsersForSource := V2DatabaseService.getUsersForSource.

(** The result of [WebhookRepository.processV2Webhook]. *)
Record ProcessResult : Type :=
  { success : bool;
    transactionId : option uuid;
    sourceId : option uuid;
    error : option string;
    isDuplicate : option bool }.

Definition failed (msg : string) : ProcessResult :=
  {| success := false; transactionId := None; sourceId := None;
     error := Some msg; isDuplicate := None |}.

(** Source-type inference from the routing address: the three-way test
    that [processV2Webhook] and the [POST] handler both write out. *)
Definition inferSourceType (sourceTo : string) : SourceType :=
  if Js.includes "@" sourceTo then email
  else if Js.startsWith "+" sourceTo then phone
  else webhook.

Definition processV2Webhook (localTZA : Z -> Z) (webhookData : V2WebhookRequest)
  : M ProcessResult :=
  let sourceType := inferSourceType (sourceTo webhookData) in
  s <- findOrCreateSource sourceType (sourceTo webhookData) ;;
  match out_error s, out_data s with
  | Some _, _ | _, None => ret (failed "Failed to process source")
  | None, Some source =>
      u <- getUsersForSource (src_id source) ;;
      match out_error u with
      | Some _ => ret (failed "Failed to find users for source")
      | None =>
          if (List.length (out_data u) =? 0)%nat
          then ret (failed "No users configured for this source")
          else
            t <- createV2Transaction localTZA (src_id source) webhookData ;;
            match t with
            | None =>
                e <- getV2TransactionByWebhookId (webhookId webhookData) ;;
                match e with
                | Some existingTransaction =>
                    ret {| success := true;
                           transactionId := Some (txn_id existingTransaction);
                           sourceId := Some (src_id source);
                           error := None;
                           isDuplicate := Some true |}
                | None => ret (failed "Failed to create transaction")
                end
            | Some transaction =>
                ret {| success := true;
                       transactionId := Some (txn_id transaction);
                       sourceId := Some (src_id source);
                       error := None;
                       isDuplicate := None |}
            end
      end
  end.

End Repositories.

(* ================================================================== *)
(** * The webhook service                                              *)
(* ================================================================== *)

(** [WebhookService]: the checks of the envelope of a request, with the
    rate limiter that the service keeps in memory. The request is the
    headers the code reads, its URL and what [request.json()] yields
    ([None] when it throws). A reading of the clock ([Date.now()],
    [new Date()]) is an argument, in milliseconds. [new Date(s)] on the
    text of a header is the argument [Date_parse], [None] for an invalid
    date; [validateWebhookPayload] of the SMS parser, whose file is not
    part of the sources, is an argument as well. *)

Module WebhookService.
Import V2Validation.

Record Request : Type :=
  { contentLength : option string;
    forwardedFor : option string;
    realIp : option string;
    xTimestamp : option string;
    authorization : option string;
    contentType : option string;
    url : string;
    body : option Js.value }.

Record RateLimit : Type := { count : nat; resetTime : Z }.

(** The [Map] of the limiter, in insertion order. *)
Definition RateLimitMap : Type := list (string * RateLimit).

Fixpoint map_get (k : string) (m : RateLimitMap) : option RateLimit :=
  match m with
  | [] => None
  | (k', v) :: rest => if String.eqb k' k then Some v else map_get k rest
  end.

(** [Map.prototype.set]: the value of a key that is present is replaced
    where it stands, a new key goes to the end. *)
Fixpoint map_set (k : string) (v : RateLimit) (m : RateLimitMap) : RateLimitMap :=
  match m with
  | [] => [(k, v)]
  | (k', v') :: rest => if String.eqb k' k then (k', v) :: rest else (k', v') :: map_set k v rest
  end.

Definition windowMs : Z := 60 * 1000.

Definition maxRequests : nat := 100.

Definition checkRateLimit (clientIP : string) (now : Z) (m : RateLimitMap)
  : bool * RateLimitMap :=
  let key := "rate_limit_" ++ clientIP in
  match map_get key m with
  | None => (true, map_set key {| count := 1; resetTime := now + windowMs |} m)
  | Some current =>
      if (resetTime current <? now)%Z
      then (true, map_set key {| count := 1; resetTime := now + windowMs |} m)
      else if (maxRequests <=? count current)%nat
      then (false, m)
      else (true, map_set key {| count := S (count current); resetTime := resetTime current |} m)
  end.

Definition cleanupRateLimit (now : Z) (m : RateLimitMap) : RateLimitMap :=
  filter (fun kv => negb (resetTime (snd kv) <? now)%Z) m.

(** The answers of the limiter to a series of requests, each with the
    address of its client and the reading of the clock when it is
    checked. *)
Fixpoint checkRateLimits (requests : list (string * Z)) (m : RateLimitMap)
  : list bool * RateLimitMap :=
  match requests with
  | [] => ([], m)
  | (clientIP, now) :: rest =>
      let (allowed, m') := checkRateLimit clientIP now m in
      let (answers, m'') := checkRateLimits rest m' in
      (allowed :: answers, m'')
  end.

Definition validateAuthToken (webhookSecret token : string) : bool :=
  String.eqb token webhookSecret.

(** What a successful validation hands on: the parsed payload of the
    structured webhook, or the body of a free-text one as it came. *)
Inductive WebhookData : Type :=
| V2Data (d : V2WebhookRequest)
| V1Data (b : Js.value).

Record Validation : Type :=
  { isValid : bool; webhookData : option WebhookData; error : option string }.

Definition invalid (msg : string) : Validation :=
  {| isValid := false; webhookData := None; error := Some msg |}.

Definition validation_message (issues : list Zod.ZodIssue) : string :=
  "Validation failed: "
    ++ Js.join ", " (map (fun e => fe_field e ++ ": " ++ fe_message e)
                         (formatValidationErrors issues)).

(** [get('x-forwarded-for') || get('x-real-ip') || 'unknown'] *)
Definition clientIP (request : Request) : string :=
  match forwardedFor request with
  | Some (String c rest) => String c rest
  | _ =>
      match realIp request with
      | Some (String c rest) => String c rest
      | _ => "unknown"
      end
  end.

(** [contentLength && parseInt(contentLength) > maxSize] *)
Definition too_large (maxSize : Z) (header : option string) : bool :=
  match header with
  | Some h =>
      Js.present header &&
      match Js.parseInt h with
      | Some n => (maxSize <? n)%Z
      | None => false
      end
  | None => false
  end.

Section Host.
Variable Date_parse : string -> option Z.
Variable validateWebhookPayload : Js.value -> bool.

(** A comparison with the NaN of an invalid date is false. *)
Definition validateTimestamp (now : Z) (timestamp : string) (maxAgeMinutes : Z) : bool :=
  match Date_parse timestamp with
  | Some requestTime =>
      let timeDiff := (now - requestTime)%Z in
      let maxAgeMs := (maxAgeMinutes * 60 * 1000)%Z in
      (timeDiff <=? maxAgeMs)%Z
  | None => false
  end.

(** [nowLimit] and [nowStamp] are the readings of the clock by the rate
    limiter and by the check of the timestamp. *)
Definition validateWebhookRequest (webhookSecret : string) (nowLimit nowStamp : Z)
           (request : Request) (m : RateLimitMap) : Validation * RateLimitMap :=
  if String.eqb webhookSecret "" then (invalid "Server configuration error", m)
  else
    let maxSize := if Js.includes "/v2/" (url request) then 20000%Z else 10000%Z in
    if too_large maxSize (contentLength request)
    then (invalid "Request payload too large", m)
    else
      let (allowed, m') := checkRateLimit (clientIP request) nowLimit m in
      if negb allowed then (invalid "Rate limit exceeded", m')
      else
        let maxAgeMinutes := if Js.includes "/v2/" (url request) then 10%Z else 5%Z in
        if match xTimestamp request with
           | Some requestTimestamp =>
               Js.present (xTimestamp request)
               && negb (validateTimestamp nowStamp requestTimestamp maxAgeMinutes)
           | None => false
           end
        then (invalid "Request timestamp too old", m')
        else
          match authorization request with
          | None => (invalid "Missing or invalid authorization header", m')
          | Some authHeader =>
              if negb (Js.present (authorization request))
                 || negb (Js.startsWith "Bearer " authHeader)
              then (invalid "Missing or invalid authorization header", m')
              else
                let token := Js.removeFirst "Bearer " authHeader in
                if negb (validateAuthToken webhookSecret token)
                then (invalid "Invalid webhook token", m')
                else
                  match contentType request with
                  | None => (invalid "Content-Type must be application/json", m')
                  | Some ct =>
                      if negb (Js.present (contentType request))
                         || negb (Js.includes "application/json" ct)
                      then (invalid "Content-Type must be application/json", m')
                      else
                        match body request with
                        | None => (invalid "Invalid JSON payload", m')
                        | Some b =>
                            if Js.includes "/v2/" (url request)
                            then
                              match parseV2WebhookPayload b with
                              | Zod.Failure issues => (invalid (validation_message issues), m')
                              | Zod.Success d =>
                                  ({| isValid := true; webhookData := Some (V2Data d);
                                      error := None |}, m')
                              end
                            else
                              if negb (validateWebhookPayload b)
                              then (invalid "Invalid webhook payload format", m')
                              else ({| isValid := true; webhookData := Some (V1Data b);
                                       error := None |}, m')
                        end
                  end
          end.

End Host.

End WebhookService.

(* ================================================================== *)
(** * api/v2/webhook/transaction/route.ts                              *)
(* ================================================================== *)

(** The two versions of the [POST] handler: [POST] works on the database
    service directly, [POST_repository] goes through the webhook service
    and the repository layer. Both are taken after the checks of the
    envelope (configuration, size, freshness, bearer token, content type)
    have passed; [body] is what [request.json()] yields, [None] when it
    throws. Logging is left out. *)

Module Route.
Import Db V2Validation V2DatabaseService.
Local Open Scope db_scope.

Record V2WebhookResponse : Type :=
  { status : string;
    transactionId : option uuid;
    webhookId : Js.value;
    error : option string;
    sourceId : option uuid }.

Record NextResponse : Type := { http_status : nat; json : V2WebhookResponse }.

Definition error_response (code : nat) (msg : string) (wid : Js.value) : NextResponse :=
  {| http_status := code;
     json := {| status := "error"; transactionId := None; webhookId := wid;
                error := Some msg; sourceId := None |} |}.

(** [body?.webhookId || 'unknown'] *)
Definition webhookId_or_unknown (body : Js.value) : Js.value :=
  match body with
  | Js.Obj o => if Js.truthy (Js.get o "webhookId") then Js.get o "webhookId" else Js.Str "unknown"
  | _ => Js.Str "unknown"
  end.

Definition validation_message (issues : list Zod.ZodIssue) : string :=
  "Validation failed: "
    ++ Js.join ", " (map (fun e => fe_field e ++ ": " ++ fe_message e)
                         (formatValidationErrors issues)).

Definition POST (localTZA : Z -> Z) (body : option Js.value) : M NextResponse :=
  match body with
  | None => ret (error_response 400 "Invalid JSON payload" (Js.Str "unknown"))
  | Some body =>
      match parseV2WebhookPayload body with
      | Zod.Failure issues =>
          ret (error_response 400 (validation_message issues) (webhookId_or_unknown body))
      | Zod.Success webhookData =>
          let wid := Js.Str (V2Validation.webhookId webhookData) in
          let sourceType := Repositories.inferSourceType (sourceTo webhookData) in
          s <- findOrCreateSource sourceType (sourceTo webhookData) ;;
          match out_error s, out_data s with
          | Some _, _ | _, None => ret (error_response 500 "Failed to process source" wid)
          | None, Some source =>
              u <- getUsersForSource (src_id source) ;;
              match out_error u with
              | Some _ => ret (error_response 500 "Failed to find users for source" wid)
              | None =>
                  if (List.length (out_data u) =? 0)%nat
                  then ret {| http_status := 404;
                              json := {| status := "error";
                                         transactionId := None;
                                         webhookId := wid;
                                         error := Some "No users configured for this source";
                                         sourceId := Some (src_id source) |} |}
                  else
                    t <- createV2Transaction localTZA (src_id source) webhookData ;;
                    match out_error t with
                    | Some transactionError =>
                        if Js.includes "Duplicate webhook ID" transactionError
                        then ret {| http_status := 200;
                                    json := {| status := "duplicate";
                                               transactionId := None;
                                               webhookId := wid;
                                               error := None;
                                               sourceId := Some (src_id source) |} |}
                        else ret (error_response 500 "Failed to store transaction" wid)
                    | None =>
                        match out_data t with
                        | None => ret (error_response 500 "Transaction creation failed" wid)
                        | Some transaction =>
                            ret {| http_status := 200;
                                   json := {| status := "processed";
                                              transactionId := Some (txn_id transaction);
                                              webhookId := wid;
                                              error := None;
                                              sourceId := Some (src_id source) |} |}
                        end
                    end
              end
          end
      end
  end.

(** The version on the repository layer:
    [WebhookService.validateWebhookRequest], then
    [WebhookService.processWebhook(webhookData, 'v2')]. *)
Definition POST_repository (localTZA : Z -> Z) (body : option Js.value) : M NextResponse :=
  match body with
  | None => ret (error_response 400 "Invalid JSON payload" (Js.Str "unknown"))
  | Some body =>
      match parseV2WebhookPayload body with
      | Zod.Failure issues =>
          ret (error_response 400 (validation_message issues) (Js.Str "unknown"))
      | Zod.Success webhookData =>
          let wid := Js.Str (V2Validation.webhookId webhookData) in
          result <- Repositories.processV2Webhook localTZA webhookData ;;
          if Repositories.success result
          then ret {| http_status := 200;
                      json := {| status := match Repositories.isDuplicate result with
                                           | Some true => "duplicate"
                                           | _ => "processed"
                                           end;
                                 transactionId := Repositories.transactionId result;
                                 webhookId := wid;
                                 error := None;
                                 sourceId := Repositories.sourceId result |} |}
          else ret {| http_status := 400;
                      json := {| status := "error";
                                 transactionId := None;
                                 webhookId := wid;
                                 error := Repositories.error result;
                                 sourceId := None |} |}
      end
  end.

(** ** The handlers with the envelope of the request *)

(** The variables of the environment that the direct handler reads. *)
Record Env : Type :=
  { supabaseUrl : option string;
    supabaseServiceKey : option string;
    webhookSecret : option string }.

Section Host.
Variable Date_parse : string -> option Z.

(** [timeDiff > 10 * 60 * 1000], false on the NaN of an invalid date. *)
Definition too_old (now : Z) (requestTimestamp : string) : bool :=
  match Date_parse requestTimestamp with
  | Some requestTime => (10 * 60 * 1000 <? now - requestTime)%Z
  | None => false
  end.

(** The direct handler, whole: the checks of the envelope, then [POST]
    on the body. [now] is the reading of the clock by the check of the
    timestamp. *)
Definition POST_request (env : Env) (now : Z) (localTZA : Z -> Z)
           (request : WebhookService.Request) : M NextResponse :=
  if negb (Js.present (supabaseUrl env)) || negb (Js.present (supabaseServiceKey env))
     || negb (Js.present (webhookSecret env))
  then ret (error_response 500 "Server configuration error" (Js.Str "unknown"))
  else if WebhookService.too_large 20000 (WebhookService.contentLength request)
  then ret (error_response 413 "Request payload too large" (Js.Str "unknown"))
  else if match WebhookService.xTimestamp request with
          | Some requestTimestamp =>
              Js.present (WebhookService.xTimestamp request) && too_old now requestTimestamp
          | None => false
          end
  then ret (error_response 400 "Request timestamp too old" (Js.Str "unknown"))
  else
    match WebhookService.authorization request with
    | None => ret (error_response 401 "Missing or invalid authorization header" (Js.Str "unknown"))
    | Some authHeader =>
        if negb (Js.present (WebhookService.authorization request))
           || negb (Js.startsWith "Bearer " authHeader)
        then ret (error_response 401 "Missing or invalid authorization header" (Js.Str "unknown"))
        else
          let token := Js.removeFirst "Bearer " authHeader in
          if negb (match webhookSecret env with
                   | Some secret => String.eqb token secret
                   | None => false
                   end)
          then ret (error_response 401 "Invalid webhook token" (Js.Str "unknown"))
          else
            match WebhookService.contentType request with
            | None =>
                ret (error_response 400 "Content-Type must be application/json" (Js.Str "unknown"))
            | Some ct =>
                if negb (Js.present (WebhookService.contentType request))
                   || negb (Js.includes "application/json" ct)
                then ret (error_response 400 "Content-Type must be application/json"
                                         (Js.Str "unknown"))
                else POST localTZA (WebhookService.body request)
            end
    end.

End Host.

End Route.

(* ================================================================== *)
(** * sms-parser.ts                                                    *)
(* ================================================================== *)

Module SmsParser.
Import Re.

Fixpoint seq (rs : list regex) : regex :=
  match rs with
  | [] => Eps
  | [r] => r
  | r :: rest => Cat r (seq rest)
  end.

(** [[0-9,]] and [[A-Z\s]] *)
Definition amount_char (c : ascii) : bool := is_digit c || is_char "," c.

Definition name_char (c : ascii) : bool := is_upper c || is_space c.

(** The pattern of a transfer notification, as the architecture notes
    of the repository give it:
    [/Bancolombia:\s*Recibiste una transferencia por \$([0-9,]+) de ([A-Z\s]+) en tu cuenta \*\*(\d+), el (\d{2}\/\d{2}\/\d{4}) a las (\d{2}:\d{2})/] *)
Definition BANCOLOMBIA_PATTERN : regex :=
  seq [Lit "Bancolombia:";
       Star (Cls is_space);
       Lit "Recibiste una transferencia por $";
       Group (Plus (Cls amount_char));
       Lit " de ";
       Group (Plus (Cls name_char));
       Lit " en tu cuenta **";
       Group (Plus (Cls is_digit));
       Lit ", el ";
       Group (seq [Times 2 (Cls is_digit); Chr "/"; Times 2 (Cls is_digit); Chr "/";
                   Times 4 (Cls is_digit)]);
       Lit " a las ";
       Group (seq [Times 2 (Cls is_digit); Chr ":"; Times 2 (Cls is_digit)])].

(** [types.ts]: [ParsedMessage]. The date is [None] when there is none
    to give. *)
Record ParsedMessage : Type :=
  { amount : Z;
    senderName : string;
    account : string;
    date : option JsDate.civil;
    time : string;
    success : bool;
    errorReason : option string }.

Definition failure (reason : string) : ParsedMessage :=
  {| amount := 0; senderName := ""; account := ""; date := None; time := "";
     success := false; errorReason := Some reason |}.

(** The amount of the first group, its separators removed; [None] when
    no digit is left. *)
Fixpoint digits_value (s : string) (acc : option Z) : option Z :=
  match s with
  | EmptyString => acc
  | String c rest =>
      match JsDate.digit c with
      | Some d => digits_value rest (Some (10 * match acc with Some a => a | None => 0 end + d)%Z)
      | None => digits_value rest acc
      end
  end.

(** The components of the fourth group, [DD/MM/YYYY]. *)
Definition date_components (s : string) : option JsDate.civil :=
  JsDate.bind (JsDate.take_digits 2 s 0) (fun '(d, s1) =>
  JsDate.bind (JsDate.expect "/" s1) (fun s2 =>
  JsDate.bind (JsDate.take_digits 2 s2 0) (fun '(m, s3) =>
  JsDate.bind (JsDate.expect "/" s3) (fun s4 =>
  JsDate.bind (JsDate.take_digits 4 s4 0) (fun '(y, _) =>
  Some {| JsDate.year := y; JsDate.month := m; JsDate.date := d |}))))).

(** The date that a message matching the pattern names. *)
Definition captured_date (message : string) : option JsDate.civil :=
  match exec BANCOLOMBIA_PATTERN message with
  | Some [_; _; _; dateStr; _] => date_components dateStr
  | _ => None
  end.

(** Modelled from the spec: [parseBancolombiaSMS], whose source file
    [sms-parser.ts] is missing. The message is matched against the one
    pattern; on a match the amount is read with its separators removed
    and must be positive, the sender name is trimmed, and the date is
    built from the day, month and year, a date that does not exist in
    the calendar being a failure; every failure carries a reason. *)
Definition parseBancolombiaSMS (message : string) : ParsedMessage :=
  match exec BANCOLOMBIA_PATTERN message with
  | Some [amountStr; sender; acct; dateStr; timeStr] =>
      match digits_value amountStr None with
      | None => failure "Invalid amount"
      | Some a =>
          if (a <=? 0)%Z then failure "Invalid amount"
          else
            match date_components dateStr with
            | None => failure "Invalid date"
            | Some c =>
                if JsDate.valid_civil c
                then {| amount := a;
                        senderName := Js.trim sender;
                        account := acct;
                        date := Some c;
                        time := timeStr;
                        success := true;
                        errorReason := None |}
                else failure "Invalid date"
            end
      end
  | _ => failure "Message does not match the expected format"
  end.

End SmsParser.

(* ================================================================== *)
(** * Values of the test suites                                        *)
(* ================================================================== *)

Module Examples.
Import Db.
Local Open Scope nat_scope.

(** [validPayload] of [v2-validation.test.ts]. *)
Definition validPayload : list (string * Js.value) :=
  [("source", Js.Str "bancolombia");
   ("timestamp", Js.Str "2025-09-04T08:06:00Z");
   ("sourceFrom", Js.Str "bancolombia@noreply.com");
   ("sourceTo", Js.Str "jdcadavid96@gmail.com");
   ("event", Js.Str "deposit");
   ("message",
    Js.Str "Bancolombia: Recibiste una transferencia por $190,000 de MARIA CUBAQUE en tu cuenta **7251");
   ("amount", Js.Num (Js.ofZ 190000));
   ("currency", Js.Str "COP");
   ("webhookId", Js.Str "webhook_1693814760_12345");
   ("metadata",
    Js.Obj [("accountNumber", Js.Str "7251"); ("senderName", Js.Str "MARIA CUBAQUE")])].

Definition validRequest : V2Validation.V2WebhookRequest :=
  {| V2Validation.source := "bancolombia";
     V2Validation.timestamp := "2025-09-04T08:06:00Z";
     V2Validation.sourceFrom := "bancolombia@noreply.com";
     V2Validation.sourceTo := "jdcadavid96@gmail.com";
     V2Validation.event := "deposit";
     V2Validation.message :=
       "Bancolombia: Recibiste una transferencia por $190,000 de MARIA CUBAQUE en tu cuenta **7251";
     V2Validation.amount := Js.ofZ 190000;
     V2Validation.currency := Some "COP";
     V2Validation.webhookId := "webhook_1693814760_12345";
     V2Validation.metadata :=
       Some {| V2Validation.accountNumber := Some "7251";
               V2Validation.senderName := Some "MARIA CUBAQUE";
               V2Validation.reference := None;
               V2Validation.others := [] |} |}.

(** A store in which the address of [validPayload] is a source with
    one subscriber, and an empty store. *)
Definition configuredStore : Store :=
  {| sources := [{| id := 0; source_type := email; source_value := "jdcadavid96@gmail.com" |}];
     user_sources := [{| us_id := 1; user_id := 7; us_source_id := 0; is_active := true |}];
     v2_transactions := [];
     next_id := 2 |}.

Definition emptyStore : Store :=
  {| sources := []; user_sources := []; v2_transactions := []; next_id := 0 |}.

(** A host in UTC and a host in Bogota (UTC-5, no daylight saving). *)
Definition utc : Z -> Z := fun _ => 0%Z.

Definition bogota : Z -> Z := fun _ => (-18000000)%Z.

(** The payload of the test suite with another timestamp. *)
Definition at_time (ts : string) : V2Validation.V2WebhookRequest :=
  {| V2Validation.source := V2Validation.source validRequest;
     V2Validation.timestamp := ts;
     V2Validation.sourceFrom := V2Validation.sourceFrom validRequest;
     V2Validation.sourceTo := V2Validation.sourceTo validRequest;
     V2Validation.event := V2Validation.event validRequest;
     V2Validation.message := V2Validation.message validRequest;
     V2Validation.amount := V2Validation.amount validRequest;
     V2Validation.currency := V2Validation.currency validRequest;
     V2Validation.webhookId := V2Validation.webhookId validRequest;
     V2Validation.metadata := V2Validation.metadata validRequest |}.

(** The row that another instance of the service writes for the same
    delivery, and a world in which it does so between the duplicate
    check and the insert of this instance. *)
Definition rivalRow : TransactionData :=
  V2DatabaseService.transactionData utc 0 validRequest 1756973160000.

Definition racingWorld : World :=
  {| store := configuredStore;
     script := [Served; Served; Served; Concurrent [InsertTransaction rivalRow]] |}.

(** A world in which another instance registers the address of
    [validPayload] between the lookup and the insert of this one. *)
Definition firstSightingRace : World :=
  {| store := emptyStore;
     script := [Served; Concurrent [InsertSource email "jdcadavid96@gmail.com"]] |}.

(** The template message of the specification, and the same message
    with an impossible date. *)
Definition templateMessage : string :=
  "Bancolombia: Recibiste una transferencia por $190,000 de MARIA CUBAQUE en tu cuenta **7251, el 04/09/2025 a las 08:06".

Definition impossibleDateMessage : string :=
  "Bancolombia: Recibiste una transferencia por $190,000 de MARIA CUBAQUE en tu cuenta **7251, el 32/13/2025 a las 08:06".

(** The environment of a deployment, a request that carries the token
    and the valid payload, and one that guesses the token. *)
Definition env : Route.Env :=
  {| Route.supabaseUrl := Some "https://project.supabase.co";
     Route.supabaseServiceKey := Some "service-role-key";
     Route.webhookSecret := Some "s3cret" |}.

Definition request : WebhookService.Request :=
  {| WebhookService.contentLength := Some "512";
     WebhookService.forwardedFor := Some "10.0.0.1";
     WebhookService.realIp := None;
     WebhookService.xTimestamp := Some "2025-09-04T08:06:30Z";
     WebhookService.authorization := Some "Bearer s3cret";
     WebhookService.contentType := Some "application/json";
     WebhookService.url := "https://app.example/api/v2/webhook/transaction";
     WebhookService.body := Some (Js.Obj validPayload) |}.

Definition forgedRequest : WebhookService.Request :=
  {| WebhookService.contentLength := Some "512";
     WebhookService.forwardedFor := Some "10.0.0.1";
     WebhookService.realIp := None;
     WebhookService.xTimestamp := Some "2025-09-04T08:06:30Z";
     WebhookService.authorization := Some "Bearer guess";
     WebhookService.contentType := Some "application/json";
     WebhookService.url := "https://app.example/api/v2/webhook/transaction";
     WebhookService.body := Some (Js.Obj validPayload) |}.

End Examples.

(* ================================================================== *)
(** * Properties                                                       *)
(* ================================================================== *)

(** ** Strings *)

Section Strings.

Lemma prefix_char (c : ascii) (s : string) :
  String.prefix (String c "") s = true <-> exists rest, s = String c rest.
Proof.
  destruct s as [|a rest]; simpl.
  - split; [discriminate | intros [r H]; discriminate].
  - destruct (ascii_dec c a) as [->|Hne].
    + split; [eauto | intros _; destruct rest; reflexivity].
    + split; [discriminate | intros [r H]; congruence].
Qed.

Lemma includes_char (c : ascii) (s : string) :
  Js.includes (String c "") s = true <-> In c (list_ascii_of_string s).
Proof.
  induction s as [|a rest IH].
  - simpl. split; [discriminate | tauto].
  - cbn [Js.includes list_ascii_of_string In].
    rewrite orb_true_iff, IH, prefix_char.
    split.
    + intros [[r H] | H]; [left; congruence | right; exact H].
    + intros [H | H]; [left; exists rest; congruence | right; exact H].
Qed.

Lemma get_with_key (k k' : string) (v : Js.value) (o : list (string * Js.value)) :
  Js.get (Js.with_key k v o) k' = if String.eqb k k' then v else Js.get o k'.
Proof.
  unfold Js.with_key. cbn [Js.get].
  destruct (String.eqb k k') eqn:E; [reflexivity|].
  induction o as [|[k0 v0] o IH]; [reflexivity|].
  cbn [filter fst Js.get].
  destruct (String.eqb k0 k) eqn:E0; cbn [negb].
  - apply String.eqb_eq in E0. subst k0. rewrite E. exact IH.
  - cbn [Js.get]. destruct (String.eqb k0 k'); [reflexivity | exact IH].
Qed.

Lemma get_without_key (k : string) (o : list (string * Js.value)) :
  Js.get (Js.without_key k o) k = Js.Undefined.
Proof.
  unfold Js.without_key.
  induction o as [|[k0 v0] o IH]; [reflexivity|].
  cbn [filter fst].
  destruct (String.eqb k0 k) eqn:E0; cbn [negb]; [exact IH|].
  cbn [Js.get]. rewrite E0. exact IH.
Qed.

End Strings.

(** ** Source-type inference *)

Section SourceTypeInference.
Import Db Repositories.

(** C9. The [@] test comes first: an address that contains [@] anywhere
    is an email address, also when it starts with [+]; it is a phone
    number exactly when it starts with [+] and contains no [@]; every
    other address is a webhook identifier. *)
Theorem inferSourceType_precedence (sourceTo : string) :
  (In "@"%char (list_ascii_of_string sourceTo) -> inferSourceType sourceTo = email) /\
  (inferSourceType sourceTo = phone <->
     (exists rest, sourceTo = String "+" rest) /\ ~ In "@"%char (list_ascii_of_string sourceTo)) /\
  (~ In "@"%char (list_ascii_of_string sourceTo) ->
   ~ (exists rest, sourceTo = String "+" rest) ->
   inferSourceType sourceTo = webhook).
Proof.
  unfold inferSourceType, Js.startsWith.
  pose proof (includes_char "@" sourceTo) as Hat.
  pose proof (prefix_char "+" sourceTo) as Hplus.
  destruct (Js.includes "@" sourceTo); destruct (String.prefix "+" sourceTo);
    intuition (try discriminate; try reflexivity).
Qed.

(** An address with both marks is an email address. *)
Lemma inferSourceType_precedence_witness :
  In "@"%char (list_ascii_of_string "+573001234567@example.com") /\
  inferSourceType "+573001234567@example.com" = email.
Proof.
  assert (H : In "@"%char (list_ascii_of_string "+573001234567@example.com")).
  { cbn. do 13 right. left. reflexivity. }
  split; [exact H|].
  exact (proj1 (inferSourceType_precedence "+573001234567@example.com") H).
Defined.

End SourceTypeInference.

(** ** The schema of the structured payload *)

Section Validation.
Import V2Validation.

Lemma ap_parsed_nil {A B : Type} (f : Zod.ParseReturn (A -> B)) (x : Zod.ParseReturn A) (b : B) :
  Zod.ap f x = Zod.Parsed b [] <->
  exists g a, f = Zod.Parsed g [] /\ x = Zod.Parsed a [] /\ b = g a.
Proof.
  split.
  - destruct f as [g i|i], x as [a j|j]; cbn; intros H; try discriminate.
    injection H as Hb Hij. apply app_eq_nil in Hij as [-> ->].
    exists g, a. auto.
  - intros (g & a & -> & -> & ->). reflexivity.
Qed.

Lemma safeParse_success {A : Type} (schema : Zod.Schema A) (input : Js.value) (a : A) :
  Zod.safeParse schema input = Zod.Success a <-> schema [] input = Zod.Parsed a [].
Proof.
  unfold Zod.safeParse.
  destruct (schema [] input) as [a' [|i issues]|issues]; split; intros H;
    try discriminate; congruence.
Qed.

(** The object schema succeeds exactly when each of its ten keys does. *)
Lemma request_parsed (o : list (string * Js.value)) (wd : V2WebhookRequest) :
  v2WebhookRequestSchema [] (Js.Obj o) = Zod.Parsed wd [] <->
  exists a1 a2 a3 a4 a5 a6 a7 a8 a9 a10,
    Zod.key
      (Zod.string_
         [Zod.min 1 "Source is required"; Zod.max 50 "Source name too long";
          Zod.regex (Re.Cat (Re.Plus (Re.Cls source_char)) Re.Eol)
            "Source must be lowercase alphanumeric with dashes/underscores"])
      [] o "source" = Zod.Parsed a1 [] /\
    Zod.key (Zod.string_ [Zod.datetime "Invalid ISO 8601 timestamp format"])
      [] o "timestamp" = Zod.Parsed a2 [] /\
    Zod.key sourceValueSchema [] o "sourceFrom" = Zod.Parsed a3 [] /\
    Zod.key sourceValueSchema [] o "sourceTo" = Zod.Parsed a4 [] /\
    Zod.key transactionEventSchema [] o "event" = Zod.Parsed a5 [] /\
    Zod.key
      (Zod.string_ [Zod.min 1 "Message cannot be empty"; Zod.max 2000 "Message too long"])
      [] o "message" = Zod.Parsed a6 [] /\
    Zod.key amountSchema [] o "amount" = Zod.Parsed a7 [] /\
    Zod.key currencySchema [] o "currency" = Zod.Parsed a8 [] /\
    Zod.key
      (Zod.string_
         [Zod.min 1 "Webhook ID is required"; Zod.max 255 "Webhook ID too long";
          Zod.regex (Re.Cat (Re.Plus (Re.Cls webhookId_char)) Re.Eol)
            "Webhook ID contains invalid characters"])
      [] o "webhookId" = Zod.Parsed a9 [] /\
    Zod.key (Zod.optional v2WebhookMetadataSchema) [] o "metadata" = Zod.Parsed a10 [] /\
    wd = Build_V2WebhookRequest a1 a2 a3 a4 a5 a6 a7 a8 a9 a10.
Proof.
  unfold v2WebhookRequestSchema. split.
  - intros H.
    repeat match goal with
           | H : Zod.ap _ _ = Zod.Parsed _ [] |- _ =>
               apply ap_parsed_nil in H as (? & ? & H & ? & ?)
           end.
    unfold Zod.pure in H. injection H as <-. subst.
    do 10 eexists. repeat split; eassumption.
  - intros (a1 & a2 & a3 & a4 & a5 & a6 & a7 & a8 & a9 & a10 &
            H1 & H2 & H3 & H4 & H5 & H6 & H7 & H8 & H9 & H10 & ->).
    rewrite H1, H2, H3, H4, H5, H6, H7, H8, H9, H10. reflexivity.
Qed.

(** The amount key alone. *)
Lemma amount_parsed (p : list string) (v : Js.value) (n : Js.number) :
  amountSchema p v = Zod.Parsed n [] <->
  exists q, v = Js.Num (Js.Fin q) /\ n = Js.Fin q /\ (0 < q)%Q /\ (q <= inject_Z MAX_AMOUNT)%Q.
Proof.
  unfold amountSchema, Zod.refine, Zod.number_, Zod.run_checks. split.
  - destruct v as [| |b|[| | |q]|s|l|f]; cbn; try discriminate.
    destruct (Qle_bool q (inject_Z 0)) eqn:Hpos; cbn; try discriminate.
    destruct (Qle_bool q (inject_Z MAX_AMOUNT)) eqn:Hmax; cbn; try discriminate.
    intros H. injection H as <-.
    exists q. repeat split.
    + apply Qnot_le_lt. intros Hle. apply Qle_bool_iff in Hle.
      change (inject_Z 0) with 0%Q in Hpos. congruence.
    + apply Qle_bool_iff. exact Hmax.
  - intros (q & -> & -> & Hpos & Hmax). cbn.
    replace (Qle_bool q (inject_Z 0)) with false.
    + apply Qle_bool_iff in Hmax. rewrite Hmax. reflexivity.
    + symmetry. apply not_true_is_false. intros Hle. apply Qle_bool_iff in Hle.
      change (inject_Z 0) with 0%Q in Hle. apply (Qlt_not_le _ _ Hpos). exact Hle.
Qed.

(** C8. In a payload whose other keys pass the schema, the amount is
    accepted if and only if it is a finite number, strictly positive and
    at most 999,999,999,999. *)
Theorem amount_accepted_iff (o : list (string * Js.value)) (wd : V2WebhookRequest)
        (v : Js.value) :
  parseV2WebhookPayload (Js.Obj o) = Zod.Success wd ->
  ((exists wd', parseV2WebhookPayload (Js.Obj (Js.with_key "amount" v o)) = Zod.Success wd') <->
   (exists q, v = Js.Num (Js.Fin q) /\ (0 < q)%Q /\ (q <= 999999999999)%Q)).
Proof.
  unfold parseV2WebhookPayload. intros Hvalid.
  apply safeParse_success, request_parsed in Hvalid
    as (a1 & a2 & a3 & a4 & a5 & a6 & a7 & a8 & a9 & a10 &
        H1 & H2 & H3 & H4 & H5 & H6 & H7 & H8 & H9 & H10 & ->).
  unfold Zod.key in *.
  split.
  - intros [wd' H]. apply safeParse_success, request_parsed in H
      as (b1 & b2 & b3 & b4 & b5 & b6 & b7 & b8 & b9 & b10 &
          _ & _ & _ & _ & _ & _ & H & _).
    unfold Zod.key in H. rewrite get_with_key in H.
    replace (String.eqb "amount" "amount") with true in H by reflexivity.
    apply amount_parsed in H as (q & -> & _ & Hpos & Hmax).
    exists q. auto.
  - intros (q & -> & Hpos & Hmax).
    eexists. apply safeParse_success, request_parsed.
    exists a1, a2, a3, a4, a5, a6, (Js.Fin q), a8, a9, a10.
    unfold Zod.key. rewrite !get_with_key.
    repeat match goal with
           | |- context [String.eqb "amount" ?k] =>
               let b := eval vm_compute in (String.eqb "amount" k) in
               change (String.eqb "amount" k) with b
           end.
    cbv iota.
    repeat split; try assumption.
    apply amount_parsed. exists q. auto.
Qed.

Lemma amount_accepted_iff_witness :
  parseV2WebhookPayload (Js.Obj Examples.validPayload) = Zod.Success Examples.validRequest /\
  (exists wd', parseV2WebhookPayload
                 (Js.Obj (Js.with_key "amount" (Js.Num (Js.ofZ 999999999999)) Examples.validPayload))
               = Zod.Success wd') /\
  ~ (exists wd', parseV2WebhookPayload
                   (Js.Obj (Js.with_key "amount" (Js.Num (Js.ofZ (-100))) Examples.validPayload))
                 = Zod.Success wd') /\
  ~ (exists wd', parseV2WebhookPayload
                   (Js.Obj (Js.with_key "amount" (Js.Num (Js.ofZ 9999999999999)) Examples.validPayload))
                 = Zod.Success wd').
Proof.
  assert (Hvalid : parseV2WebhookPayload (Js.Obj Examples.validPayload)
                   = Zod.Success Examples.validRequest) by (vm_compute; reflexivity).
  split; [exact Hvalid|]. split; [|split].
  - apply (proj2 (amount_accepted_iff _ _ _ Hvalid)).
    exists (inject_Z 999999999999). split; [reflexivity|].
    split; [reflexivity | discriminate].
  - intros Hex. apply (proj1 (amount_accepted_iff _ _ _ Hvalid)) in Hex as (q & Heq & Hpos & _).
    injection Heq as <-. discriminate Hpos.
  - intros Hex. apply (proj1 (amount_accepted_iff _ _ _ Hvalid)) in Hex as (q & Heq & _ & Hmax).
    injection Heq as <-. apply Hmax. reflexivity.
Defined.

(** C4. A payload that leaves the currency out passes the schema with
    no currency in the output: the optional wrapper accepts the missing
    key before the default inside it is reached. The code "COP" is
    supplied later, by the row that [createV2Transaction] builds; the
    test "should handle optional currency field" of the validator
    expects it from the validator itself. *)
Theorem currency_default_not_applied (o : list (string * Js.value)) (wd : V2WebhookRequest) :
  Js.get o "currency" = Js.Undefined ->
  parseV2WebhookPayload (Js.Obj o) = Zod.Success wd ->
  currency wd = None /\
  forall localTZA sourceId t,
    Db.currency (V2DatabaseService.transactionData localTZA sourceId wd t) = "COP".
Proof.
  unfold parseV2WebhookPayload. intros Hmissing Hvalid.
  apply safeParse_success, request_parsed in Hvalid
    as (a1 & a2 & a3 & a4 & a5 & a6 & a7 & a8 & a9 & a10 &
        _ & _ & _ & _ & _ & _ & _ & H8 & _ & _ & ->).
  unfold Zod.key in H8. rewrite Hmissing in H8. cbn in H8.
  injection H8 as <-. split; reflexivity.
Qed.

Lemma currency_default_not_applied_witness :
  Js.get (Js.without_key "currency" Examples.validPayload) "currency" = Js.Undefined /\
  (exists wd,
      parseV2WebhookPayload (Js.Obj (Js.without_key "currency" Examples.validPayload))
      = Zod.Success wd /\
      currency wd = None).
Proof.
  assert (Hmissing : Js.get (Js.without_key "currency" Examples.validPayload) "currency"
                     = Js.Undefined) by apply get_without_key.
  split; [exact Hmissing|].
  eexists. split; [vm_compute; reflexivity|].
  refine (proj1 (currency_default_not_applied _ _ Hmissing _)).
  vm_compute. reflexivity.
Defined.

End Validation.

(** ** The storage service and the services on it *)

Section Storage.
Import Db V2Validation V2DatabaseService.

Lemma call_quiet {A : Type} (stmt : Store -> Response A * Store) (st : Store) :
  call stmt {| store := st; script := [] |}
  = (fst (stmt st), {| store := snd (stmt st); script := [] |}).
Proof. unfold call. cbn. destruct (stmt st). reflexivity. Qed.

(** A call of a statement that leaves the transactions alone, served
    without other writers, leaves them alone. *)
Lemma call_alone {A : Type} (stmt : Store -> Response A * Store) (w w' : World)
      (r : Response A) :
  (forall st, v2_transactions (snd (stmt st)) = v2_transactions st) ->
  alone w ->
  call stmt w = (r, w') ->
  v2_transactions (store w') = v2_transactions (store w) /\ alone w'.
Proof.
  intros Hstmt Halone. unfold call, alone in *.
  destruct w as [st sc]. cbn [script store] in *.
  destruct sc as [|[|e|ws] rest].
  - specialize (Hstmt st). destruct (stmt st) as [r0 st0]. intros H. injection H as <- <-.
    cbn in *. auto.
  - specialize (Hstmt st). destruct (stmt st) as [r0 st0]. intros H. injection H as <- <-.
    cbn in *. split; [exact Hstmt|]. intros ws Hin. apply (Halone ws). right. exact Hin.
  - intros H. injection H as <- <-. cbn. split; [reflexivity|].
    intros ws Hin. apply (Halone ws). right. exact Hin.
  - exfalso. apply (Halone ws). left. reflexivity.
Qed.

Lemma select_source_transactions t v st :
  v2_transactions (snd (select_source t v st)) = v2_transactions st.
Proof. reflexivity. Qed.

Lemma insert_source_transactions t v st :
  v2_transactions (snd (insert_source t v st)) = v2_transactions st.
Proof. unfold insert_source. destruct (existsb _ _); reflexivity. Qed.

Lemma select_users_transactions sid st :
  v2_transactions (snd (select_users sid st)) = v2_transactions st.
Proof. reflexivity. Qed.

Lemma findOrCreateSource_alone t v w o w' :
  alone w ->
  findOrCreateSource t v w = (o, w') ->
  v2_transactions (store w') = v2_transactions (store w) /\ alone w'.
Proof.
  intros Halone. unfold findOrCreateSource, bind, ret.
  destruct (call (select_source t v) w) as [found w1] eqn:E1.
  apply call_alone in E1 as [Htx1 Halone1];
    [|apply select_source_transactions|exact Halone].
  destruct (other_than_not_found (error found)).
  { intros H. injection H as <- <-. auto. }
  destruct (data found).
  { intros H. injection H as <- <-. auto. }
  destruct (call (insert_source t v) w1) as [created w2] eqn:E2.
  apply call_alone in E2 as [Htx2 Halone2];
    [|apply insert_source_transactions|exact Halone1].
  rewrite <- Htx1, <- Htx2.
  destruct (error created); [|destruct (data created)];
    intros H; injection H as <- <-; auto.
Qed.

Lemma getUsersForSource_alone sid w o w' :
  alone w ->
  getUsersForSource sid w = (o, w') ->
  v2_transactions (store w') = v2_transactions (store w) /\ alone w'.
Proof.
  intros Halone. unfold getUsersForSource, bind, ret.
  destruct (call (select_users sid) w) as [r w1] eqn:E1.
  apply call_alone in E1 as [Htx1 Halone1];
    [|apply select_users_transactions|exact Halone].
  destruct (error r); [|destruct (data r)]; intros H; injection H as <- <-; auto.
Qed.

(** The services over a store that nobody else writes to and that
    answers every call. *)
Lemma findOrCreateSource_quiet t v st :
  findOrCreateSource t v {| store := st; script := [] |} =
  match filter (source_is t v) (sources st) with
  | [row] => (ok (transformDatabaseSource row), {| store := st; script := [] |})
  | _ =>
      if existsb (source_is t v) (sources st)
      then (fail "Failed to create source: duplicate key value violates unique constraint sources_source_type_source_value_key",
            {| store := st; script := [] |})
      else (ok {| src_id := next_id st; sourceType := t; sourceValue := v |},
            {| store := snd (insert_source t v st); script := [] |})
  end.
Proof.
  unfold findOrCreateSource, bind, ret. rewrite call_quiet.
  unfold select_source. cbn [fst snd].
  destruct (filter (source_is t v) (sources st)) as [|row [|row' rows]];
    cbn; try reflexivity;
    rewrite call_quiet; unfold insert_source;
    destruct (existsb (source_is t v) (sources st)); reflexivity.
Qed.

Lemma getUsersForSource_quiet sid st :
  getUsersForSource sid {| store := st; script := [] |} =
  ({| out_data := map user_id (filter (subscribes sid) (user_sources st)); out_error := None |},
   {| store := st; script := [] |}).
Proof. unfold getUsersForSource, bind, ret. rewrite call_quiet. reflexivity. Qed.

Lemma createV2Transaction_quiet localTZA sid wd st :
  createV2Transaction localTZA sid wd {| store := st; script := [] |} =
  match filter (webhook_is (webhookId wd)) (v2_transactions st) with
  | [row] => (fail "Duplicate webhook ID", {| store := st; script := [] |})
  | _ =>
      match JsDate.ofString (timestamp wd) with
      | None => (fail "Invalid time value", {| store := st; script := [] |})
      | Some t =>
          if existsb (webhook_is (webhookId wd)) (v2_transactions st)
          then (fail "Failed to insert transaction: duplicate key value violates unique constraint v2_transactions_webhook_id_key",
                {| store := st; script := [] |})
          else (ok (transformDatabaseV2Transaction
                      {| tx_id := next_id st; columns := transactionData localTZA sid wd t |}),
                {| store := snd (insert_transaction (transactionData localTZA sid wd t) st);
                   script := [] |})
      end
  end.
Proof.
  unfold createV2Transaction, bind, ret. rewrite call_quiet.
  unfold select_transaction. cbn [fst snd].
  destruct (filter (webhook_is (webhookId wd)) (v2_transactions st)) as [|row [|row' rows]];
    cbn; try reflexivity;
    (destruct (JsDate.ofString (timestamp wd)) as [t|]; [|reflexivity]);
    rewrite call_quiet; unfold insert_transaction;
    change (webhook_id (transactionData localTZA sid wd t)) with (webhookId wd);
    destruct (existsb (webhook_is (webhookId wd)) (v2_transactions st)); reflexivity.
Qed.

End Storage.

(** ** Routing: sources without subscribers *)

Section Routing.
Import Db V2Validation V2DatabaseService Route.

(** Every answer of the handler is of one of four classes. *)
Lemma POST_classes localTZA body w :
  let r := fst (POST localTZA body w) in
  (http_status r = 400 /\ status (json r) = "error") \/
  (http_status r = 500 /\ status (json r) = "error" /\
   In (error (json r))
      [Some "Failed to process source"; Some "Failed to find users for source";
       Some "Failed to store transaction"; Some "Transaction creation failed"]) \/
  (http_status r = 404 /\ status (json r) = "error" /\
   error (json r) = Some "No users configured for this source") \/
  (http_status r = 200 /\ error (json r) = None /\
   (status (json r) = "duplicate" \/ status (json r) = "processed")).
Proof.
  unfold POST, bind, ret.
  destruct body as [body|]; [|cbn; auto].
  destruct (parseV2WebhookPayload body) as [wd|issues]; [|cbn; auto].
  destruct (findOrCreateSource _ _ w) as [s w1].
  destruct (out_error s); [cbn; auto 10|].
  destruct (out_data s) as [source|]; [|cbn; auto 10].
  destruct (getUsersForSource _ w1) as [u w2].
  destruct (out_error u); [cbn; auto 10|].
  destruct (List.length (out_data u) =? 0)%nat; [cbn; auto 10|].
  destruct (createV2Transaction _ _ _ w2) as [t w3].
  destruct (out_error t) as [msg|].
  - destruct (Js.includes "Duplicate webhook ID" msg); cbn; auto 10.
  - destruct (out_data t); cbn; auto 10.
Qed.

(** C5. A valid payload whose source resolves and has no active
    subscriber is answered 404 with the error "No users configured for
    this source" and the status "error", never "processed"; the handler
    makes no further call, so no transaction is written; a payload that
    fails the schema is answered 400, a failure of the storage service
    while resolving the source or its subscribers is answered 500, and
    nothing else is answered 404. The repository layer reports the same
    case with the same message. *)
Theorem zero_subscribers_outcome localTZA body wd w w1 w2 src :
  parseV2WebhookPayload body = Zod.Success wd ->
  findOrCreateSource (Repositories.inferSourceType (sourceTo wd)) (sourceTo wd) w
  = (ok src, w1) ->
  getUsersForSource (src_id src) w1 = ({| out_data := []; out_error := None |}, w2) ->
  POST localTZA (Some body) w
  = ({| http_status := 404;
        json := {| status := "error";
                   transactionId := None;
                   webhookId := Js.Str (V2Validation.webhookId wd);
                   error := Some "No users configured for this source";
                   sourceId := Some (src_id src) |} |}, w2) /\
  (alone w -> v2_transactions (store w2) = v2_transactions (store w)) /\
  Repositories.processV2Webhook localTZA wd w
  = (Repositories.failed "No users configured for this source", w2) /\
  (forall body' issues w0,
      parseV2WebhookPayload body' = Zod.Failure issues ->
      POST localTZA (Some body') w0
      = (error_response 400 (validation_message issues) (webhookId_or_unknown body'), w0)) /\
  (forall body' wd' w0,
      parseV2WebhookPayload body' = Zod.Success wd' ->
      (out_error (fst (findOrCreateSource
                         (Repositories.inferSourceType (sourceTo wd')) (sourceTo wd') w0))
       <> None ->
       http_status (fst (POST localTZA (Some body') w0)) = 500) /\
      (forall src' w0',
          findOrCreateSource (Repositories.inferSourceType (sourceTo wd')) (sourceTo wd') w0
          = (ok src', w0') ->
          out_error (fst (getUsersForSource (src_id src') w0')) <> None ->
          http_status (fst (POST localTZA (Some body') w0)) = 500)) /\
  (forall body' w0,
      http_status (fst (POST localTZA body' w0)) = 404 ->
      error (json (fst (POST localTZA body' w0)))
      = Some "No users configured for this source").
Proof.
  intros Hvalid Hfind Husers.
  split; [|split; [|split; [|split; [|split]]]].
  - unfold POST, bind, ret. rewrite Hvalid, Hfind. cbn. rewrite Husers. reflexivity.
  - intros Halone.
    apply findOrCreateSource_alone in Hfind as [Htx1 Halone1]; [|exact Halone].
    apply getUsersForSource_alone in Husers as [Htx2 _]; [|exact Halone1].
    congruence.
  - unfold Repositories.processV2Webhook, Repositories.findOrCreateSource,
      Repositories.getUsersForSource, bind, ret.
    rewrite Hfind. cbn. rewrite Husers. reflexivity.
  - intros body' issues w0 Hfail. unfold POST, ret. rewrite Hfail. reflexivity.
  - intros body' wd' w0 Hvalid'. split.
    + unfold POST, bind, ret. rewrite Hvalid'.
      destruct (findOrCreateSource _ _ w0) as [s w0']. cbn [fst].
      destruct (out_error s); [reflexivity | congruence].
    + intros src' w0' Hfind'. unfold POST, bind, ret. rewrite Hvalid', Hfind'. cbn.
      destruct (getUsersForSource _ w0') as [u w0'']. cbn [fst].
      destruct (out_error u); [reflexivity | congruence].
  - intros body' w0 H404.
    pose proof (POST_classes localTZA body' w0) as Hc. cbv zeta in Hc.
    destruct Hc as [[H _] | [[H _] | [(_ & _ & H) | [H _]]]];
      try (rewrite H in H404; discriminate).
    exact H.
Qed.

Lemma zero_subscribers_outcome_witness :
  exists w2,
    POST Examples.utc (Some (Js.Obj Examples.validPayload))
         {| store := Examples.emptyStore; script := [] |}
    = ({| http_status := 404;
          json := {| status := "error";
                     transactionId := None;
                     webhookId := Js.Str "webhook_1693814760_12345";
                     error := Some "No users configured for this source";
                     sourceId := Some 0 |} |}, w2) /\
    v2_transactions (store w2) = [].
Proof.
  eexists.
  assert (Hvalid : parseV2WebhookPayload (Js.Obj Examples.validPayload)
                   = Zod.Success Examples.validRequest) by (vm_compute; reflexivity).
  assert (Halone : alone {| store := Examples.emptyStore; script := [] |})
    by (intros ws H; exact H).
  pose proof (zero_subscribers_outcome Examples.utc _ _
                {| store := Examples.emptyStore; script := [] |} _ _ _
                Hvalid eq_refl eq_refl) as (Hpost & Htx & _).
  split; [exact Hpost | exact (Htx Halone)].
Defined.

(** The handler on the repository layer answers the same case 400: the
    message is the same, the identifier of the source is not given, and
    a failure of the storage service while resolving the source is
    answered 400 as well. *)
Lemma POST_repository_zero_subscribers localTZA body wd w w1 w2 src :
  parseV2WebhookPayload body = Zod.Success wd ->
  findOrCreateSource (Repositories.inferSourceType (sourceTo wd)) (sourceTo wd) w
  = (ok src, w1) ->
  getUsersForSource (src_id src) w1 = ({| out_data := []; out_error := None |}, w2) ->
  POST_repository localTZA (Some body) w
  = ({| http_status := 400;
        json := {| status := "error";
                   transactionId := None;
                   webhookId := Js.Str (V2Validation.webhookId wd);
                   error := Some "No users configured for this source";
                   sourceId := None |} |}, w2).
Proof.
  intros Hvalid Hfind Husers.
  unfold POST_repository, Repositories.processV2Webhook, Repositories.findOrCreateSource,
    Repositories.getUsersForSource, bind, ret.
  rewrite Hvalid, Hfind. cbn. rewrite Husers. reflexivity.
Qed.

Lemma POST_repository_source_failure localTZA body wd w :
  parseV2WebhookPayload body = Zod.Success wd ->
  out_error (fst (findOrCreateSource (Repositories.inferSourceType (sourceTo wd))
                                     (sourceTo wd) w)) <> None ->
  http_status (fst (POST_repository localTZA (Some body) w)) = 400.
Proof.
  intros Hvalid.
  unfold POST_repository, Repositories.processV2Webhook, Repositories.findOrCreateSource,
    bind, ret.
  rewrite Hvalid.
  destruct (findOrCreateSource _ _ w) as [s w1]. cbn [fst].
  destruct (out_error s); [reflexivity | congruence].
Qed.

Lemma filter_none {A : Type} (f : A -> bool) (l : list A) :
  (forall x, In x l -> f x = false) -> filter f l = [] /\ existsb f l = false.
Proof.
  intros H. induction l as [|x l IH]; [auto|].
  cbn. rewrite (H x (or_introl eq_refl)).
  apply IH. intros y Hy. apply H. right. exact Hy.
Qed.

(** C10. The zero-subscriber path is not atomic. When the address of a
    valid payload is no source yet (so that, the store being
    consistent, no subscription refers to it), the request ends in the
    404 answer "No users configured for this source"; the source row
    that find-or-create wrote during the request stays in the table,
    and its identifier is the [sourceId] of the answer. *)
Theorem unseen_source_persists localTZA body wd st :
  parseV2WebhookPayload body = Zod.Success wd ->
  consistent st ->
  (forall r, In r (sources st) ->
             source_is (Repositories.inferSourceType (sourceTo wd)) (sourceTo wd) r = false) ->
  POST localTZA (Some body) {| store := st; script := [] |}
  = ({| http_status := 404;
        json := {| status := "error";
                   transactionId := None;
                   webhookId := Js.Str (V2Validation.webhookId wd);
                   error := Some "No users configured for this source";
                   sourceId := Some (next_id st) |} |},
     {| store :=
          {| sources :=
               sources st ++ [{| id := next_id st;
                                 source_type := Repositories.inferSourceType (sourceTo wd);
                                 source_value := sourceTo wd |}];
             user_sources := user_sources st;
             v2_transactions := v2_transactions st;
             next_id := S (next_id st) |};
        script := [] |}).
Proof.
  intros Hvalid [Hids Hfk] Hunseen.
  apply filter_none in Hunseen as [Hfilter Hexists].
  assert (Hnobody : filter (subscribes (next_id st)) (user_sources st) = []).
  { apply filter_none. intros r Hr. unfold subscribes.
    destruct (Hfk r Hr) as (s & Hs & <-).
    apply Hids in Hs.
    replace (id s =? next_id st)%nat with false; [reflexivity|].
    symmetry. apply Nat.eqb_neq. lia. }
  unfold POST, bind, ret. rewrite Hvalid, findOrCreateSource_quiet, Hfilter, Hexists.
  unfold insert_source. rewrite Hexists. cbn [ok out_error out_data src_id snd].
  rewrite getUsersForSource_quiet. cbn [out_error out_data user_sources].
  rewrite Hnobody. reflexivity.
Qed.

Lemma unseen_source_persists_witness :
  exists w',
    POST Examples.utc (Some (Js.Obj Examples.validPayload))
         {| store := Examples.emptyStore; script := [] |}
    = ({| http_status := 404;
          json := {| status := "error";
                     transactionId := None;
                     webhookId := Js.Str "webhook_1693814760_12345";
                     error := Some "No users configured for this source";
                     sourceId := Some 0 |} |}, w') /\
    sources (store w')
    = [{| id := 0; source_type := email; source_value := "jdcadavid96@gmail.com" |}].
Proof.
  eexists.
  assert (Hvalid : parseV2WebhookPayload (Js.Obj Examples.validPayload)
                   = Zod.Success Examples.validRequest) by (vm_compute; reflexivity).
  assert (Hconsistent : consistent Examples.emptyStore)
    by (split; intros x Hx; destruct Hx).
  split.
  - refine (unseen_source_persists Examples.utc _ _ _ Hvalid Hconsistent _).
    intros r Hr. destruct Hr.
  - reflexivity.
Defined.

End Routing.

(** ** Concurrent writers *)

Section Races.
Import Db V2Validation V2DatabaseService.

Lemma call_served {A : Type} (stmt : Store -> Response A * Store) st rest :
  call stmt {| store := st; script := Served :: rest |}
  = (fst (stmt st), {| store := snd (stmt st); script := rest |}).
Proof. unfold call. cbn. destruct (stmt st). reflexivity. Qed.

Lemma call_concurrent {A : Type} (stmt : Store -> Response A * Store) st ws rest :
  call stmt {| store := st; script := Concurrent ws :: rest |}
  = (fst (stmt (fold_left (fun st s => execute s st) ws st)),
     {| store := snd (stmt (fold_left (fun st s => execute s st) ws st)); script := rest |}).
Proof. unfold call. cbn. destruct (stmt _). reflexivity. Qed.

(** C3, as the code has it. When the lookup finds no source and other
    writers create the pair before the insert is served, the insert
    meets the uniqueness constraint and [findOrCreateSource] returns no
    source and the error "Failed to create source: ..."; it makes no
    second lookup, and the table is left as the other writers made it. *)
Theorem findOrCreateSource_conflict_is_error t v st ws rest :
  filter (source_is t v) (sources st) = [] ->
  existsb (source_is t v) (sources (fold_left (fun st s => execute s st) ws st)) = true ->
  findOrCreateSource t v {| store := st; script := Served :: Concurrent ws :: rest |}
  = (fail "Failed to create source: duplicate key value violates unique constraint sources_source_type_source_value_key",
     {| store := fold_left (fun st s => execute s st) ws st; script := rest |}).
Proof.
  intros Hnone Hrace.
  unfold findOrCreateSource, bind, ret.
  rewrite call_served. unfold select_source. cbn [fst snd]. rewrite Hnone. cbn.
  rewrite call_concurrent. unfold insert_source. rewrite Hrace. reflexivity.
Qed.

Lemma findOrCreateSource_conflict_is_error_witness :
  findOrCreateSource email "jdcadavid96@gmail.com" Examples.firstSightingRace
  = (fail "Failed to create source: duplicate key value violates unique constraint sources_source_type_source_value_key",
     {| store :=
          {| sources := [{| id := 0; source_type := email;
                            source_value := "jdcadavid96@gmail.com" |}];
             user_sources := []; v2_transactions := []; next_id := 1 |};
        script := [] |}).
Proof.
  exact (findOrCreateSource_conflict_is_error email "jdcadavid96@gmail.com"
           Examples.emptyStore [InsertSource email "jdcadavid96@gmail.com"] []
           eq_refl eq_refl).
Defined.

(** The claim C3 fails: in a first-sighting race the existing source is
    in the table, and the operation returns the conflict as an error
    and no source. *)
Lemma findOrCreateSource_conflict_counterexample :
  In {| id := 0; source_type := email; source_value := "jdcadavid96@gmail.com" |}
     (sources (store (snd (findOrCreateSource email "jdcadavid96@gmail.com"
                                              Examples.firstSightingRace)))) /\
  out_data (fst (findOrCreateSource email "jdcadavid96@gmail.com" Examples.firstSightingRace))
  = None /\
  out_error (fst (findOrCreateSource email "jdcadavid96@gmail.com" Examples.firstSightingRace))
  = Some "Failed to create source: duplicate key value violates unique constraint sources_source_type_source_value_key".
Proof. vm_compute. auto. Qed.

(** C2, as the code has it. When the duplicate check finds no row and
    other writers insert the same webhook id before the insert is
    served, [createV2Transaction] returns the error "Failed to insert
    transaction: ...", which does not carry the mark "Duplicate webhook
    ID" that the handler looks for. *)
Theorem createV2Transaction_conflict_is_error localTZA sid wd st ws rest t :
  filter (webhook_is (webhookId wd)) (v2_transactions st) = [] ->
  JsDate.ofString (timestamp wd) = Some t ->
  existsb (webhook_is (webhookId wd))
          (v2_transactions (fold_left (fun st s => execute s st) ws st)) = true ->
  createV2Transaction localTZA sid wd
                      {| store := st; script := Served :: Concurrent ws :: rest |}
  = (fail "Failed to insert transaction: duplicate key value violates unique constraint v2_transactions_webhook_id_key",
     {| store := fold_left (fun st s => execute s st) ws st; script := rest |}) /\
  Js.includes "Duplicate webhook ID"
              "Failed to insert transaction: duplicate key value violates unique constraint v2_transactions_webhook_id_key"
  = false.
Proof.
  intros Hnone Htime Hrace. split; [|vm_compute; reflexivity].
  unfold createV2Transaction, bind, ret.
  rewrite call_served. unfold select_transaction. cbn [fst snd]. rewrite Hnone. cbn.
  rewrite Htime, call_concurrent. unfold insert_transaction.
  change (webhook_id (transactionData localTZA sid wd t)) with (webhookId wd).
  rewrite Hrace. reflexivity.
Qed.

Lemma createV2Transaction_conflict_is_error_witness :
  out_error (fst (createV2Transaction Examples.utc 0 Examples.validRequest
                    {| store := Examples.configuredStore;
                       script := [Served; Concurrent [InsertTransaction Examples.rivalRow]] |}))
  = Some "Failed to insert transaction: duplicate key value violates unique constraint v2_transactions_webhook_id_key".
Proof.
  assert (Htime : JsDate.ofString (timestamp Examples.validRequest) = Some 1756973160000%Z)
    by (vm_compute; reflexivity).
  rewrite (proj1 (createV2Transaction_conflict_is_error Examples.utc 0 Examples.validRequest
                    Examples.configuredStore [InsertTransaction Examples.rivalRow] []
                    1756973160000%Z eq_refl Htime eq_refl)).
  reflexivity.
Defined.

(** The same race seen from the two handlers: the handler on the
    database service answers 500, the one on the repository layer looks
    the row up and answers "duplicate" with its identifier. *)
Lemma POST_race_is_storage_failure :
  fst (Route.POST Examples.utc (Some (Js.Obj Examples.validPayload)) Examples.racingWorld)
  = Route.error_response 500 "Failed to store transaction"
                         (Js.Str "webhook_1693814760_12345").
Proof. vm_compute. reflexivity. Qed.

Lemma POST_repository_race_is_duplicate :
  fst (Route.POST_repository Examples.utc (Some (Js.Obj Examples.validPayload))
                             Examples.racingWorld)
  = {| Route.http_status := 200;
       Route.json := {| Route.status := "duplicate";
                        Route.transactionId := Some 2;
                        Route.webhookId := Js.Str "webhook_1693814760_12345";
                        Route.error := None;
                        Route.sourceId := Some 0 |} |}.
Proof. vm_compute. reflexivity. Qed.

End Races.

(** ** Idempotency on the webhook identifier *)

Section Idempotency.
Import Db V2Validation V2DatabaseService.

Lemma filter_nil_existsb {A : Type} (f : A -> bool) (l : list A) :
  filter f l = [] -> existsb f l = false.
Proof.
  induction l as [|x l IH]; [reflexivity|].
  cbn. destruct (f x); [discriminate | exact IH].
Qed.

Lemma filter_cons_existsb {A : Type} (f : A -> bool) (l : list A) x rest :
  filter f l = x :: rest -> existsb f l = true.
Proof.
  intros H. apply existsb_exists. exists x.
  apply filter_In. rewrite H. left. reflexivity.
Qed.

Lemma SourceType_eqb_refl t : SourceType_eqb t t = true.
Proof. destruct t; reflexivity. Qed.

Lemma outcome_eta {A : Type} (o : Outcome (option A)) (a : A) :
  out_error o = None -> out_data o = Some a -> o = ok a.
Proof. destruct o as [d e]. cbn. intros -> ->. reflexivity. Qed.

(** After a find-or-create that succeeds, the pair is in the table
    exactly once, and it is the source that was returned. *)
Lemma findOrCreateSource_found t v st src w' :
  findOrCreateSource t v {| store := st; script := [] |} = (ok src, w') ->
  exists st' row,
    w' = {| store := st'; script := [] |} /\
    filter (source_is t v) (sources st') = [row] /\
    transformDatabaseSource row = src /\
    user_sources st' = user_sources st /\
    v2_transactions st' = v2_transactions st.
Proof.
  rewrite findOrCreateSource_quiet.
  destruct (filter (source_is t v) (sources st)) as [|row [|row' rows]] eqn:Hf.
  - rewrite (filter_nil_existsb _ _ Hf). intros H. injection H as <- <-.
    unfold insert_source. rewrite (filter_nil_existsb _ _ Hf). cbn [snd].
    eexists. exists {| id := next_id st; source_type := t; source_value := v |}.
    split; [reflexivity|]. cbn [sources user_sources v2_transactions].
    rewrite filter_app, Hf. cbn [filter app]. unfold source_is at 1. cbn [source_type source_value].
    rewrite SourceType_eqb_refl, String.eqb_refl. auto.
  - intros H. injection H as <- <-. exists st, row. auto.
  - rewrite (filter_cons_existsb _ _ _ _ Hf). intros H. discriminate H.
Qed.

Lemma findOrCreateSource_again t v st row :
  filter (source_is t v) (sources st) = [row] ->
  findOrCreateSource t v {| store := st; script := [] |}
  = (ok (transformDatabaseSource row), {| store := st; script := [] |}).
Proof. intros H. rewrite findOrCreateSource_quiet, H. reflexivity. Qed.

(** After a create that succeeds, the webhook id is in the table
    exactly once, and a second create reports the duplicate. *)
Lemma createV2Transaction_created localTZA sid wd st txn w' :
  createV2Transaction localTZA sid wd {| store := st; script := [] |} = (ok txn, w') ->
  exists st' row,
    w' = {| store := st'; script := [] |} /\
    filter (webhook_is (webhookId wd)) (v2_transactions st) = [] /\
    v2_transactions st' = (v2_transactions st ++ [row])%list /\
    filter (webhook_is (webhookId wd)) (v2_transactions st') = [row] /\
    tx_id row = txn_id txn /\
    sources st' = sources st /\
    user_sources st' = user_sources st.
Proof.
  rewrite createV2Transaction_quiet.
  destruct (filter (webhook_is (webhookId wd)) (v2_transactions st)) as [|row [|row' rows]] eqn:Hf.
  - destruct (JsDate.ofString (timestamp wd)) as [t|]; [|discriminate].
    rewrite (filter_nil_existsb _ _ Hf). intros H. injection H as <- <-.
    unfold insert_transaction.
    change (webhook_id (transactionData localTZA sid wd t)) with (webhookId wd).
    rewrite (filter_nil_existsb _ _ Hf). cbn [snd].
    eexists. exists {| tx_id := next_id st; columns := transactionData localTZA sid wd t |}.
    split; [reflexivity|]. cbn [sources user_sources v2_transactions].
    rewrite filter_app, Hf. cbn [filter app]. unfold webhook_is at 1. cbn [columns].
    change (webhook_id (transactionData localTZA sid wd t)) with (webhookId wd).
    rewrite String.eqb_refl. auto 10.
  - discriminate.
  - destruct (JsDate.ofString (timestamp wd)) as [t|]; [|discriminate].
    rewrite (filter_cons_existsb _ _ _ _ Hf). discriminate.
Qed.

Lemma createV2Transaction_again localTZA sid wd st row :
  filter (webhook_is (webhookId wd)) (v2_transactions st) = [row] ->
  createV2Transaction localTZA sid wd {| store := st; script := [] |}
  = (fail "Duplicate webhook ID", {| store := st; script := [] |}).
Proof. intros H. rewrite createV2Transaction_quiet, H. reflexivity. Qed.

Ltac not_processed :=
  let H := fresh in
  let Hp := fresh in
  intros H Hp; injection H as <- <-; discriminate Hp.

(** C1, as the handler on the database service has it. When a request
    is answered "processed", the same request sent again to the store
    it left is answered 200 with the status "duplicate", the store is
    not changed and holds one row for the webhook id, the row of the
    first answer; but the second answer carries no [transactionId]. *)
Theorem POST_duplicate_without_transactionId localTZA body st r1 w1 :
  Route.POST localTZA (Some body) {| store := st; script := [] |} = (r1, w1) ->
  Route.status (Route.json r1) = "processed" ->
  exists wd tid sid row,
    parseV2WebhookPayload body = Zod.Success wd /\
    r1 = {| Route.http_status := 200;
            Route.json := {| Route.status := "processed";
                             Route.transactionId := Some tid;
                             Route.webhookId := Js.Str (webhookId wd);
                             Route.error := None;
                             Route.sourceId := Some sid |} |} /\
    filter (webhook_is (webhookId wd)) (v2_transactions (store w1)) = [row] /\
    tx_id row = tid /\
    Route.POST localTZA (Some body) w1
    = ({| Route.http_status := 200;
          Route.json := {| Route.status := "duplicate";
                           Route.transactionId := None;
                           Route.webhookId := Js.Str (webhookId wd);
                           Route.error := None;
                           Route.sourceId := Some sid |} |}, w1).
Proof.
  unfold Route.POST at 1. unfold bind, ret.
  destruct (parseV2WebhookPayload body) as [wd|issues] eqn:Hvalid; [|not_processed].
  destruct (findOrCreateSource _ _ _) as [s wa] eqn:E1.
  destruct (out_error s) eqn:Hse; [not_processed|].
  destruct (out_data s) as [source|] eqn:Hsd; [|not_processed].
  rewrite (outcome_eta _ _ Hse Hsd) in E1.
  apply findOrCreateSource_found in E1 as (sta & srow & -> & Hsf & Hsrc & Hus & Htx).
  rewrite getUsersForSource_quiet. cbn [out_error out_data].
  destruct (List.length _ =? 0)%nat eqn:Hlen; [not_processed|].
  destruct (createV2Transaction _ _ _ _) as [t wc] eqn:E3.
  destruct (out_error t) as [msg|] eqn:Hte.
  { destruct (Js.includes _ msg); not_processed. }
  destruct (out_data t) as [txn|] eqn:Htd; [|not_processed].
  rewrite (outcome_eta _ _ Hte Htd) in E3.
  apply createV2Transaction_created in E3
    as (stc & row & -> & _ & _ & Hrow & Hid & Hsources & Husers).
  intros H _. injection H as <- <-.
  exists wd, (txn_id txn), (src_id source), row.
  repeat split; try assumption.
  unfold Route.POST, bind, ret. rewrite Hvalid.
  rewrite (findOrCreateSource_again _ _ stc srow) by (rewrite Hsources; exact Hsf).
  rewrite Hsrc. cbn [ok out_error out_data].
  rewrite getUsersForSource_quiet. cbn [out_error out_data].
  rewrite Husers, Hlen.
  rewrite (createV2Transaction_again _ _ _ _ row Hrow).
  reflexivity.
Qed.

Lemma POST_duplicate_without_transactionId_witness :
  exists r1 w1,
    Route.POST Examples.utc (Some (Js.Obj Examples.validPayload))
               {| store := Examples.configuredStore; script := [] |} = (r1, w1) /\
    Route.status (Route.json r1) = "processed" /\
    Route.transactionId (Route.json r1) = Some 2 /\
    Route.status
      (Route.json (fst (Route.POST Examples.utc (Some (Js.Obj Examples.validPayload)) w1)))
    = "duplicate" /\
    Route.transactionId
      (Route.json (fst (Route.POST Examples.utc (Some (Js.Obj Examples.validPayload)) w1)))
    = None.
Proof.
  do 2 eexists.
  assert (Hfirst : Route.POST Examples.utc (Some (Js.Obj Examples.validPayload))
                              {| store := Examples.configuredStore; script := [] |}
                   = (_, _)) by (vm_compute; reflexivity).
  split; [exact Hfirst|].
  destruct (POST_duplicate_without_transactionId _ _ _ _ _ Hfirst eq_refl)
    as (wd & tid & sid & row & _ & _ & _ & _ & Hsecond).
  rewrite Hsecond. repeat split; reflexivity.
Defined.


End Idempotency.

(** ** The grammar of the free-text path *)

Section Grammar.
Import SmsParser.

(** C7. A message that matches the pattern and names a date that does
    not exist in the calendar is a parse failure with a reason that is
    not empty; it is never a success. *)
Theorem impossible_date_rejected (message : string) (c : JsDate.civil) :
  captured_date message = Some c ->
  JsDate.valid_civil c = false ->
  success (parseBancolombiaSMS message) = false /\
  date (parseBancolombiaSMS message) = None /\
  exists reason, errorReason (parseBancolombiaSMS message) = Some reason /\ reason <> "".
Proof.
  unfold captured_date, parseBancolombiaSMS.
  destruct (Re.exec BANCOLOMBIA_PATTERN message)
    as [[|amountStr [|sender [|acct [|dateStr [|timeStr [|extra rest]]]]]]|];
    try discriminate.
  intros Hdate Himpossible. rewrite Hdate, Himpossible.
  destruct (digits_value amountStr None) as [a|]; [destruct (a <=? 0)%Z|];
    (split; [reflexivity | split; [reflexivity | eexists; split; [reflexivity | discriminate]]]).
Qed.

Lemma impossible_date_rejected_witness :
  captured_date Examples.impossibleDateMessage
  = Some {| JsDate.year := 2025; JsDate.month := 13; JsDate.date := 32 |} /\
  success (parseBancolombiaSMS Examples.impossibleDateMessage) = false /\
  errorReason (parseBancolombiaSMS Examples.impossibleDateMessage) = Some "Invalid date".
Proof.
  assert (Hdate : captured_date Examples.impossibleDateMessage
                  = Some {| JsDate.year := 2025; JsDate.month := 13; JsDate.date := 32 |})
    by (vm_compute; reflexivity).
  split; [exact Hdate|].
  split.
  - exact (proj1 (impossible_date_rejected _ _ Hdate eq_refl)).
  - vm_compute. reflexivity.
Defined.

(** The template message of the specification is read as it says. *)
Lemma template_message_parsed :
  parseBancolombiaSMS Examples.templateMessage
  = {| amount := 190000;
       senderName := "MARIA CUBAQUE";
       account := "7251";
       date := Some {| JsDate.year := 2025; JsDate.month := 9; JsDate.date := 4 |};
       time := "08:06";
       success := true;
       errorReason := None |}.
Proof. vm_compute. reflexivity. Qed.

End Grammar.

(** ** Dates and times of day *)

Section Calendar.
Import JsDate.
Local Open Scope Z_scope.

Lemma mod_4_of_100 y : y mod 4 = (y mod 100) mod 4.
Proof. symmetry. apply Z.mod_mod_divide. exists 25. reflexivity. Qed.
Lemma mod_100_of_400 y : y mod 100 = (y mod 400) mod 100.
Proof. symmetry. apply Z.mod_mod_divide. exists 4. reflexivity. Qed.

Lemma DayFromYear_succ y : DayFromYear (y + 1) = DayFromYear y + DaysInYear y.
Proof.
  unfold DayFromYear, DaysInYear, InLeapYear.
  pose proof (mod_4_of_100 y) as H4. pose proof (mod_100_of_400 y) as H100.
  assert (F4 : (y + 1 - 1969) / 4 - (y - 1969) / 4 = if y mod 4 =? 0 then 1 else 0).
  { destruct (Z.eqb_spec (y mod 4) 0); Z.div_mod_to_equations; lia. }
  assert (F100 : (y + 1 - 1901) / 100 - (y - 1901) / 100 = if y mod 100 =? 0 then 1 else 0).
  { destruct (Z.eqb_spec (y mod 100) 0); Z.div_mod_to_equations; lia. }
  assert (F400 : (y + 1 - 1601) / 400 - (y - 1601) / 400 = if y mod 400 =? 0 then 1 else 0).
  { destruct (Z.eqb_spec (y mod 400) 0); Z.div_mod_to_equations; lia. }
  destruct (Z.eqb_spec (y mod 4) 0) as [E4|E4];
    destruct (Z.eqb_spec (y mod 100) 0) as [E100|E100];
    destruct (Z.eqb_spec (y mod 400) 0) as [E400|E400]; cbn [andb orb negb];
    try (rewrite E100 in H4; cbn in H4); try (rewrite E400 in H100; cbn in H100); lia.
Qed.
Lemma DayFromYear_mono a b : a <= b -> DayFromYear a <= DayFromYear b.
Proof.
  unfold DayFromYear. intros. Z.div_mod_to_equations; lia.
Qed.

Lemma year_search_found fuel : forall y0 day y,
  y <= y0 -> y0 - y < Z.of_nat fuel ->
  DayFromYear y <= day < DayFromYear (y + 1) ->
  year_search fuel y0 day = y.
Proof.
  induction fuel as [|fuel IH]; intros y0 day y Hle Hfuel Hday; [lia|].
  cbn [year_search].
  destruct (Z.leb_spec (DayFromYear y0) day) as [Hy0|Hy0].
  - destruct (Z.eq_dec y0 y) as [->|Hne]; [reflexivity|].
    pose proof (DayFromYear_mono (y + 1) y0). lia.
  - apply IH; try lia.
    destruct (Z.eq_dec y0 y) as [->|Hne]; lia.
Qed.

Lemma YearFromDay_found day y :
  0 <= y <= 9999 -> DayFromYear y <= day < DayFromYear (y + 1) -> YearFromDay day = y.
Proof.
  intros Hy Hday. unfold YearFromDay. apply year_search_found; try lia.
  replace (Z.of_nat 10000) with 10000 by (vm_compute; reflexivity). lia.
Qed.

Lemma month_cases m : 1 <= m <= 12 ->
  m = 1 \/ m = 2 \/ m = 3 \/ m = 4 \/ m = 5 \/ m = 6 \/ m = 7 \/ m = 8 \/ m = 9 \/ m = 10 \/ m = 11 \/ m = 12.
Proof. lia. Qed.

Ltac eval_monthStart :=
  repeat match goal with
         | |- context [monthStart ?l ?k] =>
             let v := eval vm_compute in (monthStart l k) in
             change (monthStart l k) with v
         | H : context [monthStart ?l ?k] |- _ =>
             let v := eval vm_compute in (monthStart l k) in
             change (monthStart l k) with v in H
         end.

Lemma month_of_monthStart leap m d :
  1 <= m <= 12 -> 1 <= d <= monthStart leap (m + 1) - monthStart leap m ->
  monthOfDay leap (monthStart leap m + d - 1) = m /\
  0 <= monthStart leap m + d - 1 < (if leap then 366 else 365) /\ d <= 31.
Proof.
  intros Hm Hd.
  destruct (month_cases m Hm) as [->|[->|[->|[->|[->|[->|[->|[->|[->|[->|[->| ->]]]]]]]]]]];
    destruct leap; unfold monthOfDay; eval_monthStart;
    repeat match goal with
           | |- context [?a <? ?b] => destruct (Z.ltb_spec a b); try lia
           end; lia.
Qed.

Lemma civilFromDay_MakeDay c : valid_civil c = true -> civilFromDay (MakeDay c) = c.
Proof.
  destruct c as [y m d]. unfold valid_civil, DaysInMonth. cbn [year month date].
  rewrite !andb_true_iff, !Z.leb_le. intros [[[[[Hy0 Hy1] Hm0] Hm1] Hd0] Hd1].
  destruct (month_of_monthStart (InLeapYear y) m d) as (Hmonth & Hrange & _); [lia|lia|].
  assert (Hyear : YearFromDay (MakeDay {| year := y; month := m; date := d |}) = y).
  { apply YearFromDay_found; [lia|]. unfold MakeDay. cbn [year month date].
    rewrite DayFromYear_succ. unfold DaysInYear. destruct (InLeapYear y); lia. }
  unfold civilFromDay. rewrite Hyear. unfold MakeDay. cbn [year month date].
  replace (DayFromYear y + monthStart (InLeapYear y) m + d - 1 - DayFromYear y)
    with (monthStart (InLeapYear y) m + d - 1) by lia.
  rewrite Hmonth. f_equal. lia.
Qed.


Lemma digit_cases a : 0 <= a <= 9 ->
  a = 0 \/ a = 1 \/ a = 2 \/ a = 3 \/ a = 4 \/ a = 5 \/ a = 6 \/ a = 7 \/ a = 8 \/ a = 9.
Proof. lia. Qed.

Lemma digit_char_digit a : 0 <= a <= 9 -> digit (digit_char a) = Some a.
Proof.
  intros H.
  destruct (digit_cases a H) as [->|[->|[->|[->|[->|[->|[->|[->|[->| ->]]]]]]]]]; reflexivity.
Qed.

Lemma digit_char_is_digit a : 0 <= a <= 9 -> Re.is_digit (digit_char a) = true.
Proof.
  intros H.
  destruct (digit_cases a H) as [->|[->|[->|[->|[->|[->|[->|[->|[->| ->]]]]]]]]]; reflexivity.
Qed.

Lemma digit_char_differs a c :
  0 <= a <= 9 -> Re.is_digit c = false -> Ascii.eqb (digit_char a) c = false.
Proof.
  intros H Hc. destruct (Ascii.eqb_spec (digit_char a) c) as [<-|]; [|reflexivity].
  rewrite digit_char_is_digit in Hc by exact H. discriminate.
Qed.

Lemma digit_bounds c d : digit c = Some d -> 0 <= d <= 9.
Proof.
  unfold digit, Re.is_digit, Re.in_range.
  destruct (_ && _)%bool eqn:E; [|discriminate].
  apply andb_true_iff in E as [Hlo Hhi].
  apply Nat.leb_le in Hlo, Hhi.
  change (nat_of_ascii "0") with 48%nat in Hlo.
  change (nat_of_ascii "9") with 57%nat in Hhi.
  intros H. injection H as <-. lia.
Qed.

Lemma take_digits_nonneg n : forall s acc v rest,
  0 <= acc -> take_digits n s acc = Some (v, rest) -> 0 <= v.
Proof.
  induction n as [|n IH]; intros s acc v rest Hacc; cbn [take_digits].
  - intros H. injection H as <- _. exact Hacc.
  - destruct s as [|c s]; [discriminate|].
    destruct (digit c) as [d|] eqn:Hd; [|discriminate].
    apply digit_bounds in Hd. apply IH. lia.
Qed.

Lemma take_digits_pad2 n rest :
  0 <= n < 100 -> take_digits 2 (pad2 n ++ rest) 0 = Some (n, rest).
Proof.
  intros H. unfold pad2. cbn [append take_digits].
  rewrite !digit_char_digit by (Z.div_mod_to_equations; lia).
  f_equal. f_equal. Z.div_mod_to_equations; lia.
Qed.

Lemma take_digits_pad4 n rest :
  0 <= n < 10000 -> take_digits 4 (pad4 n ++ rest) 0 = Some (n, rest).
Proof.
  intros H. unfold pad4, pad3, pad2. cbn [append take_digits].
  rewrite !digit_char_digit by (Z.div_mod_to_equations; lia).
  f_equal. f_equal. Z.div_mod_to_equations; lia.
Qed.

Lemma split_head_pad2 c n rest :
  0 <= n < 100 -> Re.is_digit c = false ->
  Js.split_head c (pad2 n ++ rest) = pad2 n ++ Js.split_head c rest.
Proof.
  intros H Hc. unfold pad2. cbn [append Js.split_head].
  rewrite !digit_char_differs by (try exact Hc; Z.div_mod_to_equations; lia).
  reflexivity.
Qed.

Lemma split_head_pad4 c n rest :
  0 <= n < 10000 -> Re.is_digit c = false ->
  Js.split_head c (pad4 n ++ rest) = pad4 n ++ Js.split_head c rest.
Proof.
  intros H Hc. unfold pad4, pad3, pad2. cbn [append Js.split_head].
  rewrite !digit_char_differs by (try exact Hc; Z.div_mod_to_equations; lia).
  reflexivity.
Qed.

Lemma append_assoc' (a b c : string) : ((a ++ b) ++ c = a ++ (b ++ c))%string.
Proof. induction a as [|x a IH]; cbn; [reflexivity | rewrite IH; reflexivity]. Qed.

Lemma append_empty (a : string) : (a ++ "" = a)%string.
Proof. induction a as [|x a IH]; cbn; [reflexivity | rewrite IH; reflexivity]. Qed.


Ltac first_of H := apply (f_equal fst) in H; cbn [fst] in H; rewrite <- H.

Lemma millis_bounds s v r : millis 3 100 s = (v, r) -> 0 <= v < 1000.
Proof.
  cbn [millis].
  change (100 / 10) with 10. change (10 / 10) with 1.
  destruct s as [|c1 s]; [intros H; first_of H; lia|].
  destruct (digit c1) as [d1|] eqn:H1; [|intros H; first_of H; lia].
  apply digit_bounds in H1.
  destruct s as [|c2 s]; [intros H; first_of H; lia|].
  destruct (digit c2) as [d2|] eqn:H2; [|intros H; first_of H; lia].
  apply digit_bounds in H2.
  destruct s as [|c3 s]; [intros H; first_of H; lia|].
  destruct (digit c3) as [d3|] eqn:H3; [|intros H; first_of H; lia].
  apply digit_bounds in H3.
  intros H; first_of H; lia.
Qed.

Lemma some_eq {A : Type} (a b : A) : Some a = Some b -> a = b.
Proof. intros H. injection H as H. exact H. Qed.

Lemma fraction_bounds s v r : fraction s = Some (v, r) -> 0 <= v < 1000.
Proof.
  unfold fraction. destruct s as [|c rest]; [intros H; injection H as <- _; lia|].
  destruct (Ascii.eqb c "."); [|intros H; injection H as <- _; lia].
  destruct rest as [|c1 rest]; [discriminate|].
  destruct (digit c1); [|discriminate].
  intros H. apply some_eq in H. apply millis_bounds in H. exact H.
Qed.

Lemma parse_iso_fields s f :
  parse_iso s = Some f ->
  valid_fields f = true /\ 0 <= f_hour f /\ 0 <= f_minute f /\ 0 <= f_second f /\
  0 <= f_ms f < 1000.
Proof.
  unfold parse_iso, parse_date, parse_time, bind.
  destruct (take_digits 4 s 0) as [[y s1]|]; [|discriminate].
  destruct (expect "-" s1) as [s2|]; [|discriminate].
  destruct (take_digits 2 s2 0) as [[m s3]|]; [|discriminate].
  destruct (expect "-" s3) as [s4|]; [|discriminate].
  destruct (take_digits 2 s4 0) as [[d s5]|]; [|discriminate].
  destruct (expect "T" s5) as [s6|]; [|discriminate].
  destruct (take_digits 2 s6 0) as [[h s7]|] eqn:Hh; [|discriminate].
  destruct (expect ":" s7) as [s8|]; [|discriminate].
  destruct (take_digits 2 s8 0) as [[mi s9]|] eqn:Hmi; [|discriminate].
  destruct (expect ":" s9) as [s10|]; [|discriminate].
  destruct (take_digits 2 s10 0) as [[sec s11]|] eqn:Hsec; [|discriminate].
  destruct (fraction s11) as [[ms s12]|] eqn:Hms; [|discriminate].
  destruct (String.eqb s12 "Z" && _)%bool eqn:Hv; [|discriminate].
  intros H. injection H as <-. cbn [f_hour f_minute f_second f_ms].
  apply andb_true_iff in Hv as [_ Hv].
  apply take_digits_nonneg in Hh, Hmi, Hsec; try lia.
  apply fraction_bounds in Hms. auto.
Qed.

Lemma time_of_day h mi s ms :
  0 <= h <= 23 -> 0 <= mi <= 59 -> 0 <= s <= 59 -> 0 <= ms < 1000 ->
  let T := MakeTime h mi s ms in
  0 <= T < msPerDay /\ T / 3600000 = h /\ T / 60000 mod 60 = mi /\ T / 1000 mod 60 = s /\
  T mod 1000 = ms.
Proof.
  intros Hh Hmi Hs Hms. unfold MakeTime, msPerDay. cbv zeta.
  repeat split; try lia; Z.div_mod_to_equations; lia.
Qed.

Lemma valid_civil_bounds c :
  valid_civil c = true ->
  0 <= year c < 10000 /\ 1 <= month c <= 12 /\ 1 <= date c <= 31.
Proof.
  destruct c as [y m d]. unfold valid_civil, DaysInMonth. cbn [year month date].
  rewrite !andb_true_iff, !Z.leb_le. intros [[[[[Hy0 Hy1] Hm0] Hm1] Hd0] Hd1].
  destruct (month_of_monthStart (InLeapYear y) m d) as (_ & _ & H); lia.
Qed.


Lemma split_head_char c a rest :
  Ascii.eqb a c = false -> Js.split_head c (String a rest) = String a (Js.split_head c rest).
Proof. intros H. cbn [Js.split_head]. rewrite H. reflexivity. Qed.

Lemma split_head_stop c rest : Js.split_head c (String c rest) = "".
Proof. cbn [Js.split_head]. rewrite Ascii.eqb_refl. reflexivity. Qed.

Lemma expect_char c rest : expect c (String c rest) = Some rest.
Proof. cbn [expect]. rewrite Ascii.eqb_refl. reflexivity. Qed.

Lemma civil_eta c : {| year := year c; month := month c; date := date c |} = c.
Proof. destruct c. reflexivity. Qed.

Section Stored.
Variables (c : civil) (h mi s ms : Z).
Hypothesis Hc : valid_civil c = true.
Hypothesis Hh : (0 <= h <= 23)%Z.
Hypothesis Hmi : (0 <= mi <= 59)%Z.
Hypothesis Hs : (0 <= s <= 59)%Z.
Hypothesis Hms : (0 <= ms < 1000)%Z.

Let t : Z := MakeDate (MakeDay c) (MakeTime h mi s ms).

Lemma Day_of_fields : Day t = MakeDay c /\ TimeWithinDay t = MakeTime h mi s ms.
Proof.
  destruct (time_of_day h mi s ms Hh Hmi Hs Hms) as (HT & _).
  unfold t, Day, TimeWithinDay, MakeDate.
  split.
  - symmetry. apply (Z.div_unique _ _ _ (MakeTime h mi s ms)); [left; exact HT | ring].
  - symmetry. apply (Z.mod_unique _ _ (MakeDay c)); [left; exact HT | ring].
Qed.

Lemma toISOString_date : Js.split_head "T" (toISOString t) = fmt_date c.
Proof.
  destruct (valid_civil_bounds c Hc) as (Hy & Hm & Hd).
  unfold toISOString. rewrite (proj1 Day_of_fields), (civilFromDay_MakeDay c Hc).
  unfold fmt_date. rewrite !append_assoc'. cbn [append].
  rewrite split_head_pad4 by (try reflexivity; lia).
  rewrite split_head_char by reflexivity.
  rewrite split_head_pad2 by (try reflexivity; lia).
  rewrite split_head_char by reflexivity.
  rewrite split_head_pad2 by (try reflexivity; lia).
  rewrite split_head_stop, append_empty. reflexivity.
Qed.

Lemma toTimeString_time localTZA :
  localTZA t = 0%Z ->
  Js.split_head " " (toTimeString localTZA t) = pad2 h ++ ":" ++ pad2 mi ++ ":" ++ pad2 s.
Proof.
  intros Hutc.
  destruct (time_of_day h mi s ms Hh Hmi Hs Hms) as (_ & H1 & H2 & H3 & _).
  unfold toTimeString. rewrite Hutc, Z.add_0_r, (proj2 Day_of_fields).
  unfold fmt_time. rewrite H1, H2, H3.
  rewrite !append_assoc'. cbn [append].
  rewrite split_head_pad2 by (try reflexivity; lia).
  rewrite split_head_char by reflexivity.
  rewrite split_head_pad2 by (try reflexivity; lia).
  rewrite split_head_char by reflexivity.
  rewrite split_head_pad2 by (try reflexivity; lia).
  rewrite split_head_stop, append_empty. reflexivity.
Qed.

Lemma recombine_formatted :
  recombine (fmt_date c) (pad2 h ++ ":" ++ pad2 mi ++ ":" ++ pad2 s)
  = Some (t - t mod 1000)%Z.
Proof.
  destruct (valid_civil_bounds c Hc) as (Hy & Hm & Hd).
  unfold recombine, ofString, parse_iso, parse_date, parse_time, fmt_date.
  rewrite !append_assoc'. cbn [append].
  rewrite take_digits_pad4 by lia. cbv beta iota delta [bind].
  rewrite expect_char, take_digits_pad2 by lia. cbv beta iota.
  rewrite expect_char, take_digits_pad2 by lia. cbv beta iota.
  rewrite expect_char, take_digits_pad2 by lia. cbv beta iota.
  rewrite expect_char, take_digits_pad2 by lia. cbv beta iota.
  rewrite expect_char, take_digits_pad2 by lia. cbv beta iota.
  change (fraction "Z") with (Some (0%Z, "Z")). cbv beta iota.
  change (String.eqb "Z" "Z") with true.
  unfold valid_fields. cbn [f_civil f_hour f_minute f_second andb].
  rewrite civil_eta, Hc.
  replace (h <=? 23)%Z with true by (symmetry; apply Z.leb_le; lia).
  replace (mi <=? 59)%Z with true by (symmetry; apply Z.leb_le; lia).
  replace (s <=? 59)%Z with true by (symmetry; apply Z.leb_le; lia).
  cbn [andb option_map]. f_equal.
  unfold timeValue, t. cbn [f_civil f_hour f_minute f_second f_ms].
  unfold MakeDate, MakeTime, msPerDay.
  Z.div_mod_to_equations. lia.
Qed.

End Stored.

End Calendar.

(** ** The date and time of a stored transaction *)

Section Timestamps.
Import JsDate Db V2Validation V2DatabaseService.
Local Open Scope Z_scope.

(** C6, as the code has it. The stored date is the date part of
    [toISOString], the stored time the time part of [toTimeString].
    On a host whose time zone is UTC, the pair, read as UTC, is the
    instant of the payload's timestamp cut to the whole second. *)
Theorem stored_date_time_on_utc_host (localTZA : Z -> Z) (sourceId : uuid)
        (wd : V2WebhookRequest) (t : Z) :
  ofString (timestamp wd) = Some t ->
  localTZA t = 0 ->
  recombine (transaction_date (transactionData localTZA sourceId wd t))
            (transaction_time (transactionData localTZA sourceId wd t))
  = Some (t - t mod 1000).
Proof.
  unfold ofString. destruct (parse_iso (timestamp wd)) as [f|] eqn:Hparse; [|discriminate].
  cbn [option_map]. intros Ht Hutc. apply some_eq in Ht.
  apply parse_iso_fields in Hparse as (Hvalid & Hh & Hmi & Hs & Hms).
  unfold valid_fields in Hvalid. rewrite !andb_true_iff, !Z.leb_le in Hvalid.
  destruct Hvalid as [[[Hc Hh'] Hmi'] Hs'].
  unfold timeValue in Ht. subst t.
  unfold transactionData. cbn [transaction_date transaction_time].
  rewrite toISOString_date, toTimeString_time by (auto; lia).
  apply recombine_formatted; auto; lia.
Qed.

Lemma stored_date_time_on_utc_host_witness :
  recombine (transaction_date
               (transactionData Examples.utc 0%nat Examples.validRequest 1756973160000))
            (transaction_time
               (transactionData Examples.utc 0%nat Examples.validRequest 1756973160000))
  = Some 1756973160000.
Proof.
  assert (Ht : ofString (timestamp Examples.validRequest) = Some 1756973160000)
    by (vm_compute; reflexivity).
  exact (stored_date_time_on_utc_host Examples.utc 0%nat Examples.validRequest
           1756973160000 Ht eq_refl).
Defined.

(** The claim C6 fails. A timestamp with half a second, on a host in
    UTC, is stored as a date and a time that recombine to the start of
    that second, not to the instant of the timestamp. And on a host in
    Bogota the date is the UTC date while the time is the local one: the
    timestamp 02:06 UTC of 4 September is stored as 4 September, 21:06,
    which is the instant neither when read as UTC (19 hours later) nor
    when read as local time (24 hours later). *)
Lemma stored_date_time_counterexample :
  (ofString (timestamp (Examples.at_time "2025-09-04T08:06:00.500Z")) = Some 1756973160500 /\
   transaction_date
     (transactionData Examples.utc 0%nat (Examples.at_time "2025-09-04T08:06:00.500Z")
                      1756973160500)
   = "2025-09-04"%string /\
   transaction_time
     (transactionData Examples.utc 0%nat (Examples.at_time "2025-09-04T08:06:00.500Z")
                      1756973160500)
   = "08:06:00"%string /\
   recombine "2025-09-04" "08:06:00" = Some (1756973160500 - 500)) /\
  (ofString (timestamp (Examples.at_time "2025-09-04T02:06:00Z")) = Some 1756951560000 /\
   transaction_date
     (transactionData Examples.bogota 0%nat (Examples.at_time "2025-09-04T02:06:00Z")
                      1756951560000)
   = "2025-09-04"%string /\
   transaction_time
     (transactionData Examples.bogota 0%nat (Examples.at_time "2025-09-04T02:06:00Z")
                      1756951560000)
   = "21:06:00"%string /\
   recombine "2025-09-04" "21:06:00" = Some (1756951560000 + 19 * 3600000) /\
   option_map (fun u => u - Examples.bogota u) (recombine "2025-09-04" "21:06:00")
   = Some (1756951560000 + 24 * 3600000)).
Proof. vm_compute. repeat split. Qed.

End Timestamps.

(** ** What the patterns of the validator accept *)

Section Patterns.
Import Re.

Lemma run_star (A : Type) (r : regex) (s : string) (caps : list string)
      (k : string -> list string -> option A) :
  run (Star r) s caps k = star_loop (run r) k (String.length s) s caps.
Proof. reflexivity. Qed.

Lemma run_cls_cons (A : Type) (p : ascii -> bool) a rest caps
      (k : string -> list string -> option A) :
  run (Cls p) (String a rest) caps k = if p a then k rest caps else None.
Proof. reflexivity. Qed.

Lemma star_loop_S (A : Type) step (k : string -> list string -> option A) fuel s caps :
  star_loop step k (S fuel) s caps =
  match step s caps
          (fun s1 caps1 =>
             if (String.length s1 <? String.length s)%nat
             then star_loop step k fuel s1 caps1
             else None) with
  | Some x => Some x
  | None => k s caps
  end.
Proof. reflexivity. Qed.

Lemma star_cls_match (A : Type) (p : ascii -> bool) (k : string -> list string -> option A)
      (caps : list string) (s : string) :
  forall fuel, (String.length s <= fuel)%nat ->
  star_loop (run (Cls p)) k fuel s caps <> None <->
  exists s1 s2, s = s1 ++ s2 /\ Js.every p s1 = true /\ k s2 caps <> None.
Proof.
  induction s as [|a rest IH]; intros fuel Hf.
  - assert (E : star_loop (run (Cls p)) k fuel "" caps = k "" caps)
      by (destruct fuel; reflexivity).
    rewrite E. split.
    + intros H. exists "", "". auto.
    + intros (s1 & s2 & Hs & _ & Hk). destruct s1; [|discriminate].
      cbn in Hs. subst s2. exact Hk.
  - destruct fuel as [|fuel]; [cbn in Hf; lia|].
    rewrite star_loop_S, run_cls_cons. cbn [String.length].
    assert (Hlt : (String.length rest <? S (String.length rest))%nat = true)
      by (apply Nat.ltb_lt; lia).
    rewrite Hlt.
    specialize (IH fuel ltac:(cbn in Hf; lia)).
    destruct (p a) eqn:Hp.
    + destruct (star_loop (run (Cls p)) k fuel rest caps) eqn:Hl.
      * split; [intros _|intros _; discriminate].
        destruct (proj1 IH ltac:(discriminate)) as (s1 & s2 & Hs & He & Hk).
        exists (String a s1), s2. cbn. rewrite Hp, He, Hs. auto.
      * split.
        -- intros H. exists "", (String a rest). auto.
        -- intros (s1 & s2 & Hs & He & Hk). destruct s1 as [|b s1].
           ++ cbn in Hs. subst s2. exact Hk.
           ++ cbn in Hs. injection Hs as <- ->. cbn in He.
              apply andb_prop in He. destruct He as [_ He].
              exfalso. apply (proj2 IH); [|reflexivity]. exists s1, s2. auto.
    + split.
      * intros H. exists "", (String a rest). auto.
      * intros (s1 & s2 & Hs & He & Hk). destruct s1 as [|b s1].
        -- cbn in Hs. subst s2. exact Hk.
        -- cbn in Hs. injection Hs as <- ->. cbn in He. rewrite Hp in He. discriminate.
Qed.

Lemma every_app p s1 s2 : Js.every p (s1 ++ s2) = Js.every p s1 && Js.every p s2.
Proof. induction s1; cbn; [reflexivity|]. rewrite IHs1. apply andb_assoc. Qed.

(** [[p]+] takes a prefix that is not empty and made of characters of
    the class, and the continuation takes the rest. *)
Lemma plus_cls_match (A : Type) (p : ascii -> bool) (k : string -> list string -> option A)
      (caps : list string) (s : string) :
  run (Plus (Cls p)) s caps k <> None <->
  exists s1 s2, s = s1 ++ s2 /\ s1 <> "" /\ Js.every p s1 = true /\ k s2 caps <> None.
Proof.
  unfold Plus. change (run (Cat (Cls p) (Star (Cls p))) s caps k)
    with (run (Cls p) s caps (fun s1 c1 => run (Star (Cls p)) s1 c1 k)).
  destruct s as [|a rest]; [|rewrite run_cls_cons, run_star].
  - split; [cbn; congruence|]. intros (s1 & s2 & Hs & Hn & _). destruct s1; [congruence|discriminate].
  - destruct (p a) eqn:Hp.
    + change ((fix loop (fuel : nat) (s : string) (caps0 : list string) {struct fuel} : option A := _) (String.length rest) rest caps)
        with (star_loop (run (Cls p)) k (String.length rest) rest caps).
      rewrite star_cls_match by lia. split.
      * intros (s1 & s2 & Hs & He & Hk). exists (String a s1), s2.
        cbn. rewrite Hs, Hp, He. repeat split; auto. discriminate.
      * intros (s1 & s2 & Hs & Hn & He & Hk). destruct s1 as [|b s1]; [congruence|].
        cbn in Hs. injection Hs as <- ->. cbn in He. apply andb_prop in He.
        exists s1, s2. tauto.
    + split; [congruence|]. intros (s1 & s2 & Hs & Hn & He & _).
      destruct s1 as [|b s1]; [congruence|]. cbn in Hs. injection Hs as <- ->.
      cbn in He. rewrite Hp in He. discriminate.
Qed.

Lemma run_cat (A : Type) r1 r2 s caps (k : string -> list string -> option A) :
  run (Cat r1 r2) s caps k = run r1 s caps (fun s1 caps1 => run r2 s1 caps1 k).
Proof. reflexivity. Qed.

Lemma run_alt_match (A : Type) r1 r2 s caps (k : string -> list string -> option A) :
  run (Alt r1 r2) s caps k <> None <-> run r1 s caps k <> None \/ run r2 s caps k <> None.
Proof.
  change (run (Alt r1 r2) s caps k)
    with (match run r1 s caps k with Some x => Some x | None => run r2 s caps k end).
  destruct (run r1 s caps k); split; intros H; try (left; discriminate); try discriminate;
    try (right; exact H). destruct H as [H|H]; [congruence|exact H].
Qed.

Lemma run_eol_match (A : Type) s caps (k : string -> list string -> option A) :
  run Eol s caps k <> None <-> s = "" /\ k "" caps <> None.
Proof.
  destruct s; cbn; split; try tauto; intros H; try congruence. destruct H as [H _]. discriminate.
Qed.

Lemma run_chr_match (A : Type) c s caps (k : string -> list string -> option A) :
  run (Chr c) s caps k <> None <-> exists rest, s = String c rest /\ k rest caps <> None.
Proof.
  destruct s as [|a rest]; cbn.
  - split; [congruence|]. intros (r & H & _). discriminate.
  - destruct (Ascii.eqb a c) eqn:E.
    + apply Ascii.eqb_eq in E. subst a. split.
      * intros H. exists rest. auto.
      * intros (r & H & Hk). injection H as ->. exact Hk.
    + split; [congruence|]. intros (r & H & _). injection H as -> _.
      rewrite Ascii.eqb_refl in E. discriminate.
Qed.

Lemma times_cls_match (A : Type) (p : ascii -> bool) (k : string -> list string -> option A)
      (caps : list string) (n : nat) :
  forall s,
  run (Times n (Cls p)) s caps k <> None <->
  exists s1 s2, s = s1 ++ s2 /\ String.length s1 = n /\ Js.every p s1 = true /\ k s2 caps <> None.
Proof.
  induction n as [|n IH]; intros s.
  - cbn. split.
    + intros H. exists "", s. auto.
    + intros (s1 & s2 & Hs & Hl & _ & Hk). destruct s1; [|discriminate]. cbn in Hs. subst. exact Hk.
  - cbn [Times]. rewrite run_cat. destruct s as [|a rest].
    + cbn. split; [congruence|]. intros (s1 & s2 & Hs & Hl & _). destruct s1; discriminate.
    + rewrite run_cls_cons. destruct (p a) eqn:Hp.
      * rewrite IH. split.
        -- intros (s1 & s2 & Hs & Hl & He & Hk). exists (String a s1), s2.
           cbn. rewrite Hs, Hl, Hp, He. auto.
        -- intros (s1 & s2 & Hs & Hl & He & Hk). destruct s1 as [|b s1]; [discriminate|].
           cbn in Hs, Hl, He. injection Hs as <- ->. apply andb_prop in He.
           exists s1, s2. repeat split; try tauto. lia.
      * split; [congruence|]. intros (s1 & s2 & Hs & Hl & He & _).
        destruct s1 as [|b s1]; [discriminate|]. cbn in Hs, He. injection Hs as <- ->.
        rewrite Hp in He. discriminate.
Qed.

Lemma upto_cls_match (A : Type) (p : ascii -> bool) (k : string -> list string -> option A)
      (caps : list string) (n : nat) :
  forall s,
  run (UpTo n (Cls p)) s caps k <> None <->
  exists s1 s2, s = s1 ++ s2 /\ (String.length s1 <= n)%nat /\ Js.every p s1 = true /\ k s2 caps <> None.
Proof.
  induction n as [|n IH]; intros s.
  - cbn. split.
    + intros H. exists "", s. auto.
    + intros (s1 & s2 & Hs & Hl & _ & Hk). destruct s1; [|cbn in Hl; lia]. cbn in Hs. subst. exact Hk.
  - cbn [UpTo]. unfold Opt. rewrite run_alt_match, run_cat. split.
    + intros [H|H].
      * destruct s as [|a rest]; [cbn in H; congruence|]. rewrite run_cls_cons in H.
        destruct (p a) eqn:Hp; [|congruence]. apply IH in H.
        destruct H as (s1 & s2 & Hs & Hl & He & Hk). exists (String a s1), s2.
        cbn. rewrite Hs, Hp, He. repeat split; auto. lia.
      * cbn in H. exists "", s. cbn. repeat split; auto. lia.
    + intros (s1 & s2 & Hs & Hl & He & Hk). destruct s1 as [|b s1].
      * right. cbn in Hs. subst. exact Hk.
      * left. cbn in Hs, Hl, He. subst s. apply andb_prop in He. destruct He as [Hp He].
        rewrite run_cls_cons, Hp. apply IH. exists s1, s2. repeat split; auto. lia.
Qed.

Lemma test_anchored_match r s :
  test_anchored r s = true <-> run r s [] (fun _ _ => Some tt) <> None.
Proof.
  unfold test_anchored. destruct (run r s [] (fun _ _ => Some tt)); split; congruence.
Qed.

Lemma append_nil_r s : s ++ "" = s.
Proof. induction s; cbn; congruence. Qed.

Lemma string_length_app s1 s2 : String.length (s1 ++ s2) = (String.length s1 + String.length s2)%nat.
Proof. induction s1; cbn; congruence. Qed.

Lemma string_split_at (n : nat) : forall s, (n <= String.length s)%nat ->
  exists s1 s2, s = s1 ++ s2 /\ String.length s1 = n.
Proof.
  induction n as [|n IH]; intros s H.
  - exists "", s. auto.
  - destruct s as [|a rest]; [cbn in H; lia|]. destruct (IH rest) as (s1 & s2 & -> & Hl).
    + cbn in H. lia.
    + exists (String a s1), s2. cbn. auto.
Qed.

Lemma plus_cls_eol_run (p : ascii -> bool) (s : string) caps :
  run (Cat (Plus (Cls p)) Eol) s caps (fun _ _ => Some tt) <> None <->
  s <> "" /\ Js.every p s = true.
Proof.
  rewrite run_cat, plus_cls_match. split.
  - intros (s1 & s2 & Hs & Hn & He & Hk). apply run_eol_match in Hk. destruct Hk as [-> _].
    rewrite append_nil_r in Hs. subst. auto.
  - intros [Hn He]. exists s, "". rewrite append_nil_r. repeat split; auto.
    apply run_eol_match. split; [reflexivity|discriminate].
Qed.


Lemma phone_shape (s : string) :
  V2Validation.isValidPhone s = true ->
  exists ds, s = String "+" ds /\ Js.every is_digit ds = true /\
             (10 <= String.length ds <= 15)%nat.
Proof.
  unfold V2Validation.isValidPhone, V2Validation.phone_re, Between.
  rewrite test_anchored_match, run_cat, run_chr_match.
  intros (rest & -> & H). rewrite !run_cat in H. apply times_cls_match in H.
  destruct H as (s1 & s2 & Hs & Hl & He & H). apply upto_cls_match in H.
  destruct H as (s3 & s4 & Hs' & Hl' & He' & H). apply run_eol_match in H.
  destruct H as [-> _]. rewrite append_nil_r in Hs'. subst.
  exists (s1 ++ s3). rewrite every_app, He, He'. repeat split; auto.
  - rewrite string_length_app. lia.
  - rewrite string_length_app. cbn in Hl'. lia.
Qed.

Lemma email_shape (s : string) :
  V2Validation.isValidEmail s = true ->
  exists a b c, s = a ++ "@" ++ b ++ "." ++ c /\
    a <> "" /\ b <> "" /\ c <> "" /\
    Js.every V2Validation.not_space_at a = true /\
    Js.every V2Validation.not_space_at b = true /\
    Js.every V2Validation.not_space_at c = true.
Proof.
  unfold V2Validation.isValidEmail, V2Validation.email_re.
  rewrite test_anchored_match, run_cat, plus_cls_match.
  intros (a & r1 & -> & Ha & Ea & H). rewrite run_cat in H. apply run_chr_match in H.
  destruct H as (r2 & -> & H). rewrite run_cat in H. apply plus_cls_match in H.
  destruct H as (b & r3 & -> & Hb & Eb & H). rewrite run_cat in H. apply run_chr_match in H.
  destruct H as (r4 & -> & H). apply plus_cls_eol_run in H. destruct H as [Hc Ec].
  exists a, b, r4. repeat split; auto.
Qed.

Lemma email_of_shape (a b c : string) :
  a <> "" -> b <> "" -> c <> "" ->
  Js.every V2Validation.not_space_at a = true ->
  Js.every V2Validation.not_space_at b = true ->
  Js.every V2Validation.not_space_at c = true ->
  V2Validation.isValidEmail (a ++ "@" ++ b ++ "." ++ c) = true.
Proof.
  intros Ha Hb Hc Ea Eb Ec.
  unfold V2Validation.isValidEmail, V2Validation.email_re.
  rewrite test_anchored_match, run_cat, plus_cls_match.
  exists a, ("@" ++ b ++ "." ++ c). repeat split; auto.
  rewrite run_cat. apply run_chr_match. exists (b ++ "." ++ c). split; [reflexivity|].
  rewrite run_cat. apply plus_cls_match. exists b, ("." ++ c). repeat split; auto.
  rewrite run_cat. apply run_chr_match. exists c. split; [reflexivity|].
  apply plus_cls_eol_run. auto.
Qed.

(** X1. [isValidPhone] accepts exactly a plus sign followed by ten to
    fifteen decimal digits. *)
Theorem isValidPhone_iff (s : string) :
  V2Validation.isValidPhone s = true <->
  exists ds, s = String "+" ds /\ Js.every is_digit ds = true /\
             (10 <= String.length ds <= 15)%nat.
Proof.
  split; [apply phone_shape|].
  unfold V2Validation.isValidPhone, V2Validation.phone_re, Between.
  rewrite test_anchored_match, run_cat, run_chr_match.
  intros (ds & -> & He & Hl). exists ds. split; [reflexivity|].
  rewrite !run_cat. apply times_cls_match.
  destruct (string_split_at 10 ds) as (s1 & s2 & -> & Hl1); [lia|].
  rewrite every_app in He. apply andb_prop in He. destruct He as [He1 He2].
  rewrite string_length_app in Hl.
  exists s1, s2. repeat split; auto. apply upto_cls_match.
  exists s2, "". rewrite append_nil_r. repeat split; auto.
  - cbn. lia.
  - apply run_eol_match. split; [reflexivity|discriminate].
Qed.

(** X2. [isValidEmail] accepts exactly the strings [a@b.c] whose three
    parts are not empty and hold neither white space nor an at sign;
    the parts after the at sign may hold further dots. *)
Theorem isValidEmail_iff (s : string) :
  V2Validation.isValidEmail s = true <->
  exists a b c, s = a ++ "@" ++ b ++ "." ++ c /\
    a <> "" /\ b <> "" /\ c <> "" /\
    Js.every V2Validation.not_space_at a = true /\
    Js.every V2Validation.not_space_at b = true /\
    Js.every V2Validation.not_space_at c = true.
Proof.
  split; [apply email_shape|].
  intros (a & b & c & -> & Ha & Hb & Hc & Ea & Eb & Ec).
  apply email_of_shape; assumption.
Qed.

End Patterns.


(** ** What a validated payload holds *)

Section ValidatedPayloads.
Import Re V2Validation.

Lemma run_checks_nil {A : Type} (checks : list (Zod.Check A)) (p : list string) (a : A) :
  Zod.run_checks checks p a = [] <-> forallb (fun c => Zod.holds c a) checks = true.
Proof.
  unfold Zod.run_checks. induction checks as [|c rest IH]; cbn; [tauto|].
  destruct (Zod.holds c a); cbn; [exact IH|]. split; discriminate.
Qed.

Lemma string_parsed (checks : list (Zod.Check string)) (p : list string) (v : Js.value)
      (s : string) :
  Zod.string_ checks p v = Zod.Parsed s [] <->
  v = Js.Str s /\ forallb (fun c => Zod.holds c s) checks = true.
Proof.
  unfold Zod.string_. destruct v; try (split; [discriminate|intros [H _]; discriminate]).
  split.
  - intros H. injection H as -> H. apply run_checks_nil in H. auto.
  - intros [H Hc]. injection H as ->. apply (proj2 (run_checks_nil checks p s)) in Hc.
    rewrite Hc. reflexivity.
Qed.

Lemma sourceValue_parsed (p : list string) (v : Js.value) (s : string) :
  sourceValueSchema p v = Zod.Parsed s [] <->
  v = Js.Str s /\ (1 <= String.length s <= 255)%nat /\
  (if Js.includes "@" s then isValidEmail s
   else if Js.startsWith "+" s then isValidPhone s else true) = true.
Proof.
  unfold sourceValueSchema, Zod.refine.
  destruct (Zod.string_ _ p v) as [a issues|issues] eqn:E.
  - split.
    + intros H. injection H as -> H. apply app_eq_nil in H as [-> H].
      apply string_parsed in E as [-> Hc].
      cbn [forallb Zod.holds Zod.min Zod.max] in Hc.
      rewrite !andb_true_iff, !Nat.leb_le in Hc. destruct Hc as (H1 & H2 & _).
      split; [reflexivity|]. split; [lia|].
      unfold isValidEmail, isValidPhone.
      destruct (Js.includes "@" s); [destruct (test_anchored email_re s); [reflexivity|discriminate]|].
      destruct (Js.startsWith "+" s); [destruct (test_anchored phone_re s); [reflexivity|discriminate]|].
      reflexivity.
    + intros (-> & Hl & Ht).
      assert (E' : Zod.string_ [Zod.min 1 "Source value cannot be empty";
                                Zod.max 255 "Source value too long"] p (Js.Str s)
                   = Zod.Parsed s []).
      { apply string_parsed. split; [reflexivity|].
        cbn [forallb Zod.holds Zod.min Zod.max].
        rewrite !andb_true_iff, !Nat.leb_le. lia. }
      rewrite E' in E. injection E as <- <-.
      unfold isValidEmail, isValidPhone in Ht.
      destruct (Js.includes "@" s); [rewrite Ht; reflexivity|].
      destruct (Js.startsWith "+" s); [rewrite Ht; reflexivity|].
      replace (0 <? String.length s)%nat with true; [reflexivity|].
      symmetry. apply Nat.ltb_lt. lia.
  - split; [discriminate|]. intros (-> & _). discriminate.
Qed.

Lemma enum_parsed (options : list string) (p : list string) (v : Js.value) (s : string) :
  Zod.enum options p v = Zod.Parsed s [] -> v = Js.Str s /\ In s options.
Proof.
  unfold Zod.enum. destruct v; try discriminate.
  destruct (existsb (String.eqb s0) options) eqn:E; [|discriminate].
  intros H. injection H as ->. split; [reflexivity|].
  apply existsb_exists in E as (x & Hin & Hx). apply String.eqb_eq in Hx. subst. exact Hin.
Qed.


Lemma request_fields (v : Js.value) (wd : V2WebhookRequest) :
  parseV2WebhookPayload v = Zod.Success wd ->
  exists o, v = Js.Obj o /\ v2WebhookRequestSchema [] (Js.Obj o) = Zod.Parsed wd [].
Proof.
  unfold parseV2WebhookPayload. intros H. apply safeParse_success in H.
  destruct v as [| |b|n|s|l|o]; try discriminate. exists o. auto.
Qed.



(** X4. The validator and the router read an address the same way: in
    a payload that passes the validator, a [sourceTo] that the handler
    takes for an e-mail address has the shape of one, and a [sourceTo]
    that it takes for a phone number is a plus sign and 10 to 15
    digits. *)
Theorem validated_address_matches_inferred_type (v : Js.value) (wd : V2WebhookRequest) :
  parseV2WebhookPayload v = Zod.Success wd ->
  (1 <= String.length (sourceTo wd) <= 255)%nat /\
  match Repositories.inferSourceType (sourceTo wd) with
  | Db.email => isValidEmail (sourceTo wd) = true
  | Db.phone => isValidPhone (sourceTo wd) = true
  | Db.webhook => True
  end.
Proof.
  intros H. apply request_fields in H as (o & -> & H).
  apply request_parsed in H
    as (a1 & a2 & a3 & a4 & a5 & a6 & a7 & a8 & a9 & a10 &
        H1 & H2 & H3 & H4 & H5 & H6 & H7 & H8 & H9 & H10 & ->).
  unfold Zod.key in H4. apply sourceValue_parsed in H4 as (_ & Hl & Ht).
  cbn [sourceTo]. split; [exact Hl|]. unfold Repositories.inferSourceType.
  destruct (Js.includes "@" a4); [exact Ht|].
  destruct (Js.startsWith "+" a4); [exact Ht|exact I].
Qed.

Lemma validated_address_matches_inferred_type_witness :
  parseV2WebhookPayload (Js.Obj Examples.validPayload) = Zod.Success Examples.validRequest /\
  Repositories.inferSourceType (sourceTo Examples.validRequest) = Db.email /\
  isValidEmail (sourceTo Examples.validRequest) = true.
Proof.
  assert (H : parseV2WebhookPayload (Js.Obj Examples.validPayload)
              = Zod.Success Examples.validRequest) by (vm_compute; reflexivity).
  split; [exact H|]. split; [reflexivity|].
  exact (proj2 (validated_address_matches_inferred_type _ _ H)).
Defined.

Lemma ap_reports {A B : Type} (f : Zod.ParseReturn (A -> B)) (x : Zod.ParseReturn A) :
  f <> Zod.Aborted [] -> x <> Zod.Aborted [] -> Zod.ap f x <> Zod.Aborted [].
Proof.
  destruct f as [g i|i], x as [a j|j]; cbn; try discriminate; intros Hf Hx H;
    injection H as H; apply app_eq_nil in H as [-> ->]; congruence.
Qed.

Lemma string_reports checks p v : Zod.string_ checks p v <> Zod.Aborted [].
Proof. destruct v; discriminate. Qed.

Lemma number_reports checks p v : Zod.number_ checks p v <> Zod.Aborted [].
Proof. destruct v as [| |b|[| | |q]|s|l|o]; discriminate. Qed.

Lemma enum_reports options p v : Zod.enum options p v <> Zod.Aborted [].
Proof.
  unfold Zod.enum. destruct v; try discriminate.
  destruct (existsb (String.eqb s) options); discriminate.
Qed.

Lemma refine_reports {A : Type} (inner : Zod.Schema A) test msg p v :
  inner p v <> Zod.Aborted [] -> Zod.refine inner test msg p v <> Zod.Aborted [].
Proof. unfold Zod.refine. destruct (inner p v) as [a i|i]; [discriminate|auto]. Qed.

Lemma optional_reports {A : Type} (inner : Zod.Schema A) p v :
  inner p v <> Zod.Aborted [] -> Zod.optional inner p v <> Zod.Aborted [].
Proof.
  unfold Zod.optional. destruct v; try discriminate;
    destruct (inner p _) as [a i|i]; try discriminate; congruence.
Qed.

Lemma metadata_reports p v : v2WebhookMetadataSchema p v <> Zod.Aborted [].
Proof.
  unfold v2WebhookMetadataSchema. destruct v; try discriminate.
  repeat apply ap_reports; try discriminate; unfold Zod.key;
    apply optional_reports, string_reports.
Qed.

Lemma request_reports p v : v2WebhookRequestSchema p v <> Zod.Aborted [].
Proof.
  unfold v2WebhookRequestSchema. destruct v; try discriminate.
  repeat apply ap_reports; try discriminate; unfold Zod.key.
  - apply string_reports.
  - apply string_reports.
  - apply refine_reports, string_reports.
  - apply refine_reports, string_reports.
  - apply enum_reports.
  - apply string_reports.
  - apply refine_reports, number_reports.
  - apply optional_reports. unfold Zod.default.
    destruct (Js.get _ _); apply string_reports.
  - apply string_reports.
  - apply optional_reports, metadata_reports.
Qed.

(** X5. The validator never fails without a reason: a payload it
    rejects comes with at least one issue, so the list that
    [formatValidationErrors] hands to the answer is not empty. *)
Theorem validation_failure_reports_an_issue (v : Js.value) (issues : list Zod.ZodIssue) :
  parseV2WebhookPayload v = Zod.Failure issues ->
  issues <> [] /\ formatValidationErrors issues <> [].
Proof.
  unfold parseV2WebhookPayload, Zod.safeParse, formatValidationErrors.
  pose proof (request_reports [] v) as R.
  destruct (v2WebhookRequestSchema [] v) as [a [|i l]|[|i l]]; try discriminate.
  - intros H. injection H as <-. split; discriminate.
  - congruence.
  - intros H. injection H as <-. split; discriminate.
Qed.

Lemma validation_failure_reports_an_issue_witness :
  exists issues, parseV2WebhookPayload (Js.Obj []) = Zod.Failure issues /\ issues <> [].
Proof.
  eexists. split; [vm_compute; reflexivity|].
  refine (proj1 (validation_failure_reports_an_issue (Js.Obj []) _ _)).
  vm_compute. reflexivity.
Defined.
End ValidatedPayloads.


(** ** Normalisation of source values *)

Section Normalisation.
Import Re V2Validation.

Ltac each_char c := destruct c as [[] [] [] [] [] [] [] []]; vm_compute; reflexivity.

Lemma lower_char_idem c : Js.lower_char (Js.lower_char c) = Js.lower_char c.
Proof. each_char c. Qed.

Lemma is_white_lower c : Js.is_white (Js.lower_char c) = Js.is_white c.
Proof. each_char c. Qed.

Lemma not_space_at_lower c : not_space_at (Js.lower_char c) = not_space_at c.
Proof. each_char c. Qed.

Lemma digit_not_white c : is_digit c = true -> Js.is_white c = false.
Proof. destruct c as [[] [] [] [] [] [] [] []]; vm_compute; congruence. Qed.

Lemma not_space_at_not_white c : not_space_at c = true -> Js.is_white c = false.
Proof. destruct c as [[] [] [] [] [] [] [] []]; vm_compute; congruence. Qed.

Lemma toLowerCase_idem s : Js.toLowerCase (Js.toLowerCase s) = Js.toLowerCase s.
Proof. induction s; cbn; [reflexivity|]. rewrite lower_char_idem, IHs. reflexivity. Qed.

Lemma toLowerCase_trimStart s : Js.toLowerCase (Js.trimStart s) = Js.trimStart (Js.toLowerCase s).
Proof.
  induction s as [|c rest IH]; [reflexivity|].
  cbn [Js.trimStart Js.toLowerCase]. rewrite is_white_lower.
  destruct (Js.is_white c); [exact IH|reflexivity].
Qed.

Lemma toLowerCase_trimEnd s : Js.toLowerCase (Js.trimEnd s) = Js.trimEnd (Js.toLowerCase s).
Proof.
  induction s as [|c rest IH]; [reflexivity|].
  cbn [Js.trimEnd Js.toLowerCase]. rewrite <- IH, is_white_lower.
  destruct (Js.trimEnd rest); cbn [Js.toLowerCase]; [|reflexivity].
  destruct (Js.is_white c); reflexivity.
Qed.

Lemma trimEnd_idem s : Js.trimEnd (Js.trimEnd s) = Js.trimEnd s.
Proof.
  induction s as [|c rest IH]; [reflexivity|].
  cbn [Js.trimEnd]. destruct (Js.trimEnd rest) as [|b r] eqn:E.
  - destruct (Js.is_white c) eqn:W; [reflexivity|]. cbn. rewrite W. reflexivity.
  - cbn [Js.trimEnd] in *. rewrite IH. reflexivity.
Qed.

Lemma trimStart_idem s : Js.trimStart (Js.trimStart s) = Js.trimStart s.
Proof.
  induction s as [|c rest IH]; [reflexivity|]. cbn [Js.trimStart].
  destruct (Js.is_white c) eqn:W; [exact IH|]. cbn. rewrite W. reflexivity.
Qed.

Lemma trimStart_trimEnd s : Js.trimStart s = s -> Js.trimStart (Js.trimEnd s) = Js.trimEnd s.
Proof.
  destruct s as [|c rest]; [reflexivity|]. cbn [Js.trimStart Js.trimEnd].
  destruct (Js.is_white c) eqn:W.
  - intros H. exfalso. assert (L : forall x, (String.length (Js.trimStart x) <= String.length x)%nat).
    { induction x as [|a x IHx]; cbn; [lia|]. destruct (Js.is_white a); cbn; lia. }
    specialize (L rest). rewrite H in L. cbn in L. lia.
  - intros _. destruct (Js.trimEnd rest); cbn; rewrite W; reflexivity.
Qed.

Lemma trim_idem s : Js.trim (Js.trim s) = Js.trim s.
Proof.
  unfold Js.trim.
  rewrite trimStart_trimEnd by apply trimStart_idem.
  apply trimEnd_idem.
Qed.

Lemma toLowerCase_trim s : Js.toLowerCase (Js.trim s) = Js.trim (Js.toLowerCase s).
Proof. unfold Js.trim. rewrite toLowerCase_trimEnd, toLowerCase_trimStart. reflexivity. Qed.


Lemma removeWhitespace_clean s : Js.every (fun c => negb (Js.is_white c)) (Js.removeWhitespace s) = true.
Proof.
  induction s as [|c rest IH]; [reflexivity|]. cbn [Js.removeWhitespace].
  destruct (Js.is_white c) eqn:W; [exact IH|]. cbn. rewrite W, IH. reflexivity.
Qed.

Lemma removeWhitespace_of_clean s :
  Js.every (fun c => negb (Js.is_white c)) s = true -> Js.removeWhitespace s = s.
Proof.
  induction s as [|c rest IH]; [reflexivity|]. cbn.
  destruct (Js.is_white c); cbn; [discriminate|]. intros H. rewrite IH by exact H. reflexivity.
Qed.

Lemma trim_of_clean s : Js.every (fun c => negb (Js.is_white c)) s = true -> Js.trim s = s.
Proof.
  intros H. unfold Js.trim.
  replace (Js.trimStart s) with s.
  - induction s as [|c rest IH]; [reflexivity|]. cbn in H. apply andb_prop in H as [Hc H].
    cbn [Js.trimEnd]. rewrite IH by exact H.
    destruct (Js.is_white c); [discriminate|]. destruct rest; reflexivity.
  - destruct s; [reflexivity|]. cbn in *. apply andb_prop in H as [Hc _].
    destruct (Js.is_white a); [discriminate|reflexivity].
Qed.

(** X6. [normalizeSourceValue] is idempotent for each of the three
    source types: normalising a normalised value changes nothing. *)
Theorem normalizeSourceValue_idempotent (value : string) (type : SourceKind) :
  normalizeSourceValue (normalizeSourceValue value type) type = normalizeSourceValue value type.
Proof.
  destruct type; unfold normalizeSourceValue.
  - rewrite toLowerCase_trim, toLowerCase_idem. apply trim_idem.
  - cbv zeta.
    assert (C : forall r, Js.every (fun c => negb (Js.is_white c)) r = true -> Js.startsWith "+" r = true ->
                          (if Js.startsWith "+" (Js.removeWhitespace r)
                           then Js.removeWhitespace r else "+" ++ Js.removeWhitespace r) = r).
    { intros r Hc Hp. rewrite removeWhitespace_of_clean by exact Hc. rewrite Hp. reflexivity. }
    destruct (Js.startsWith "+" (Js.removeWhitespace value)) eqn:P.
    + apply C; [apply removeWhitespace_clean|exact P].
    + apply C; [cbn; apply removeWhitespace_clean|].
      apply prefix_char. eexists. reflexivity.
  - apply trim_idem.
Qed.

(** X7. Whatever the input, the normalised form of a phone number
    starts with a plus sign and holds no white space. *)
Theorem normalizeSourceValue_phone_shape (value : string) :
  exists rest, normalizeSourceValue value kind_phone = String "+" rest /\
               Js.every (fun c => negb (Js.is_white c)) rest = true.
Proof.
  unfold normalizeSourceValue. cbv zeta.
  pose proof (removeWhitespace_clean value) as C.
  destruct (Js.startsWith "+" (Js.removeWhitespace value)) eqn:P.
  - apply prefix_char in P as [r P]. rewrite P in *. exists r. split; [reflexivity|].
    cbn in C. exact C.
  - exists (Js.removeWhitespace value). split; [reflexivity|exact C].
Qed.

Lemma toLowerCase_app s1 s2 : Js.toLowerCase (s1 ++ s2) = Js.toLowerCase s1 ++ Js.toLowerCase s2.
Proof. induction s1; cbn; congruence. Qed.

Lemma every_lower s :
  Js.every not_space_at (Js.toLowerCase s) = Js.every not_space_at s.
Proof. induction s; cbn; [reflexivity|]. rewrite not_space_at_lower, IHs. reflexivity. Qed.

Lemma every_weaken (p q : ascii -> bool) s :
  (forall c, p c = true -> q c = true) -> Js.every p s = true -> Js.every q s = true.
Proof.
  intros Hpq. induction s; cbn; [reflexivity|]. intros H. apply andb_prop in H as [Ha H].
  rewrite (Hpq _ Ha), IHs by exact H. reflexivity.
Qed.

Lemma toLowerCase_empty s : s <> "" -> Js.toLowerCase s <> "".
Proof. destruct s; [congruence|discriminate]. Qed.

(** X8. Normalisation keeps what the validator accepts: a valid phone
    number is left as it is, and a valid e-mail address is only put in
    lower case and is still a valid e-mail address. *)
Theorem normalizeSourceValue_keeps_valid (value : string) :
  (isValidPhone value = true -> normalizeSourceValue value kind_phone = value) /\
  (isValidEmail value = true ->
   normalizeSourceValue value kind_email = Js.toLowerCase value /\
   isValidEmail (normalizeSourceValue value kind_email) = true).
Proof.
  split.
  - intros H. apply phone_shape in H as (ds & -> & He & _).
    unfold normalizeSourceValue. cbv zeta.
    rewrite removeWhitespace_of_clean.
    + replace (Js.startsWith "+" (String "+" ds)) with true; [reflexivity|].
      symmetry. apply prefix_char. eexists. reflexivity.
    + cbn. apply (every_weaken is_digit); [|exact He].
      intros c Hc. rewrite (digit_not_white c Hc). reflexivity.
  - intros H. apply email_shape in H as (a & b & c & -> & Ha & Hb & Hc & Ea & Eb & Ec).
    unfold normalizeSourceValue.
    assert (V : isValidEmail (Js.toLowerCase (a ++ "@" ++ b ++ "." ++ c)) = true).
    { rewrite !toLowerCase_app.
      change (Js.toLowerCase "@") with "@". change (Js.toLowerCase ".") with ".".
      apply email_of_shape; auto using toLowerCase_empty; rewrite every_lower; assumption. }
    assert (T : Js.trim (Js.toLowerCase (a ++ "@" ++ b ++ "." ++ c))
                = Js.toLowerCase (a ++ "@" ++ b ++ "." ++ c)).
    { apply trim_of_clean. rewrite !toLowerCase_app, !every_app.
      assert (W : forall x, Js.every not_space_at x = true ->
                            Js.every (fun c => negb (Js.is_white c)) (Js.toLowerCase x) = true).
      { intros x Hx. apply (every_weaken not_space_at).
        - intros ch Hch. rewrite (not_space_at_not_white ch Hch). reflexivity.
        - rewrite every_lower. exact Hx. }
      rewrite (W a Ea), (W b Eb), (W c Ec). reflexivity. }
    rewrite T. split; [reflexivity|exact V].
Qed.

Lemma normalizeSourceValue_keeps_valid_witness :
  normalizeSourceValue "+573001234567" kind_phone = "+573001234567" /\
  isValidEmail (normalizeSourceValue "User@Example.COM" kind_email) = true.
Proof.
  split.
  - apply (proj1 (normalizeSourceValue_keeps_valid "+573001234567")). vm_compute. reflexivity.
  - apply (proj2 (normalizeSourceValue_keeps_valid "User@Example.COM")). vm_compute. reflexivity.
Defined.
End Normalisation.


(** ** The stored date, on every host *)

Section StoredDate.
Import JsDate Db V2Validation V2DatabaseService.
Local Open Scope Z_scope.

Lemma digit_inv ch d : digit ch = Some d -> ch = digit_char d.
Proof.
  destruct ch as [[] [] [] [] [] [] [] []]; vm_compute; intros H; try discriminate;
    injection H as <-; reflexivity.
Qed.

Lemma take_digits_2_inv s n r :
  take_digits 2 s 0 = Some (n, r) -> s = pad2 n ++ r /\ 0 <= n < 100.
Proof.
  destruct s as [|c1 [|c2 r']]; cbn [take_digits]; try discriminate.
  - destruct (digit c1); discriminate.
  - destruct (digit c1) as [d1|] eqn:E1; [|discriminate].
    destruct (digit c2) as [d2|] eqn:E2; [|discriminate].
    intros H. assert (Hn : n = 10 * (10 * 0 + d1) + d2) by congruence.
    assert (Hr : r = r') by congruence. clear H.
    pose proof (digit_bounds _ _ E1). pose proof (digit_bounds _ _ E2).
    apply digit_inv in E1, E2. subst c1 c2 r.
    assert (n / 10 = d1) by (subst n; Z.div_mod_to_equations; lia).
    assert (n mod 10 = d2) by (subst n; Z.div_mod_to_equations; lia).
    unfold pad2. rewrite H1, H2. split; [reflexivity|lia].
Qed.

Lemma take_digits_4_inv s n r :
  take_digits 4 s 0 = Some (n, r) -> s = pad4 n ++ r /\ 0 <= n < 10000.
Proof.
  destruct s as [|c1 [|c2 [|c3 [|c4 r']]]]; cbn [take_digits]; try discriminate;
    try (destruct (digit c1); try discriminate; destruct (digit c2); try discriminate;
         destruct (digit c3); discriminate).
  - destruct (digit c1) as [d1|] eqn:E1; [|discriminate].
    destruct (digit c2) as [d2|] eqn:E2; [|discriminate].
    destruct (digit c3) as [d3|] eqn:E3; [|discriminate].
    destruct (digit c4) as [d4|] eqn:E4; [|discriminate].
    intros H. assert (Hn : n = 10 * (10 * (10 * (10 * 0 + d1) + d2) + d3) + d4) by congruence.
    assert (Hr : r = r') by congruence. clear H.
    pose proof (digit_bounds _ _ E1). pose proof (digit_bounds _ _ E2).
    pose proof (digit_bounds _ _ E3). pose proof (digit_bounds _ _ E4).
    apply digit_inv in E1, E2, E3, E4. subst c1 c2 c3 c4 r.
    assert (n / 1000 = d1) by (subst n; Z.div_mod_to_equations; lia).
    assert (n mod 1000 / 100 = d2) by (subst n; Z.div_mod_to_equations; lia).
    assert (n mod 1000 mod 100 / 10 = d3) by (subst n; Z.div_mod_to_equations; lia).
    assert (n mod 1000 mod 100 mod 10 = d4) by (subst n; Z.div_mod_to_equations; lia).
    unfold pad4, pad3, pad2. rewrite H3, H4, H5, H6. split; [reflexivity|lia].
Qed.

Lemma expect_inv c s r : expect c s = Some r -> s = String c r.
Proof.
  destruct s as [|a rest]; cbn [expect]; [discriminate|].
  destruct (Ascii.eqb_spec a c) as [->|]; [|discriminate]. congruence.
Qed.

Lemma parse_date_inv s c rest :
  parse_date s = Some (c, rest) ->
  s = fmt_date c ++ rest /\ 0 <= year c < 10000 /\ 0 <= month c < 100 /\ 0 <= date c < 100.
Proof.
  unfold parse_date, JsDate.bind.
  destruct (take_digits 4 s 0) as [[y r1]|] eqn:E1; [|discriminate].
  destruct (expect "-" r1) as [r2|] eqn:E2; [|discriminate].
  destruct (take_digits 2 r2 0) as [[m r3]|] eqn:E3; [|discriminate].
  destruct (expect "-" r3) as [r4|] eqn:E4; [|discriminate].
  destruct (take_digits 2 r4 0) as [[d r5]|] eqn:E5; [|discriminate].
  intros H. assert (Hc : c = {| year := y; month := m; date := d |}) by congruence.
  assert (Hr : rest = r5) by congruence. clear H. subst c rest.
  apply take_digits_4_inv in E1 as [-> Hy]. apply expect_inv in E2 as ->.
  apply take_digits_2_inv in E3 as [-> Hm]. apply expect_inv in E4 as ->.
  apply take_digits_2_inv in E5 as [-> Hd].
  unfold fmt_date. cbn [year month date].
  split; [|lia]. rewrite !append_assoc'. reflexivity.
Qed.

Lemma date_part (s : string) (f : fields) :
  parse_iso s = Some f -> Js.split_head "T" s = fmt_date (f_civil f).
Proof.
  unfold parse_iso, JsDate.bind.
  destruct (parse_date s) as [[c r1]|] eqn:E1; [|discriminate].
  destruct (expect "T" r1) as [r2|] eqn:E2; [|discriminate].
  destruct (parse_time r2) as [[[[h mi] sec] r3]|]; [|discriminate].
  destruct (fraction r3) as [[ms r4]|]; [|discriminate].
  destruct (_ && _); [|discriminate].
  intros H. assert (Hf : f_civil f = c) by (injection H as <-; reflexivity). rewrite Hf.
  apply parse_date_inv in E1 as (-> & Hy & Hm & Hd). apply expect_inv in E2 as ->.
  unfold fmt_date. rewrite !append_assoc'.
  rewrite split_head_pad4 by (auto; reflexivity).
  cbn [append]. rewrite split_head_char by reflexivity.
  rewrite split_head_pad2 by (auto; reflexivity).
  cbn [append]. rewrite split_head_char by reflexivity.
  rewrite split_head_pad2 by (auto; reflexivity).
  cbn [append]. rewrite split_head_stop. reflexivity.
Qed.

(** X9. The stored date of a transaction is the date written in the
    timestamp of the payload, the text before its [T], whatever the
    time zone of the host: the date is cut from [toISOString], which
    is in UTC like the timestamps the validator lets through. *)
Theorem stored_date_is_timestamp_date (localTZA : Z -> Z) (sourceId : uuid)
        (wd : V2WebhookRequest) (t : Z) :
  ofString (timestamp wd) = Some t ->
  transaction_date (transactionData localTZA sourceId wd t)
  = Js.split_head "T" (timestamp wd).
Proof.
  unfold ofString. destruct (parse_iso (timestamp wd)) as [f|] eqn:Hparse; [|discriminate].
  cbn [option_map]. intros Ht. apply some_eq in Ht.
  rewrite (date_part _ _ Hparse).
  apply parse_iso_fields in Hparse as (Hvalid & Hh & Hmi & Hs & Hms).
  unfold valid_fields in Hvalid. rewrite !andb_true_iff, !Z.leb_le in Hvalid.
  destruct Hvalid as [[[Hc Hh'] Hmi'] Hs'].
  unfold timeValue in Ht. subst t.
  unfold transactionData. cbn [transaction_date].
  apply toISOString_date; auto; lia.
Qed.

Lemma stored_date_is_timestamp_date_witness :
  transaction_date (transactionData Examples.bogota 0%nat Examples.validRequest 1756973160000)
  = "2025-09-04".
Proof.
  apply (stored_date_is_timestamp_date Examples.bogota 0%nat Examples.validRequest).
  vm_compute. reflexivity.
Defined.
End StoredDate.


(** ** Sources and the users associated with them *)

Section Subscriptions.
Import Db V2Validation V2DatabaseService.


Lemma addUserSource_quiet u s st :
  addUserSource u s {| store := st; script := [] |} =
  if existsb (pair_is u s) (user_sources st)
  then (fail "User is already associated with this source", {| store := st; script := [] |})
  else (ok {| us_id := next_id st; user_id := u; us_source_id := s; is_active := true |},
        {| store := snd (insert_user_source u s st); script := [] |}).
Proof.
  unfold addUserSource, bind, ret. rewrite call_quiet. unfold insert_user_source.
  destruct (existsb (pair_is u s) (user_sources st)); reflexivity.
Qed.

Lemma removeUserSource_quiet u s st :
  removeUserSource u s {| store := st; script := [] |} = (None, {| store := snd (deactivate_user_source u s st); script := [] |}).
Proof. unfold removeUserSource, bind, ret. rewrite call_quiet. reflexivity. Qed.

Lemma pair_is_refl u s b i : pair_is u s {| us_id := i; user_id := u; us_source_id := s; is_active := b |} = true.
Proof. unfold pair_is. cbn. rewrite !Nat.eqb_refl. reflexivity. Qed.

(** X10. Without interference, a user that [addUserSource] has just
    associated with a source is among the users [getUsersForSource]
    lists for it, and a second [addUserSource] for the same pair is
    refused with "User is already associated with this source" and
    changes nothing. *)
Theorem addUserSource_subscribes u s st row w' :
  addUserSource u s {| store := st; script := [] |} = (ok row, w') ->
  In u (out_data (fst (getUsersForSource s w'))) /\
  out_error (fst (getUsersForSource s w')) = None /\
  addUserSource u s w' = (fail "User is already associated with this source", w').
Proof.
  rewrite addUserSource_quiet.
  destruct (existsb (pair_is u s) (user_sources st)) eqn:E; [discriminate|].
  intros H. injection H as <- <-. rewrite getUsersForSource_quiet, addUserSource_quiet.
  unfold insert_user_source. rewrite E. cbn [snd fst out_data out_error user_sources].
  split; [|split; [reflexivity|]].
  - rewrite filter_app, map_app. apply in_or_app. right.
    cbn. unfold subscribes. cbn. rewrite Nat.eqb_refl. cbn. left. reflexivity.
  - rewrite existsb_app. cbn [existsb]. rewrite pair_is_refl, orb_true_r. reflexivity.
Qed.

Lemma deactivated_length u s st :
  List.length (user_sources (snd (deactivate_user_source u s st)))
  = List.length (user_sources st).
Proof. cbn. apply length_map. Qed.

Lemma deactivated_pair u s st :
  existsb (pair_is u s) (user_sources (snd (deactivate_user_source u s st)))
  = existsb (pair_is u s) (user_sources st).
Proof.
  cbn. induction (user_sources st) as [|r l IH]; [reflexivity|].
  cbn [map existsb]. rewrite IH. destruct (pair_is u s r) eqn:E; [|rewrite E; reflexivity].
  unfold pair_is in *. cbn. rewrite E. reflexivity.
Qed.

Lemma deactivated_users u s s' st u' :
  In u' (map user_id (filter (subscribes s')
                             (user_sources (snd (deactivate_user_source u s st))))) <->
  In u' (map user_id (filter (subscribes s') (user_sources st))) /\ ~ (u' = u /\ s' = s).
Proof.
  cbn. induction (user_sources st) as [|r l IH]; [cbn; tauto|].
  cbn [map filter]. destruct (pair_is u s r) eqn:P.
  - unfold subscribes at 1. cbn [us_source_id is_active]. rewrite andb_false_r.
    unfold pair_is in P. apply andb_prop in P as [Pu Ps]. apply Nat.eqb_eq in Pu, Ps.
    destruct (subscribes s' r) eqn:S.
    + cbn [map In]. rewrite IH. unfold subscribes in S. apply andb_prop in S as [S _].
      apply Nat.eqb_eq in S. split; [tauto|]. intros [[H|H] N]; [|tauto].
      exfalso. apply N. split; congruence.
    + exact IH.
  - destruct (subscribes s' r) eqn:S; [|exact IH].
    cbn [map In]. rewrite IH. unfold subscribes in S. apply andb_prop in S as [S _].
    apply Nat.eqb_eq in S. split; [|tauto]. intros [H|H]; [|tauto].
    split; [left; exact H|]. intros [-> ->]. unfold pair_is in P.
    rewrite H, S, !Nat.eqb_refl in P. discriminate.
Qed.

Lemma addUserSource_subscribes_witness :
  In 9 (out_data (fst (getUsersForSource 0
          {| store := snd (insert_user_source 9 0 Examples.configuredStore); script := [] |}))).
Proof.
  refine (proj1 (addUserSource_subscribes 9 0 Examples.configuredStore
                   {| us_id := 2; user_id := 9; us_source_id := 0; is_active := true |}
                   {| store := snd (insert_user_source 9 0 Examples.configuredStore);
                      script := [] |} _)).
  vm_compute. reflexivity.
Defined.

(** X11. [removeUserSource] deactivates, it does not delete: without
    interference it reports no error (also when there was nothing to
    remove), the table keeps its number of rows, sources and
    transactions are untouched, and [getUsersForSource] lists afterwards
    exactly what it listed before, less that user for that source. *)
Theorem removeUserSource_unsubscribes u s st e w' :
  removeUserSource u s {| store := st; script := [] |} = (e, w') ->
  e = None /\
  List.length (user_sources (store w')) = List.length (user_sources st) /\
  sources (store w') = sources st /\
  v2_transactions (store w') = v2_transactions st /\
  forall s' u',
    In u' (out_data (fst (getUsersForSource s' w'))) <->
    In u' (out_data (fst (getUsersForSource s' {| store := st; script := [] |})))
    /\ ~ (u' = u /\ s' = s).
Proof.
  rewrite removeUserSource_quiet. intros H. injection H as <- <-.
  split; [reflexivity|]. split; [apply deactivated_length|].
  split; [reflexivity|]. split; [reflexivity|].
  intros s' u'. rewrite !getUsersForSource_quiet. cbn [fst out_data store].
  apply deactivated_users.
Qed.

Lemma removeUserSource_unsubscribes_witness :
  List.length (user_sources (snd (deactivate_user_source 7 0 Examples.configuredStore))) = 1%nat.
Proof.
  refine (proj1 (proj2 (removeUserSource_unsubscribes 7 0 Examples.configuredStore None
                          {| store := snd (deactivate_user_source 7 0 Examples.configuredStore);
                             script := [] |} _))).
  vm_compute. reflexivity.
Defined.

(** X12. A removal cannot be undone through the service: once a pair
    has a row, [addUserSource] after [removeUserSource] is refused as
    already associated, the store is left as it was, and the user stays
    off the list of the source. *)
Theorem removeUserSource_is_final u s st e w1 :
  existsb (pair_is u s) (user_sources st) = true ->
  removeUserSource u s {| store := st; script := [] |} = (e, w1) ->
  addUserSource u s w1 = (fail "User is already associated with this source", w1) /\
  ~ In u (out_data (fst (getUsersForSource s w1))).
Proof.
  intros P. rewrite removeUserSource_quiet. intros H.
  apply pair_equal_spec in H as [<- <-].
  rewrite addUserSource_quiet, deactivated_pair, P. split; [reflexivity|].
  rewrite getUsersForSource_quiet. cbn [fst out_data].
  intros H. apply deactivated_users in H. tauto.
Qed.

Lemma removeUserSource_is_final_witness :
  addUserSource 7 0 {| store := snd (deactivate_user_source 7 0 Examples.configuredStore);
                       script := [] |}
  = (fail "User is already associated with this source",
     {| store := snd (deactivate_user_source 7 0 Examples.configuredStore); script := [] |}).
Proof.
  refine (proj1 (removeUserSource_is_final 7 0 Examples.configuredStore None
                   {| store := snd (deactivate_user_source 7 0 Examples.configuredStore);
                      script := [] |} _ _)).
  - vm_compute. reflexivity.
  - vm_compute. reflexivity.
Defined.

Lemma getSourceById_quiet sid st :
  getSourceById sid {| store := st; script := [] |} =
  match filter (fun r => Nat.eqb (id r) sid) (sources st) with
  | [row] => (ok (transformDatabaseSource row), {| store := st; script := [] |})
  | _ => (fail "Source not found", {| store := st; script := [] |})
  end.
Proof.
  unfold getSourceById, bind, ret. rewrite call_quiet. unfold select_source_by_id.
  cbn [fst snd]. destruct (filter _ (sources st)) as [|row [|row' l]]; reflexivity.
Qed.

Lemma filter_id_none (l : list DatabaseSource) sid :
  (forall r, In r l -> id r <> sid) -> filter (fun r => Nat.eqb (id r) sid) l = [].
Proof.
  induction l as [|r l IH]; [reflexivity|]. intros H. cbn [filter].
  destruct (Nat.eqb_spec (id r) sid) as [E|_].
  - exfalso. apply (H r); [left; reflexivity|exact E].
  - apply IH. intros r' Hr'. apply H. right. exact Hr'.
Qed.

Lemma filter_id_unique (l : list DatabaseSource) row :
  NoDup (map id l) -> In row l -> filter (fun r => Nat.eqb (id r) (id row)) l = [row].
Proof.
  induction l as [|r l IH]; [intros _ []|]. cbn [map]. intros N H.
  apply NoDup_cons_iff in N as [Nr N]. cbn [filter]. destruct H as [->|H].
  - rewrite Nat.eqb_refl. f_equal. apply filter_id_none. intros r' Hr' E.
    apply Nr. rewrite <- E. apply in_map. exact Hr'.
  - destruct (Nat.eqb_spec (id r) (id row)) as [E|_]; [|apply IH; assumption].
    exfalso. apply Nr. rewrite E. apply in_map. exact H.
Qed.

Lemma transformDatabaseSource_inj a b :
  transformDatabaseSource a = transformDatabaseSource b -> a = b.
Proof. destruct a, b. unfold transformDatabaseSource. cbn. congruence. Qed.

(** X13. On a store whose identifiers are distinct, the source that
    [findOrCreateSource] returns is the one [getSourceById] finds under
    its id, and an id that no source has is answered with
    "Source not found". *)
Theorem getSourceById_after_findOrCreateSource t v st src w1 :
  consistent st -> NoDup (map id (sources st)) ->
  findOrCreateSource t v {| store := st; script := [] |} = (ok src, w1) ->
  getSourceById (src_id src) w1 = (ok src, w1) /\
  forall sid, (forall r, In r (sources (store w1)) -> id r <> sid) ->
              getSourceById sid w1 = (fail "Source not found", w1).
Proof.
  intros [C _] N. rewrite findOrCreateSource_quiet.
  destruct (filter (source_is t v) (sources st)) as [|row [|row' l]] eqn:F.
  - rewrite (filter_nil_existsb _ _ F). unfold insert_source.
    rewrite (filter_nil_existsb _ _ F). cbn [snd]. intros H.
    apply pair_equal_spec in H as [H <-]. apply (f_equal out_data) in H. cbn in H.
    injection H as <-. rewrite getSourceById_quiet. cbn [sources src_id store next_id].
    split.
    + rewrite filter_app, filter_id_none.
      * cbn. rewrite Nat.eqb_refl. reflexivity.
      * intros r Hr. specialize (C r Hr). lia.
    + intros sid Hs. rewrite getSourceById_quiet. cbn [sources]. cbn [store sources] in Hs.
      rewrite filter_id_none; [reflexivity|exact Hs].
  - intros H. apply pair_equal_spec in H as [H <-]. apply (f_equal out_data) in H. cbn in H.
    injection H as <-. rewrite getSourceById_quiet.
    change (src_id (transformDatabaseSource row)) with (id row). split.
    + rewrite filter_id_unique; [reflexivity|exact N|].
      assert (I : In row (filter (source_is t v) (sources st))) by (rewrite F; left; reflexivity).
      apply filter_In in I. tauto.
    + intros sid Hs. rewrite getSourceById_quiet, filter_id_none; [reflexivity|exact Hs].
  - rewrite (filter_cons_existsb _ _ _ _ F). discriminate.
Qed.

Lemma getSourceById_after_findOrCreateSource_witness :
  getSourceById 0 {| store := snd (insert_source phone "+573001234567" Examples.emptyStore);
                     script := [] |}
  = (ok {| src_id := 0; sourceType := phone; sourceValue := "+573001234567" |},
     {| store := snd (insert_source phone "+573001234567" Examples.emptyStore); script := [] |}).
Proof.
  refine (proj1 (getSourceById_after_findOrCreateSource phone "+573001234567"
                   Examples.emptyStore
                   {| src_id := 0; sourceType := phone; sourceValue := "+573001234567" |}
                   {| store := snd (insert_source phone "+573001234567" Examples.emptyStore);
                      script := [] |} _ _ _)).
  - split; intros ? [].
  - constructor.
  - vm_compute. reflexivity.
Defined.

(** X14. [findOrCreateSource] is idempotent without interference: a
    second call with the same type and value returns the same source and
    leaves the store as the first call left it; the source carries the
    type and the value that were asked for. *)
Theorem findOrCreateSource_idempotent t v st src w1 :
  findOrCreateSource t v {| store := st; script := [] |} = (ok src, w1) ->
  findOrCreateSource t v w1 = (ok src, w1) /\
  sourceType src = t /\ sourceValue src = v.
Proof.
  intros H. apply findOrCreateSource_found in H as (st' & row & -> & F & <- & _ & _).
  split; [apply findOrCreateSource_again; exact F|].
  assert (I : In row (filter (source_is t v) (sources st'))) by (rewrite F; left; reflexivity).
  apply filter_In in I as [_ I]. unfold source_is in I. apply andb_prop in I as [It Iv].
  apply String.eqb_eq in Iv. cbn. split; [|exact Iv].
  destruct (source_type row), t; try discriminate; reflexivity.
Qed.

Lemma findOrCreateSource_idempotent_witness :
  findOrCreateSource email "jdcadavid96@gmail.com"
                     {| store := Examples.configuredStore; script := [] |}
  = (ok {| src_id := 0; sourceType := email; sourceValue := "jdcadavid96@gmail.com" |},
     {| store := Examples.configuredStore; script := [] |}).
Proof.
  refine (proj1 (findOrCreateSource_idempotent email "jdcadavid96@gmail.com"
                   Examples.configuredStore
                   {| src_id := 0; sourceType := email; sourceValue := "jdcadavid96@gmail.com" |}
                   {| store := Examples.configuredStore; script := [] |} _)).
  vm_compute. reflexivity.
Defined.


Lemma getSourcesForUser_quiet u st :
  getSourcesForUser u {| store := st; script := [] |} =
  ({| out_data :=
        map transformDatabaseSource
            (flat_map (fun source => match source with Some x => [x] | None => [] end)
               (map (fun r => find (fun s => Nat.eqb (id s) (us_source_id r)) (sources st))
                    (filter (fun r => Nat.eqb (user_id r) u && is_active r) (user_sources st))));
      out_error := None |},
   {| store := st; script := [] |}).
Proof. unfold getSourcesForUser, bind, ret. rewrite call_quiet. reflexivity. Qed.

Lemma find_id_unique (l : list DatabaseSource) row sid :
  NoDup (map id l) -> In row l ->
  (find (fun s => Nat.eqb (id s) sid) l = Some row <-> sid = id row).
Proof.
  intros N I. split.
  - intros H. apply find_some in H as [_ H]. apply Nat.eqb_eq in H. congruence.
  - intros ->. induction l as [|r l IH]; [destruct I|]. cbn [map] in N.
    apply NoDup_cons_iff in N as [Nr N]. cbn [find]. destruct I as [->|I].
    + rewrite Nat.eqb_refl. reflexivity.
    + destruct (Nat.eqb_spec (id r) (id row)) as [E|_]; [|apply IH; assumption].
      exfalso. apply Nr. rewrite E. apply in_map. exact I.
Qed.

(** X15. The two views of the associations agree: on a store with
    distinct source ids, a source is among [getSourcesForUser] of a user
    exactly when the user is among [getUsersForSource] of the source. *)
Theorem subscription_views_agree (st : Store) (u : uuid) (row : DatabaseSource) :
  NoDup (map id (sources st)) -> In row (sources st) ->
  (In (transformDatabaseSource row)
      (out_data (fst (getSourcesForUser u {| store := st; script := [] |}))) <->
   In u (out_data (fst (getUsersForSource (id row) {| store := st; script := [] |})))).
Proof.
  intros N I. rewrite getSourcesForUser_quiet, getUsersForSource_quiet. cbn [fst out_data].
  unfold subscribes. split.
  - intros H. apply in_map_iff in H as (x & Hx & H).
    apply transformDatabaseSource_inj in Hx. subst x.
    apply in_flat_map in H as (o & H & Ho). apply in_map_iff in H as (r & Hr & H).
    apply filter_In in H as [Hin Hp].
    destruct o as [y|]; [|destruct Ho]. destruct Ho as [->|[]].
    apply (find_id_unique _ _ _ N I) in Hr. apply andb_prop in Hp as [Hu Ha].
    apply Nat.eqb_eq in Hu. apply in_map_iff. exists r. split; [exact Hu|].
    apply filter_In. split; [exact Hin|].
    rewrite Hr, Nat.eqb_refl, Ha. reflexivity.
  - intros H. apply in_map_iff in H as (r & Hu & H). apply filter_In in H as [Hin Hp].
    apply andb_prop in Hp as [Hs Ha]. apply Nat.eqb_eq in Hs.
    apply in_map. apply in_flat_map. exists (Some row). split; [|left; reflexivity].
    apply in_map_iff. exists r. split; [apply (find_id_unique _ _ _ N I); congruence|].
    apply filter_In. split; [exact Hin|]. rewrite Hu, Nat.eqb_refl, Ha. reflexivity.
Qed.

Lemma subscription_views_agree_witness :
  In 7 (out_data (fst (getUsersForSource 0 {| store := Examples.configuredStore;
                                              script := [] |}))).
Proof.
  refine (proj1 (subscription_views_agree Examples.configuredStore 7
                   {| id := 0; source_type := email; source_value := "jdcadavid96@gmail.com" |}
                   _ _) _).
  - vm_compute. constructor; [intros []|constructor].
  - left. reflexivity.
  - vm_compute. left. reflexivity.
Defined.
End Subscriptions.


(** ** From registration to a stored transaction *)

Section EndToEnd.
Import Db V2Validation V2DatabaseService Route.




End EndToEnd.


(** ** The rate limiter *)

Section RateLimiter.
Import WebhookService.
Local Open Scope Z_scope.

Lemma map_get_set_same k v m : map_get k (map_set k v m) = Some v.
Proof.
  induction m as [|[k' v'] m IH]; cbn.
  - rewrite String.eqb_refl. reflexivity.
  - destruct (String.eqb k' k) eqn:E; cbn; rewrite E; [reflexivity|exact IH].
Qed.

Lemma map_get_set_other k k' v m : k <> k' -> map_get k' (map_set k v m) = map_get k' m.
Proof.
  intros N. induction m as [|[k0 v0] m IH]; cbn.
  - destruct (String.eqb_spec k k'); [contradiction|reflexivity].
  - destruct (String.eqb_spec k0 k) as [->|]; cbn.
    + destruct (String.eqb_spec k k'); [contradiction|reflexivity].
    + destruct (String.eqb k0 k'); [reflexivity|exact IH].
Qed.

Lemma checkRateLimits_cons ip now rest m :
  checkRateLimits ((ip, now) :: rest) m =
  (fst (checkRateLimit ip now m) :: fst (checkRateLimits rest (snd (checkRateLimit ip now m))),
   snd (checkRateLimits rest (snd (checkRateLimit ip now m)))).
Proof.
  cbn [checkRateLimits]. destruct (checkRateLimit ip now m) as [a m'].
  cbn [fst snd]. destruct (checkRateLimits rest m'). reflexivity.
Qed.

(** Inside a window: with [c] requests counted so far, the next ones
    are admitted until the count reaches the maximum. *)
Lemma window_open ip (times : list Z) : forall m c r,
  map_get ("rate_limit_" ++ ip) m = Some {| count := c; resetTime := r |} ->
  (forall t, In t times -> t <= r) ->
  fst (checkRateLimits (map (pair ip) times) m)
  = (repeat true (Nat.min (List.length times) (maxRequests - c))
       ++ repeat false (List.length times - (maxRequests - c)))%list /\
  exists c', map_get ("rate_limit_" ++ ip) (snd (checkRateLimits (map (pair ip) times) m))
             = Some {| count := c'; resetTime := r |}.
Proof.
  induction times as [|t times IH]; intros m c r Hm Ht.
  - cbn. split; [reflexivity|]. exists c. exact Hm.
  - cbn [map]. rewrite checkRateLimits_cons.
    assert (Hr : (r <? t) = false) by (apply Z.ltb_ge, Ht; left; reflexivity).
    assert (Hstep : checkRateLimit ip t m
                    = if (maxRequests <=? c)%nat then (false, m)
                      else (true, map_set ("rate_limit_" ++ ip)
                                          {| count := S c; resetTime := r |} m)).
    { unfold checkRateLimit. rewrite Hm. cbn [resetTime count]. rewrite Hr. reflexivity. }
    rewrite Hstep. clear Hstep.
    destruct (Nat.leb_spec maxRequests c) as [Hc|Hc].
    + cbn [fst snd]. destruct (IH m c r Hm) as [E X]; [intros; apply Ht; right; assumption|].
      rewrite E. split; [|exact X].
      replace (maxRequests - c)%nat with 0%nat by lia.
      cbn [List.length]. rewrite !Nat.min_0_r, !Nat.sub_0_r. reflexivity.
    + cbn [fst snd].
      destruct (IH (map_set ("rate_limit_" ++ ip) {| count := S c; resetTime := r |} m) (S c) r)
        as [E X]; [apply map_get_set_same|intros; apply Ht; right; assumption|].
      rewrite E. split; [|exact X].
      cbn [List.length].
      replace (maxRequests - c)%nat with (S (maxRequests - S c)) by lia.
      rewrite <- Nat.succ_min_distr. cbn [repeat app]. reflexivity.
Qed.

(** X17. The limiter admits one hundred requests per client and
    window. For a client that is unknown or whose window has expired,
    the request at [t0] opens a window; of the requests that follow
    while the clock is at most 60 seconds later (the bound included),
    the first 99 are admitted and every further one is refused; a
    request later than that is admitted again. *)
Theorem rate_limit_window (ip : string) (t0 : Z) (times : list Z) (m : RateLimitMap) :
  match map_get ("rate_limit_" ++ ip) m with
  | Some current => resetTime current < t0
  | None => True
  end ->
  (forall t, In t times -> t <= t0 + 60000) ->
  fst (checkRateLimits (map (pair ip) (t0 :: times)) m)
  = (repeat true (Nat.min (S (List.length times)) 100)
       ++ repeat false (S (List.length times) - 100))%list /\
  forall t', t0 + 60000 < t' ->
    fst (checkRateLimit ip t' (snd (checkRateLimits (map (pair ip) (t0 :: times)) m))) = true.
Proof.
  intros Hm Ht. cbn [map]. rewrite checkRateLimits_cons.
  assert (Hstep : checkRateLimit ip t0 m
                  = (true, map_set ("rate_limit_" ++ ip)
                                   {| count := 1; resetTime := t0 + windowMs |} m)).
  { unfold checkRateLimit. destruct (map_get ("rate_limit_" ++ ip) m) as [cur|]; [|reflexivity].
    apply Z.ltb_lt in Hm. rewrite Hm. reflexivity. }
  rewrite Hstep. cbn [fst snd].
  destruct (window_open ip times _ 1%nat (t0 + windowMs) (map_get_set_same _ _ m))
    as [E [c' X]]; [exact Ht|].
  rewrite E. split.
  - change (maxRequests - 1)%nat with 99%nat.
    change 100%nat with (S 99) at 1. rewrite <- Nat.succ_min_distr.
    replace (S (List.length times) - 100)%nat with (List.length times - 99)%nat by lia.
    reflexivity.
  - intros t' Hl. unfold checkRateLimit. rewrite X. cbn [resetTime].
    replace (t0 + windowMs <? t') with true; [reflexivity|].
    symmetry. apply Z.ltb_lt. exact Hl.
Qed.

Lemma rate_limit_window_witness :
  fst (checkRateLimits (map (pair "10.0.0.1") (0 :: repeat 60000 100)) [])
  = (repeat true 100 ++ [false])%list.
Proof.
  refine (proj1 (rate_limit_window "10.0.0.1" 0 (repeat 60000 100) [] _ _)).
  - exact I.
  - intros t H. apply repeat_spec in H. subst t. vm_compute. discriminate.
Defined.

Lemma map_get_absent k (m : RateLimitMap) : ~ In k (map fst m) -> map_get k m = None.
Proof.
  induction m as [|[k' v] m IH]; [reflexivity|]. cbn. intros N.
  destruct (String.eqb_spec k' k) as [->|_]; [exfalso; apply N; left; reflexivity|].
  apply IH. intros H. apply N. right. exact H.
Qed.

Lemma map_get_cleanup now k (m : RateLimitMap) :
  NoDup (map fst m) ->
  map_get k (cleanupRateLimit now m)
  = match map_get k m with
    | Some e => if resetTime e <? now then None else Some e
    | None => None
    end.
Proof.
  unfold cleanupRateLimit. induction m as [|[k' v] m IH]; [reflexivity|].
  cbn [map fst]. intros N. apply NoDup_cons_iff in N as [Nk N].
  cbn [filter snd map_get]. destruct (resetTime v <? now) eqn:E; cbn [negb].
  - destruct (String.eqb_spec k' k) as [->|_]; [|apply IH; exact N].
    rewrite E. apply map_get_absent. intros H. apply Nk. apply in_map_iff in H as (x & Hx & H).
    apply filter_In in H as [H _]. rewrite <- Hx. apply in_map. exact H.
  - cbn [map_get]. destruct (String.eqb k' k); [rewrite E; reflexivity|apply IH; exact N].
Qed.

(** The maps agree but for entries of the second that had expired at [now]. *)
Lemma cleanup_simulation now (requests : list (string * Z)) :
  (forall r, In r requests -> now <= snd r) ->
  forall m1 m2,
  (forall k, map_get k m1 = map_get k m2 \/
             (map_get k m1 = None /\ exists e, map_get k m2 = Some e /\ resetTime e < now)) ->
  fst (checkRateLimits requests m1) = fst (checkRateLimits requests m2).
Proof.
  induction requests as [|[ip t] rest IH]; intros Ht m1 m2 R; [reflexivity|].
  rewrite !checkRateLimits_cons. cbn [fst].
  assert (Hnow : now <= t) by (apply (Ht (ip, t)); left; reflexivity).
  assert (S : fst (checkRateLimit ip t m1) = fst (checkRateLimit ip t m2) /\
              forall k, map_get k (snd (checkRateLimit ip t m1))
                        = map_get k (snd (checkRateLimit ip t m2)) \/
                        (map_get k (snd (checkRateLimit ip t m1)) = None /\
                         exists e, map_get k (snd (checkRateLimit ip t m2)) = Some e /\
                                   resetTime e < now)).
  { assert (Set_ : forall v k,
              map_get k (map_set ("rate_limit_" ++ ip) v m1)
              = map_get k (map_set ("rate_limit_" ++ ip) v m2) \/
              (map_get k (map_set ("rate_limit_" ++ ip) v m1) = None /\
               exists e, map_get k (map_set ("rate_limit_" ++ ip) v m2) = Some e /\
                         resetTime e < now)).
    { intros v k. destruct (String.eqb_spec ("rate_limit_" ++ ip) k) as [<-|N].
      - left. rewrite !map_get_set_same. reflexivity.
      - rewrite !map_get_set_other by exact N. apply R. }
    unfold checkRateLimit. destruct (R ("rate_limit_" ++ ip)) as [E|(E1 & e & E2 & He)].
    - rewrite E. destruct (map_get ("rate_limit_" ++ ip) m2) as [cur|]; [|split; [reflexivity|apply Set_]].
      destruct (resetTime cur <? t); [split; [reflexivity|apply Set_]|].
      destruct (maxRequests <=? count cur)%nat; split; try reflexivity; [exact R|apply Set_].
    - rewrite E1, E2. replace (resetTime e <? t) with true by (symmetry; apply Z.ltb_lt; lia).
      split; [reflexivity|apply Set_]. }
  destruct S as [S1 S2]. rewrite S1. f_equal. apply IH; [|exact S2].
  intros r Hr. apply Ht. right. exact Hr.
Qed.

(** X18. [cleanupRateLimit] changes no answer: when the clock does not
    run backwards, the limiter answers every later series of requests
    the same whether the expired entries were cleaned up or not. *)
Theorem cleanupRateLimit_is_transparent (now : Z) (m : RateLimitMap)
        (requests : list (string * Z)) :
  NoDup (map fst m) ->
  (forall r, In r requests -> now <= snd r) ->
  fst (checkRateLimits requests (cleanupRateLimit now m)) = fst (checkRateLimits requests m).
Proof.
  intros N Ht. apply (cleanup_simulation now requests Ht). intros k.
  rewrite (map_get_cleanup now k m N). destruct (map_get k m) as [e|]; [|left; reflexivity].
  destruct (resetTime e <? now) eqn:E; [|left; reflexivity].
  right. split; [reflexivity|]. exists e. split; [reflexivity|]. apply Z.ltb_lt. exact E.
Qed.

Lemma cleanupRateLimit_is_transparent_witness :
  fst (checkRateLimits [("10.0.0.1", 70000); ("10.0.0.2", 70001)]
         (cleanupRateLimit 70000
            [("rate_limit_10.0.0.1", {| count := 100; resetTime := 60000 |});
             ("rate_limit_10.0.0.2", {| count := 100; resetTime := 90000 |})]))
  = [true; false].
Proof.
  refine (eq_trans
            (cleanupRateLimit_is_transparent 70000
               [("rate_limit_10.0.0.1", {| count := 100; resetTime := 60000 |});
                ("rate_limit_10.0.0.2", {| count := 100; resetTime := 90000 |})]
               [("10.0.0.1", 70000); ("10.0.0.2", 70001)] _ _) _).
  - vm_compute. constructor; [intros [H|[]]; discriminate H|]. constructor; [intros []|constructor].
  - intros r [<-|[<-|[]]]; vm_compute; discriminate.
  - vm_compute. reflexivity.
Defined.
End RateLimiter.


(** ** The envelope of a request *)

Section Envelope.
Import Db V2Validation V2DatabaseService Route.

Lemma removeFirst_eq needle s :
  Js.removeFirst needle s =
  if String.prefix needle s
  then String.substring (String.length needle) (String.length s - String.length needle) s
  else match s with
       | EmptyString => EmptyString
       | String c rest => String c (Js.removeFirst needle rest)
       end.
Proof. destruct s; reflexivity. Qed.

Lemma substring_all s : String.substring 0 (String.length s) s = s.
Proof. induction s; cbn; congruence. Qed.

Lemma prefix_split p : forall h,
  String.prefix p h = true ->
  h = p ++ String.substring (String.length p) (String.length h - String.length p) h.
Proof.
  induction p as [|a p IH]; intros h H.
  - cbn. rewrite Nat.sub_0_r, substring_all. reflexivity.
  - destruct h as [|b h]; [discriminate|]. cbn in H.
    destruct (ascii_dec a b) as [->|]; [|discriminate].
    cbn. f_equal. apply IH. exact H.
Qed.

Lemma prefix_append p s : String.prefix p (p ++ s) = true.
Proof.
  induction p as [|a p IH]; cbn; [destruct s; reflexivity|].
  destruct (ascii_dec a a); [exact IH|congruence].
Qed.

Lemma append_cancel p : forall a b, p ++ a = p ++ b -> a = b.
Proof. induction p; cbn; intros a' b' H; [exact H|]. injection H as H. auto. Qed.

Lemma bearer_token (authHeader secret : string) :
  Js.startsWith "Bearer " authHeader = true ->
  (String.eqb (Js.removeFirst "Bearer " authHeader) secret = true <->
   authHeader = "Bearer " ++ secret).
Proof.
  unfold Js.startsWith. intros P. rewrite removeFirst_eq, P, String.eqb_eq.
  pose proof (prefix_split _ _ P) as S. split.
  - intros <-. exact S.
  - intros E. rewrite E in S at 1. apply append_cancel in S. symmetry. exact S.
Qed.

Section Host.
Variable Date_parse : string -> option Z.

Ltac refused :=
  cbn; split; [reflexivity|]; split; [reflexivity|];
  repeat (first [left; reflexivity | right]).

(** X19. Without the exact bearer token the direct handler never
    reaches the storage: whatever else the request holds and whatever
    the state of the world, a request whose Authorization header is not
    "Bearer " followed by the configured secret is answered with status
    "error" and one of the codes 500, 413, 400 and 401, and the world
    is left as it was. *)
Theorem POST_request_needs_the_token (env : Env) (now : Z) (localTZA : Z -> Z)
        (request : WebhookService.Request) (w : World) :
  (forall secret, webhookSecret env = Some secret ->
                  WebhookService.authorization request <> Some ("Bearer " ++ secret)) ->
  snd (POST_request Date_parse env now localTZA request w) = w /\
  status (json (fst (POST_request Date_parse env now localTZA request w))) = "error" /\
  In (http_status (fst (POST_request Date_parse env now localTZA request w)))
     [500; 413; 400; 401]%nat.
Proof.
  intros H. unfold POST_request, ret.
  destruct (_ || _ || _); [refused|].
  destruct (WebhookService.too_large _ _); [refused|].
  destruct (match WebhookService.xTimestamp request with Some _ => _ | None => _ end);
    [refused|].
  destruct (WebhookService.authorization request) as [authHeader|] eqn:A; [|refused].
  destruct (negb (Js.present (Some authHeader)) || negb (Js.startsWith "Bearer " authHeader))
    eqn:B; [refused|].
  apply orb_false_elim in B as [_ B]. apply negb_false_iff in B.
  destruct (webhookSecret env) as [secret|]; [|refused].
  destruct (String.eqb (Js.removeFirst "Bearer " authHeader) secret) eqn:T; [|refused].
  exfalso. apply (H secret eq_refl). f_equal. apply (bearer_token _ _ B). exact T.
Qed.

Lemma includes_nonempty needle s : Js.includes needle s = true -> needle <> "" -> s <> "".
Proof. intros H N ->. cbn in H. destruct needle; [congruence|discriminate]. Qed.

Lemma present_some s : s <> "" -> Js.present (Some s) = true.
Proof. intros N. cbn. destruct (String.eqb_spec s ""); [contradiction|reflexivity]. Qed.

(** X20. The envelope lets a well-formed request through unchanged:
    with the environment configured, a declared size within the limit,
    a timestamp header that is absent, unreadable or at most ten
    minutes old, the exact bearer token and a JSON content type, the
    direct handler answers what [POST] answers on the body. *)
Theorem POST_request_with_the_token (env : Env) (now : Z) (localTZA : Z -> Z)
        (request : WebhookService.Request) (w : World) (secret ct : string) :
  Js.present (supabaseUrl env) = true ->
  Js.present (supabaseServiceKey env) = true ->
  webhookSecret env = Some secret -> secret <> "" ->
  WebhookService.too_large 20000 (WebhookService.contentLength request) = false ->
  (forall ts t, WebhookService.xTimestamp request = Some ts -> Date_parse ts = Some t ->
                (now - t <= 600000)%Z) ->
  WebhookService.authorization request = Some ("Bearer " ++ secret) ->
  WebhookService.contentType request = Some ct ->
  Js.includes "application/json" ct = true ->
  POST_request Date_parse env now localTZA request w
  = POST localTZA (WebhookService.body request) w.
Proof.
  intros Hu Hk Hs Hne Hsize Hfresh Hauth Hct Hjson. unfold POST_request.
  rewrite Hu, Hk, Hs, (present_some _ Hne), Hsize. cbn [negb orb].
  assert (F : match WebhookService.xTimestamp request with
              | Some requestTimestamp =>
                  Js.present (WebhookService.xTimestamp request)
                  && too_old Date_parse now requestTimestamp
              | None => false
              end = false).
  { destruct (WebhookService.xTimestamp request) as [ts|] eqn:X; [|reflexivity].
    unfold too_old. destruct (Date_parse ts) as [t|] eqn:D; [|apply andb_false_r].
    specialize (Hfresh ts t eq_refl D).
    replace (10 * 60 * 1000 <? now - t)%Z with false; [apply andb_false_r|].
    symmetry. apply Z.ltb_ge. lia. }
  rewrite F, Hauth.
  rewrite present_some by discriminate.
  unfold Js.startsWith. rewrite (prefix_append "Bearer " secret). cbn [negb orb].
  replace (String.eqb (Js.removeFirst "Bearer " ("Bearer " ++ secret)) secret) with true.
  - cbn [negb]. rewrite Hct, Hjson.
    rewrite present_some by (apply (includes_nonempty _ _ Hjson); discriminate).
    reflexivity.
  - symmetry. apply bearer_token; [apply prefix_append|reflexivity].
Qed.

(** X21. The two checks of the request timestamp agree on a header
    that reads as a date: it is refused exactly when it is more than
    ten minutes old, so a timestamp in the future is accepted. They
    differ on a header that does not read as a date: the direct handler
    lets it pass, [validateTimestamp] of the webhook service refuses
    it. *)
Theorem timestamp_checks_differ_on_invalid_dates (now : Z) (requestTimestamp : string) :
  match Date_parse requestTimestamp with
  | Some requestTime =>
      too_old Date_parse now requestTimestamp
      = negb (WebhookService.validateTimestamp Date_parse now requestTimestamp 10) /\
      (too_old Date_parse now requestTimestamp = true <-> (now - requestTime > 600000)%Z)
  | None =>
      too_old Date_parse now requestTimestamp = false /\
      WebhookService.validateTimestamp Date_parse now requestTimestamp 10 = false
  end.
Proof.
  unfold too_old, WebhookService.validateTimestamp.
  destruct (Date_parse requestTimestamp) as [t|]; [|split; reflexivity].
  change (10 * 60 * 1000)%Z with 600000%Z. split.
  - destruct (Z.ltb_spec 600000 (now - t)), (Z.leb_spec (now - t) 600000); try reflexivity; lia.
  - rewrite Z.ltb_lt. lia.
Qed.

Ltac shape :=
  cbn;
  first
    [ left; split; [reflexivity|]; split; [reflexivity|]; split; [discriminate|];
      first [left; split; [reflexivity|discriminate] | right; split; reflexivity]
    | right; split; [repeat (first [left; reflexivity | right])|];
      split; [reflexivity|]; split; [discriminate|reflexivity] ].

(** X22. The shape of every answer of the direct handler, in every
    world: either the code is 200, there is no error text, the source
    id is given and the status is "processed" with a transaction id or
    "duplicate" without one; or the code is one of 400, 401, 404, 413
    and 500, the status is "error", an error text is given and no
    transaction id is. *)
Theorem POST_request_answers (env : Env) (now : Z) (localTZA : Z -> Z)
        (request : WebhookService.Request) (w : World) :
  let r := fst (POST_request Date_parse env now localTZA request w) in
  (http_status r = 200%nat /\ error (json r) = None /\ sourceId (json r) <> None /\
   ((status (json r) = "processed" /\ transactionId (json r) <> None) \/
    (status (json r) = "duplicate" /\ transactionId (json r) = None))) \/
  (In (http_status r) [400; 401; 404; 413; 500]%nat /\
   status (json r) = "error" /\ error (json r) <> None /\ transactionId (json r) = None).
Proof.
  unfold POST_request, ret.
  destruct (_ || _ || _); [shape|].
  destruct (WebhookService.too_large _ _); [shape|].
  destruct (match WebhookService.xTimestamp request with Some _ => _ | None => _ end);
    [shape|].
  destruct (WebhookService.authorization request) as [authHeader|]; [|shape].
  destruct (_ || _); [shape|].
  destruct (negb _); [shape|].
  destruct (WebhookService.contentType request) as [ct|]; [|shape].
  destruct (_ || _); [shape|].
  unfold POST, bind, ret.
  destruct (WebhookService.body request) as [body|]; [|shape].
  destruct (parseV2WebhookPayload body) as [wd|issues]; [|shape].
  destruct (findOrCreateSource _ _ w) as [s w1].
  destruct (out_error s); [shape|].
  destruct (out_data s) as [source|]; [|shape].
  destruct (getUsersForSource _ w1) as [u w2].
  destruct (out_error u); [shape|].
  destruct (List.length (out_data u) =? 0)%nat; [shape|].
  destruct (createV2Transaction _ _ _ w2) as [t w3].
  destruct (out_error t) as [msg|].
  - destruct (Js.includes "Duplicate webhook ID" msg); shape.
  - destruct (out_data t); shape.
Qed.

Variable validateWebhookPayload : Js.value -> bool.

(** X23. What [validateWebhookRequest] accepts: a request is valid
    only if a secret is configured, the Authorization header is
    "Bearer " followed by it, the limiter admitted the client, and the
    body passed the validator of its version; the payload handed on is
    the parsed one for a URL under /v2/ and the body as it came
    otherwise. *)
Theorem validateWebhookRequest_accepts_only (secret : string) (nowLimit nowStamp : Z)
        (request : WebhookService.Request) (m m' : WebhookService.RateLimitMap)
        (v : WebhookService.Validation) :
  WebhookService.validateWebhookRequest Date_parse validateWebhookPayload secret
    nowLimit nowStamp request m = (v, m') ->
  WebhookService.isValid v = true ->
  secret <> "" /\
  WebhookService.authorization request = Some ("Bearer " ++ secret) /\
  WebhookService.checkRateLimit (WebhookService.clientIP request) nowLimit m = (true, m') /\
  WebhookService.error v = None /\
  exists b, WebhookService.body request = Some b /\
    if Js.includes "/v2/" (WebhookService.url request)
    then exists d, parseV2WebhookPayload b = Zod.Success d /\
                   WebhookService.webhookData v = Some (WebhookService.V2Data d)
    else validateWebhookPayload b = true /\
         WebhookService.webhookData v = Some (WebhookService.V1Data b).
Proof.
  unfold WebhookService.validateWebhookRequest.
  destruct (String.eqb_spec secret "") as [|Hs];
    [intros H V; apply pair_equal_spec in H as [<- _]; discriminate V|].
  destruct (WebhookService.too_large _ _);
    [intros H V; apply pair_equal_spec in H as [<- _]; discriminate V|].
  destruct (WebhookService.checkRateLimit _ nowLimit m) as [allowed m1].
  destruct allowed; cbn [negb];
    [|intros H V; apply pair_equal_spec in H as [<- _]; discriminate V].
  destruct (match WebhookService.xTimestamp request with Some _ => _ | None => _ end);
    [intros H V; apply pair_equal_spec in H as [<- _]; discriminate V|].
  destruct (WebhookService.authorization request) as [authHeader|];
    [|intros H V; apply pair_equal_spec in H as [<- _]; discriminate V].
  destruct (negb (Js.present (Some authHeader)) || negb (Js.startsWith "Bearer " authHeader))
    eqn:B; [intros H V; apply pair_equal_spec in H as [<- _]; discriminate V|].
  apply orb_false_elim in B as [_ B]. apply negb_false_iff in B.
  unfold WebhookService.validateAuthToken.
  destruct (String.eqb (Js.removeFirst "Bearer " authHeader) secret) eqn:T; cbn [negb];
    [|intros H V; apply pair_equal_spec in H as [<- _]; discriminate V].
  apply (bearer_token _ _ B) in T. subst authHeader. clear B.
  destruct (WebhookService.contentType request) as [ct|];
    [|intros H V; apply pair_equal_spec in H as [<- _]; discriminate V].
  destruct (_ || _); [intros H V; apply pair_equal_spec in H as [<- _]; discriminate V|].
  destruct (WebhookService.body request) as [b|];
    [|intros H V; apply pair_equal_spec in H as [<- _]; discriminate V].
  destruct (Js.includes "/v2/" (WebhookService.url request)).
  - destruct (parseV2WebhookPayload b) as [d|issues] eqn:P;
      [|intros H V; apply pair_equal_spec in H as [<- _]; discriminate V].
    intros H _. apply pair_equal_spec in H as [<- <-]. cbn.
    split; [exact Hs|]. split; [reflexivity|]. split; [reflexivity|]. split; [reflexivity|].
    exists b. split; [reflexivity|]. exists d. split; [exact P|reflexivity].
  - destruct (validateWebhookPayload b) eqn:P; cbn [negb];
      [|intros H V; apply pair_equal_spec in H as [<- _]; discriminate V].
    intros H _. apply pair_equal_spec in H as [<- <-]. cbn.
    split; [exact Hs|]. split; [reflexivity|]. split; [reflexivity|]. split; [reflexivity|].
    exists b. split; [reflexivity|]. split; [exact P|reflexivity].
Qed.

(** X24. The limiter counts before it authenticates: once a secret is
    configured and the declared size is within the limit, the state of
    the limiter after [validateWebhookRequest] is the one
    [checkRateLimit] leaves, whether the request carried the token or
    not. *)
Theorem validateWebhookRequest_counts_every_request (secret : string) (nowLimit nowStamp : Z)
        (request : WebhookService.Request) (m : WebhookService.RateLimitMap) :
  secret <> "" ->
  WebhookService.too_large
    (if Js.includes "/v2/" (WebhookService.url request) then 20000 else 10000)%Z
    (WebhookService.contentLength request) = false ->
  snd (WebhookService.validateWebhookRequest Date_parse validateWebhookPayload secret
         nowLimit nowStamp request m)
  = snd (WebhookService.checkRateLimit (WebhookService.clientIP request) nowLimit m).
Proof.
  intros Hs Hsize. unfold WebhookService.validateWebhookRequest.
  destruct (String.eqb_spec secret "") as [|_]; [contradiction|].
  rewrite Hsize.
  destruct (WebhookService.checkRateLimit _ nowLimit m) as [allowed m1].
  destruct allowed; cbn [negb snd]; [|reflexivity].
  destruct (match WebhookService.xTimestamp request with Some _ => _ | None => _ end);
    [reflexivity|].
  destruct (WebhookService.authorization request) as [authHeader|]; [|reflexivity].
  destruct (_ || _); [reflexivity|].
  destruct (negb _); [reflexivity|].
  destruct (WebhookService.contentType request) as [ct|]; [|reflexivity].
  destruct (_ || _); [reflexivity|].
  destruct (WebhookService.body request) as [b|]; [|reflexivity].
  destruct (Js.includes "/v2/" (WebhookService.url request)).
  - destruct (parseV2WebhookPayload b); reflexivity.
  - destruct (negb _); reflexivity.
Qed.
End Host.

Lemma POST_request_needs_the_token_witness :
  snd (POST_request JsDate.ofString Examples.env 1756973200000 Examples.utc
                    Examples.forgedRequest
                    {| store := Examples.configuredStore; script := [] |})
  = {| store := Examples.configuredStore; script := [] |}.
Proof.
  refine (proj1 (POST_request_needs_the_token JsDate.ofString Examples.env 1756973200000
                   Examples.utc Examples.forgedRequest
                   {| store := Examples.configuredStore; script := [] |} _)).
  intros secret H. injection H as <-. discriminate.
Defined.

Lemma POST_request_with_the_token_witness :
  POST_request JsDate.ofString Examples.env 1756973200000 Examples.utc Examples.request
               {| store := Examples.configuredStore; script := [] |}
  = POST Examples.utc (Some (Js.Obj Examples.validPayload))
         {| store := Examples.configuredStore; script := [] |}.
Proof.
  refine (POST_request_with_the_token JsDate.ofString Examples.env 1756973200000 Examples.utc
            Examples.request {| store := Examples.configuredStore; script := [] |}
            "s3cret" "application/json" _ _ _ _ _ _ _ _ _);
    try reflexivity; try discriminate.
  intros ts t H D. injection H as <-. vm_compute in D. injection D as <-. vm_compute. discriminate.
Defined.

Lemma validateWebhookRequest_accepts_only_witness :
  WebhookService.authorization Examples.request = Some ("Bearer " ++ "s3cret").
Proof.
  refine (proj1 (proj2 (validateWebhookRequest_accepts_only JsDate.ofString (fun _ => true)
                          "s3cret" 1756973200000 1756973200000 Examples.request []
                          (snd (WebhookService.validateWebhookRequest JsDate.ofString
                                  (fun _ => true) "s3cret" 1756973200000 1756973200000
                                  Examples.request []))
                          (fst (WebhookService.validateWebhookRequest JsDate.ofString
                                  (fun _ => true) "s3cret" 1756973200000 1756973200000
                                  Examples.request []))
                          _ _))).
  - apply surjective_pairing.
  - vm_compute. reflexivity.
Defined.

Lemma validateWebhookRequest_counts_every_request_witness :
  snd (WebhookService.validateWebhookRequest JsDate.ofString (fun _ => true) "s3cret"
         1756973200000 1756973200000 Examples.forgedRequest [])
  = [("rate_limit_10.0.0.1",
      {| WebhookService.count := 1; WebhookService.resetTime := 1756973260000 |})].
Proof.
  refine (eq_trans
            (validateWebhookRequest_counts_every_request JsDate.ofString (fun _ => true)
               "s3cret" 1756973200000 1756973200000 Examples.forgedRequest [] _ _) _).
  - discriminate.
  - vm_compute. reflexivity.
  - vm_compute. reflexivity.
Defined.
End Envelope.


(** ** The two versions of the handler *)

Section TwoHandlers.
Import Db V2Validation V2DatabaseService Route.


Ltac decide_includes :=
  cbn [out_error out_data fail ok];
  repeat match goal with
         | |- context [Js.includes ?a ?b] =>
             let v := eval vm_compute in (Js.includes a b) in
             change (Js.includes a b) with v
         end;
  cbv beta iota.


End TwoHandlers.


(** ** What a delivery leaves in the store *)

Section StoredRows.
Import Db V2Validation V2DatabaseService Route.

Ltac decide_includes :=
  cbn [out_error out_data fail ok];
  repeat match goal with
         | |- context [Js.includes ?a ?b] =>
             let v := eval vm_compute in (Js.includes a b) in
             change (Js.includes a b) with v
         end;
  cbv beta iota.

(** A call in a world without other writers is served on the store as
    it stands or fails without touching it. *)
Lemma call_alone_cases {A : Type} (stmt : Store -> Response A * Store) (w w' : World)
      (r : Response A) :
  alone w ->
  call stmt w = (r, w') ->
  alone w' /\
  ((r = fst (stmt (store w)) /\ store w' = snd (stmt (store w))) \/
   (data r = None /\ store w' = store w)).
Proof.
  intros Halone. unfold call, alone in *.
  destruct w as [st sc]. cbn [script store] in *.
  destruct sc as [|[|e|ws] rest].
  - destruct (stmt st) as [r0 st0]. intros H. injection H as <- <-. cbn. auto.
  - destruct (stmt st) as [r0 st0]. intros H. injection H as <- <-. cbn.
    split; [|auto]. intros ws Hin. apply (Halone ws). right. exact Hin.
  - intros H. injection H as <- <-. cbn. split; [|auto].
    intros ws Hin. apply (Halone ws). right. exact Hin.
  - exfalso. apply (Halone ws). left. reflexivity.
Qed.

Lemma createV2Transaction_alone localTZA sid wd w o w' :
  alone w ->
  createV2Transaction localTZA sid wd w = (o, w') ->
  (exists txn row,
      o = ok txn /\
      v2_transactions (store w') = (v2_transactions (store w) ++ [row])%list /\
      tx_id row = txn_id txn /\ source_id (columns row) = sid /\
      webhook_id (columns row) = V2Validation.webhookId wd) \/
  (out_data o = None /\ out_error o <> None /\
   v2_transactions (store w') = v2_transactions (store w)).
Proof.
  intros Halone. unfold createV2Transaction, bind, ret.
  destruct (call (select_transaction _) w) as [existing w1] eqn:E1.
  apply call_alone in E1 as [Htx1 Halone1]; [|reflexivity|exact Halone].
  destruct (other_than_not_found (Db.error existing)).
  { intros H. injection H as <- <-. right. cbn. split; [reflexivity|]. split; [discriminate|exact Htx1]. }
  destruct (data existing).
  { intros H. injection H as <- <-. right. cbn. split; [reflexivity|]. split; [discriminate|exact Htx1]. }
  destruct (JsDate.ofString (timestamp wd)) as [t|].
  2:{ intros H. injection H as <- <-. right. cbn. split; [reflexivity|]. split; [discriminate|exact Htx1]. }
  destruct (call (insert_transaction _) w1) as [inserted w2] eqn:E2.
  apply call_alone_cases in E2 as [_ [[Hr Hst]|[Hr Hst]]]; [| |exact Halone1].
  - unfold insert_transaction in Hr, Hst.
    destruct (existsb _ (v2_transactions (store w1))).
    + cbn in Hr, Hst. subst inserted. cbn [Db.error unique_violation refuse].
      intros H. injection H as <- <-. right. cbn. split; [reflexivity|]. split; [discriminate|].
      rewrite Hst. exact Htx1.
    + cbn [fst snd] in Hr, Hst. subst inserted. cbn [Db.error data answer].
      intros H. injection H as <- <-. left.
      eexists _, _. split; [reflexivity|]. rewrite Hst. cbn [v2_transactions]. rewrite Htx1.
      split; [reflexivity|]. split; [reflexivity|]. split; reflexivity.
  - destruct (Db.error inserted).
    + intros H. injection H as <- <-. right. cbn. split; [reflexivity|]. split; [discriminate|].
      rewrite Hst. exact Htx1.
    + rewrite Hr. intros H. injection H as <- <-. right. cbn. split; [reflexivity|].
      split; [discriminate|]. rewrite Hst. exact Htx1.
Qed.

(** X26. When no other writer acts, also when calls to the storage
    fail, the direct handler adds a transaction row exactly when it
    answers "processed": that answer carries the id, the source and
    the webhook id of the one row added at the end of the table, and
    every other answer leaves the table of transactions as it was. *)
Theorem POST_stores_only_when_processed localTZA body w r w' :
  alone w ->
  POST localTZA body w = (r, w') ->
  (status (json r) = "processed" ->
   exists row,
     v2_transactions (store w') = (v2_transactions (store w) ++ [row])%list /\
     transactionId (json r) = Some (tx_id row) /\
     sourceId (json r) = Some (source_id (columns row)) /\
     webhookId (json r) = Js.Str (webhook_id (columns row))) /\
  (status (json r) <> "processed" ->
   v2_transactions (store w') = v2_transactions (store w)).
Proof.
  intros Halone. unfold POST, bind, ret.
  destruct body as [body|];
    [|intros H; injection H as <- <-; split; [discriminate|reflexivity]].
  destruct (parseV2WebhookPayload body) as [wd|issues];
    [|intros H; injection H as <- <-; split; [discriminate|reflexivity]].
  destruct (findOrCreateSource _ _ w) as [s w1] eqn:E1.
  apply findOrCreateSource_alone in E1 as [T1 A1]; [|exact Halone].
  destruct (out_error s);
    [intros H; injection H as <- <-; split; [discriminate|intros _; exact T1]|].
  destruct (out_data s) as [source|];
    [|intros H; injection H as <- <-; split; [discriminate|intros _; exact T1]].
  destruct (getUsersForSource _ w1) as [u w2] eqn:E2.
  apply getUsersForSource_alone in E2 as [T2 A2]; [|exact A1].
  rewrite T1 in T2.
  destruct (out_error u);
    [intros H; injection H as <- <-; split; [discriminate|intros _; exact T2]|].
  destruct (List.length (out_data u) =? 0)%nat;
    [intros H; injection H as <- <-; split; [discriminate|intros _; exact T2]|].
  destruct (createV2Transaction _ _ _ w2) as [t w3] eqn:E3.
  apply createV2Transaction_alone in E3
    as [(txn & row & -> & T3 & Hid & Hsid & Hwid)|(Hd & He & T3)]; [| |exact A2].
  - cbn [out_error out_data ok]. intros H. injection H as <- <-. rewrite T2 in T3.
    split; [|intros N; exfalso; apply N; reflexivity].
    intros _. exists row. cbn. rewrite Hid, Hsid, Hwid. auto.
  - rewrite T2 in T3. destruct (out_error t) as [msg|]; [|congruence].
    destruct (Js.includes "Duplicate webhook ID" msg);
      intros H; injection H as <- <-; split; try discriminate; intros _; exact T3.
Qed.

Lemma POST_stores_only_when_processed_witness :
  v2_transactions
    (store (snd (POST Examples.utc (Some (Js.Obj Examples.validPayload))
                      {| store := Examples.emptyStore; script := [] |})))
  = [].
Proof.
  refine (proj2 (POST_stores_only_when_processed Examples.utc
                   (Some (Js.Obj Examples.validPayload))
                   {| store := Examples.emptyStore; script := [] |}
                   (fst (POST Examples.utc (Some (Js.Obj Examples.validPayload))
                             {| store := Examples.emptyStore; script := [] |}))
                   (snd (POST Examples.utc (Some (Js.Obj Examples.validPayload))
                             {| store := Examples.emptyStore; script := [] |}))
                   _ _) _).
  - intros ws [].
  - apply surjective_pairing.
  - vm_compute. discriminate.
Defined.



(** X28. The source a delivery is filed under is found by the type the
    handler infers from the address and by the address itself: without
    interference, whenever an answer carries a source id, the table
    holds exactly one source of that type and value, and the id is
    its id. The type a source was registered with through another
    route plays no part. *)
Theorem POST_resolves_by_inferred_type localTZA body st r w' sid :
  POST localTZA (Some body) {| store := st; script := [] |} = (r, w') ->
  sourceId (json r) = Some sid ->
  exists wd row,
    parseV2WebhookPayload body = Zod.Success wd /\
    filter (source_is (Repositories.inferSourceType (sourceTo wd)) (sourceTo wd))
           (sources (store w')) = [row] /\
    id row = sid.
Proof.
  unfold POST, bind, ret.
  destruct (parseV2WebhookPayload body) as [wd|issues];
    [|intros H; injection H as <- <-; discriminate].
  destruct (findOrCreateSource _ _ _) as [s w1] eqn:Hs.
  destruct (out_error s) as [e|] eqn:He; [intros H; injection H as <- <-; discriminate|].
  destruct (out_data s) as [source|] eqn:Hd; [|intros H; injection H as <- <-; discriminate].
  rewrite (outcome_eta s source He Hd) in Hs.
  apply findOrCreateSource_found in Hs as (st1 & row & -> & F & <- & _).
  rewrite getUsersForSource_quiet. cbn [out_error out_data].
  destruct (List.length _ =? 0)%nat.
  { intros H. injection H as <- <-. cbn. intros S. injection S as <-.
    exists wd, row. auto. }
  rewrite createV2Transaction_quiet.
  assert (Keep : forall d, sources (snd (insert_transaction d st1)) = sources st1).
  { intros d. unfold insert_transaction. destruct (existsb _ _); reflexivity. }
  destruct (filter (webhook_is _) (v2_transactions st1)) as [|t0 [|t1 l]];
    [destruct (JsDate.ofString (timestamp wd));
       [destruct (existsb _ (v2_transactions st1))|]
    | | destruct (JsDate.ofString (timestamp wd));
       [destruct (existsb _ (v2_transactions st1))|] ];
    decide_includes; intros H; injection H as <- <-; cbn [json sourceId error_response];
    try discriminate; intros S; injection S as <-; exists wd, row;
    cbn [store]; rewrite ?Keep; auto.
Qed.

Lemma POST_resolves_by_inferred_type_witness :
  exists row,
    filter (source_is email "jdcadavid96@gmail.com") (sources Examples.configuredStore) = [row]
    /\ id row = 0%nat.
Proof.
  destruct (POST_resolves_by_inferred_type Examples.utc (Js.Obj Examples.validPayload)
              Examples.configuredStore
              (fst (POST Examples.utc (Some (Js.Obj Examples.validPayload))
                      {| store := Examples.configuredStore; script := [] |}))
              (snd (POST Examples.utc (Some (Js.Obj Examples.validPayload))
                      {| store := Examples.configuredStore; script := [] |}))
              0%nat)
    as (wd & row & P & F & I);
    [apply surjective_pairing | vm_compute; reflexivity |].
  vm_compute in P. injection P as <-. exists row. split; [exact F|exact I].
Defined.
End StoredRows.


(** ** Payloads of the source management *)

Section SourcePayloads.
Import V2Validation.

Lemma enum_accepts (options : list string) (p : list string) (s : string) :
  In s options -> Zod.enum options p (Js.Str s) = Zod.Parsed s [].
Proof.
  intros H. unfold Zod.enum.
  replace (existsb (String.eqb s) options) with true; [reflexivity|].
  symmetry. apply existsb_exists. exists s. split; [exact H|apply String.eqb_refl].
Qed.

(** X29. [validateSourcePayload] judges the value by its own shape,
    not by the type that is declared with it: a payload is accepted
    exactly when the type is one of the three names and the value has
    1 to 255 characters and is a valid e-mail address if it holds an at
    sign, a valid phone number if it starts with a plus sign, and
    anything otherwise. *)
Theorem validateSourcePayload_iff (o : list (string * Js.value)) (t v : string) :
  validateSourcePayload (Js.Obj o)
  = Zod.Success {| sp_sourceType := t; sp_sourceValue := v |} <->
  Js.get o "sourceType" = Js.Str t /\ In t ["email"; "phone"; "webhook"] /\
  Js.get o "sourceValue" = Js.Str v /\ (1 <= String.length v <= 255)%nat /\
  (if Js.includes "@" v then isValidEmail v
   else if Js.startsWith "+" v then isValidPhone v else true) = true.
Proof.
  unfold validateSourcePayload. rewrite safeParse_success. unfold sourceSchema.
  rewrite ap_parsed_nil. split.
  - intros (g & a & Hg & Ha & Hp). apply ap_parsed_nil in Hg as (g0 & a0 & Hg0 & Ha0 & ->).
    unfold Zod.pure in Hg0. injection Hg0 as <-. injection Hp as -> ->.
    unfold Zod.key in *. apply enum_parsed in Ha0 as [Ht Hin].
    apply sourceValue_parsed in Ha as (Hv & Hl & Hs). auto.
  - intros (Ht & Hin & Hv & Hl & Hs).
    exists (Build_SourcePayload t), v. unfold Zod.key. rewrite Ht, Hv. split; [|split].
    + apply ap_parsed_nil. exists Build_SourcePayload, t.
      split; [reflexivity|]. split; [apply enum_accepts; exact Hin|reflexivity].
    + apply sourceValue_parsed. auto.
    + reflexivity.
Qed.
End SourcePayloads.

